(** * SeoForge client: a shallow embedding of the BaaS glue code

    The repository is a React single-page application whose logic lives in
    - [src/lib/supabase.ts]   (module [Supabase]): wrappers over supabase-js,
    - [src/lib/firebase.ts]   (module [Firebase]): the parallel Firestore wrappers,
    - [src/store/authStore.ts] and [src/store/projectStore.ts] (zustand stores),
    - [src/App.tsx]           (module [App]): the hash router,
    - [src/components/editor/ArticleEditor.tsx] (module [ArticleEditor]),
    - [supabase/migrations/*.sql] (module [Reference]): schema, defaults,
      constraints and triggers of the managed database.

    Every [async] function is embedded as a computation in a state and
    exception monad [M]: it threads a [World] (the platform behind the SDK,
    the log of SDK requests, the console and the client-side stores) and
    completes either normally or abruptly (a JavaScript [throw]).
    JavaScript values are dynamically typed, so they are embedded in one
    type [Value]; property access on [null]/[undefined] raises a TypeError
    exactly where the JavaScript would.

    The UI runs on a single-threaded event loop: an invocation is embedded
    as running to completion; interleavings of several pending invocations
    at their [await] points are outside this model. *)

From Stdlib Require Import String Ascii ZArith List Bool Arith Lia.
Import ListNotations.

Local Open Scope string_scope.
Local Open Scope list_scope.
Set Warnings "-register-all".

(* ===================================================================== *)
(** ** JavaScript values                                                  *)
(* ===================================================================== *)

Module JS.

(** Numbers are the integers the code handles (counters, epoch
    milliseconds); [VDate] is a [Date] or an ISO timestamp, kept as epoch
    milliseconds; [VError] is an instance of [Error].  The last three
    constructors are the write sentinels of the two SDKs:
    Firestore's [serverTimestamp()] and [increment(n)], and the raw SQL
    fragment built by the [supabase.sql] template tag. *)
Inductive Value : Type :=
| VUndef
| VNull
| VBool (b : bool)
| VNum (n : Z)
| VStr (s : string)
| VDate (ms : Z)
| VError (message : string)
| VArr (items : list Value)
| VObj (fields : list (string * Value))
| VServerTimestamp
| VIncrement (n : Z)
| VSql (expr : string).

(** Completion records: a computation returns or throws. *)
Inductive Completion (A : Type) : Type :=
| Normal (a : A)
| Throw (e : Value).
Arguments Normal {A} a.
Arguments Throw {A} e.

Definition TypeError (what : string) : Value := VError ("TypeError: " ++ what).

(** ToBoolean. *)
Definition truthy (v : Value) : bool :=
  match v with
  | VUndef | VNull => false
  | VBool b => b
  | VNum n => negb (Z.eqb n 0)
  | VStr s => negb (String.eqb s "")
  | _ => true
  end.

Definition falsy (v : Value) : bool := negb (truthy v).

Fixpoint assoc (k : string) (fs : list (string * Value)) : option Value :=
  match fs with
  | [] => None
  | (k', v) :: rest => if String.eqb k k' then Some v else assoc k rest
  end.

(** [v.k]: a TypeError on [null] and [undefined], [undefined] for a
    property that is not there. *)
Definition prop (k : string) (v : Value) : Completion Value :=
  match v with
  | VUndef => Throw (TypeError ("Cannot read properties of undefined (reading '" ++ k ++ "')"))
  | VNull => Throw (TypeError ("Cannot read properties of null (reading '" ++ k ++ "')"))
  | VObj fs => Normal (match assoc k fs with Some x => x | None => VUndef end)
  | VError m => Normal (if String.eqb k "message" then VStr m else VUndef)
  | _ => Normal VUndef
  end.

(** The TypeError of a method call or property read on [null] or
    [undefined]. *)
Definition bind_prop_error {A} (v : Value) : Completion A :=
  Throw (TypeError (match v with
                    | VNull => "Cannot read properties of null"
                    | _ => "Cannot read properties of undefined"
                    end)).

(** [v?.k]. *)
Definition opt_prop (k : string) (v : Value) : Value :=
  match prop k v with
  | Normal x => x
  | Throw _ => VUndef
  end.

(** [a || b] and [a && b] on values. *)
Definition or_else (a b : Value) : Value := if truthy a then a else b.
Definition and_then (a b : Value) : Value := if truthy a then b else a.

(** Object literal with later keys overriding earlier ones, as
    [{ id: d.id, ...d.data(), created_at: x }] does. *)
Fixpoint set_key (k : string) (v : Value) (fs : list (string * Value))
  : list (string * Value) :=
  match fs with
  | [] => [(k, v)]
  | (k', v') :: rest =>
      if String.eqb k k' then (k, v) :: rest else (k', v') :: set_key k v rest
  end.

Definition literal (fs : list (string * Value)) : list (string * Value) :=
  fold_left (fun acc kv => set_key (fst kv) (snd kv) acc) fs [].

(** [...v] inside an object literal: own enumerable properties; nothing
    for [null], [undefined] and primitives. *)
Definition spread_props (v : Value) : list (string * Value) :=
  match v with
  | VObj fs => fs
  | _ => []
  end.

(** Structural equality, used for [===] on primitives and for the
    equality filters of the platform. *)
Fixpoint value_eqb (a b : Value) {struct a} : bool :=
  let fix items_eqb (xs ys : list Value) {struct xs} : bool :=
    match xs, ys with
    | [], [] => true
    | x :: xs', y :: ys' => value_eqb x y && items_eqb xs' ys'
    | _, _ => false
    end in
  let fix fields_eqb (xs ys : list (string * Value)) {struct xs} : bool :=
    match xs, ys with
    | [], [] => true
    | (k, x) :: xs', (k', y) :: ys' =>
        String.eqb k k' && value_eqb x y && fields_eqb xs' ys'
    | _, _ => false
    end in
  match a, b with
  | VUndef, VUndef => true
  | VNull, VNull => true
  | VBool x, VBool y => Bool.eqb x y
  | VNum x, VNum y => Z.eqb x y
  | VStr x, VStr y => String.eqb x y
  | VDate x, VDate y => Z.eqb x y
  | VError x, VError y => String.eqb x y
  | VArr xs, VArr ys => items_eqb xs ys
  | VObj xs, VObj ys => fields_eqb xs ys
  | VServerTimestamp, VServerTimestamp => true
  | VIncrement x, VIncrement y => Z.eqb x y
  | VSql x, VSql y => String.eqb x y
  | _, _ => false
  end.

(** [a === b]: primitives by value; two objects obtained separately are
    never the same reference. *)
Definition strict_eq (a b : Value) : bool :=
  match a, b with
  | VUndef, VUndef => true
  | VNull, VNull => true
  | VBool x, VBool y => Bool.eqb x y
  | VNum x, VNum y => Z.eqb x y
  | VStr x, VStr y => String.eqb x y
  | _, _ => false
  end.

(** [v.length] and [v[0]] on a value that is not [null] or [undefined]. *)
Definition length_of (v : Value) : Value :=
  match v with
  | VArr xs => VNum (Z.of_nat (List.length xs))
  | VStr s => VNum (Z.of_nat (String.length s))
  | _ => opt_prop "length" v
  end.

Definition index0 (v : Value) : Value :=
  match v with
  | VArr (x :: _) => x
  | VArr [] => VUndef
  | VStr (String c _) => VStr (String c EmptyString)
  | _ => opt_prop "0" v
  end.

(** [a > n] for a number literal [n]; [undefined > n] is false. *)
Definition gt_num (a : Value) (n : Z) : bool :=
  match a with
  | VNum x => Z.ltb n x
  | _ => false
  end.

(** [xs.includes(v)] on an array literal of strings. *)
Definition includes_value (xs : list string) (v : Value) : bool :=
  match v with
  | VStr s => existsb (String.eqb s) xs
  | _ => false
  end.

(** [e instanceof Error], with [e.message]. *)
Definition error_message (e : Value) : option string :=
  match e with
  | VError message => Some message
  | _ => None
  end.

(** [hay.includes(needle)] on strings. *)
Fixpoint str_includes (needle hay : string) : bool :=
  String.prefix needle hay ||
  match hay with
  | EmptyString => false
  | String _ rest => str_includes needle rest
  end.

(** White space and line terminators of ECMAScript that fit in one
    character of [string]: TAB, LF, VT, FF, CR, SP, NBSP. *)
Definition is_space (c : ascii) : bool :=
  let n := nat_of_ascii c in
  (Nat.leb 9 n && Nat.leb n 13) || Nat.eqb n 32 || Nat.eqb n 160.

Fixpoint trim_start (s : string) : string :=
  match s with
  | String c rest => if is_space c then trim_start rest else s
  | EmptyString => EmptyString
  end.

Fixpoint rev_string (s acc : string) : string :=
  match s with
  | EmptyString => acc
  | String c rest => rev_string rest (String c acc)
  end.

Definition trim_end (s : string) : string :=
  rev_string (trim_start (rev_string s "")) "".

(** [s.trim()]. *)
Definition trim (s : string) : string := trim_end (trim_start s).

End JS.
Export JS.

(* ===================================================================== *)
(** ** The platform behind the SDKs                                       *)
(* ===================================================================== *)

Module Sdk.

(** A PostgREST request as the supabase-js builder chain spells it:
    [supabase.from(table).<verb>(...).<modifier>(...)...]. *)
Inductive Verb : Type :=
| select (columns : string)
| insert (rows : list Value)
| update (changes : Value)
| delete.

Inductive Modifier : Type :=
| eq (column : string) (v : Value)
| is_ (column : string) (v : Value)
| gt (column : string) (v : Value)
| order (column : string) (ascending : bool)
| limit (n : Value)
| returning (columns : string)      (* [.select(...)] after a write *)
| single.

Record Query : Type := from_ { table : string; verb : Verb; modifiers : list Modifier }.

(** Firestore query constraints: [where], [orderBy], [limit]. *)
Inductive Constraint : Type :=
| where_ (field op : string) (v : Value)
| orderBy (field direction : string)
| limit_ (n : Value).

(** Everything the client asks of its environment.  A Firestore document
    reference is the value [doc coll id]. *)
Inductive Req : Type :=
(* supabase-js *)
| auth_signUp (credentials : Value)
| auth_signInWithPassword (credentials : Value)
| auth_signOut
| auth_getUser
| auth_onAuthStateChange
| postgrest (q : Query)
| rpc (fn : string) (args : Value)
(* firebase/auth and firebase/firestore *)
| createUserWithEmailAndPassword (email password : Value)
| signInWithEmailAndPassword (email password : Value)
| firebaseSignOut
| onAuthStateChanged
| setDoc (ref data : Value)
| addDoc (collection : string) (data : Value)
| updateDoc (ref data : Value)
| getDoc (ref : Value)
| getDocs (collection : string) (constraints : list Constraint)
| deleteDoc (ref : Value)
(* lib/gemini, and the browser timer *)
| generateContent (prompt kind : Value)
| setTimeout (ms : Z).

Definition doc (collection : string) (id : Value) : Value :=
  VObj [("collection", VStr collection); ("id", id)].

(** The calls that reach the backend-as-a-service; the rest are the
    content generator and the timer. *)
Definition is_baas_call (r : Req) : bool :=
  match r with
  | generateContent _ _ | setTimeout _ => false
  | _ => true
  end.

Definition is_timer (r : Req) : bool :=
  match r with
  | setTimeout _ => true
  | _ => false
  end.

(** The environment is any deterministic state machine.  An asynchronous
    request resolves with a value or rejects (throws); the synchronous
    reads cannot fail: [auth.currentUser], the clock behind [new Date()]
    and [Date.now()], and [Math.random().toString(36)]; [elapse] is the
    passing of a timer's delay. *)
Class Platform : Type := {
  backend : Type;
  respond : Req -> backend -> Completion Value * backend;
  current_user : backend -> Value;
  clock : backend -> Z;
  random36 : backend -> string * backend;
  elapse : Z -> backend -> backend
}.

End Sdk.
Export Sdk.

(* ===================================================================== *)
(** ** Client state and the monad of invocations                          *)
(* ===================================================================== *)

(** [useAuthStore] (authStore.ts). *)
Record AuthState : Type := {
  user : Value;
  userProfile : Value;
  auth_loading : bool;
  initialized : bool
}.

(** [useProjectStore] (projectStore.ts). *)
Record ProjectState : Type := {
  projects : Value;
  currentProject : Value;
  articles : Value;
  loading : bool
}.

(** Local state of the [ArticleEditor] component; [editor] is the tiptap
    document ([None] while the editor is not created yet). *)
Record EditorState : Type := {
  title : string;
  isGenerating : bool;
  canEdit : Value;
  contentLength : string;
  editor : option Value;
  notifications : list (string * string)
}.

Record World `{Platform} : Type := {
  platform : backend;
  calls : list Req;
  console : list (string * Value);
  authStore : AuthState;
  projectStore : ProjectState;
  editorState : EditorState
}.

Section Monad.
Context `{Platform}.

Definition M (A : Type) : Type := World -> Completion A * World.

Definition ret {A} (a : A) : M A := fun w => (Normal a, w).

Definition throw {A} (e : Value) : M A := fun w => (Throw e, w).

Definition bind {A B} (m : M A) (k : A -> M B) : M B :=
  fun w =>
    match m w with
    | (Normal a, w') => k a w'
    | (Throw e, w') => (Throw e, w')
    end.

(** [try { body } catch (e) { handler }]. *)
Definition try_catch {A} (body : M A) (handler : Value -> M A) : M A :=
  fun w =>
    match body w with
    | (Normal a, w') => (Normal a, w')
    | (Throw e, w') => handler e w'
    end.

(** [try { body } finally { cleanup }], for a cleanup that returns nothing. *)
Definition try_finally {A} (body : M A) (cleanup : M unit) : M A :=
  fun w =>
    match body w with
    | (c, w') =>
        match cleanup w' with
        | (Normal _, w'') => (c, w'')
        | (Throw e, w'') => (Throw e, w'')
        end
    end.

(** [await <sdk call>]: the request is logged and the platform answers. *)
Definition await (r : Req) : M Value :=
  fun w =>
    let (c, b) := respond r (platform w) in
    (c, {| platform := b;
           calls := calls w ++ [r];
           console := console w;
           authStore := authStore w;
           projectStore := projectStore w;
           editorState := editorState w |}).

Definition lift {A} (c : Completion A) : M A := fun w => (c, w).

(** [v.k] inside a computation. *)
Definition get (v : Value) (k : string) : M Value := lift (prop k v).

Definition with_platform (b : backend) (w : World) : World :=
  {| platform := b;
     calls := calls w;
     console := console w;
     authStore := authStore w;
     projectStore := projectStore w;
     editorState := editorState w |}.

(** [await new Promise(resolve => setTimeout(resolve, ms))]. *)
Definition sleep (ms : Z) : M unit :=
  fun w =>
    (Normal tt, {| platform := elapse ms (platform w);
                   calls := calls w ++ [setTimeout ms];
                   console := console w;
                   authStore := authStore w;
                   projectStore := projectStore w;
                   editorState := editorState w |}).

(** [Date.now()]; [new Date()] is [VDate] of it. *)
Definition Date_now : M Z := fun w => (Normal (clock (platform w)), w).

(** [Math.random().toString(36)]. *)
Definition Math_random_toString36 : M string :=
  fun w => let (s, b) := random36 (platform w) in (Normal s, with_platform b w).

(** [if (c) { m }]. *)
Definition when (c : bool) (m : M unit) : M unit := if c then m else ret tt.

(** zustand's [set] and React's state setters, one per slice of state. *)
Definition set_auth (f : AuthState -> AuthState) : M unit :=
  fun w =>
    (Normal tt, {| platform := platform w;
                   calls := calls w;
                   console := console w;
                   authStore := f (authStore w);
                   projectStore := projectStore w;
                   editorState := editorState w |}).

Definition set_project (f : ProjectState -> ProjectState) : M unit :=
  fun w =>
    (Normal tt, {| platform := platform w;
                   calls := calls w;
                   console := console w;
                   authStore := authStore w;
                   projectStore := f (projectStore w);
                   editorState := editorState w |}).

Definition set_editor (f : EditorState -> EditorState) : M unit :=
  fun w =>
    (Normal tt, {| platform := platform w;
                   calls := calls w;
                   console := console w;
                   authStore := authStore w;
                   projectStore := projectStore w;
                   editorState := f (editorState w) |}).

Definition read {A} (f : World -> A) : M A := fun w => (Normal (f w), w).

(** [xs.map(f)] for a synchronous [f]: the first throw ends the loop. *)
Fixpoint mapM {A B} (f : A -> M B) (xs : list A) : M (list B) :=
  match xs with
  | [] => ret []
  | x :: rest =>
      bind (f x) (fun y => bind (mapM f rest) (fun ys => ret (y :: ys)))
  end.

(** [xs.map(async x => ...)]: every callback is started, in order, whether
    or not an earlier one failed; the platform answers in request order. *)
Fixpoint settle_all {A B} (f : A -> M B) (xs : list A) : M (list (Completion B)) :=
  match xs with
  | [] => ret []
  | x :: rest =>
      fun w =>
        let (c, w') := f x w in
        bind (settle_all f rest) (fun cs => ret (c :: cs)) w'
  end.

Fixpoint first_rejection {B} (cs : list (Completion B)) : Completion (list B) :=
  match cs with
  | [] => Normal []
  | Throw e :: _ => Throw e
  | Normal b :: rest =>
      match first_rejection rest with
      | Normal bs => Normal (b :: bs)
      | Throw e => Throw e
      end
  end.

(** [await Promise.all(xs.map(async x => ...))]. *)
Definition Promise_all_map {A B} (f : A -> M B) (xs : list A) : M (list B) :=
  bind (settle_all f xs) (fun cs => lift (first_rejection cs)).

(** [v.map(...)] needs an array. *)
Definition as_array (v : Value) : M (list Value) :=
  match v with
  | VArr xs => ret xs
  | VUndef | VNull => lift (bind_prop_error v)
  | _ => throw (TypeError "map is not a function")
  end.

(** [console.error(msg, e)] and [console.warn(msg, e)]. *)
Definition console_log (msg : string) (e : Value) : M unit :=
  fun w =>
    (Normal tt, {| platform := platform w;
                   calls := calls w;
                   console := console w ++ [(msg, e)];
                   authStore := authStore w;
                   projectStore := projectStore w;
                   editorState := editorState w |}).

Definition console_error := console_log.
Definition console_warn := console_log.

End Monad.

Declare Scope js_scope.
Delimit Scope js_scope with js.
Notation "x <- m ;; k" := (bind m (fun x => k))
  (at level 100, m at next level, right associativity) : js_scope.
Notation "m ;; k" := (bind m (fun _ => k))
  (at level 100, right associativity) : js_scope.
Abbreviation obj := VObj (only parsing).
Local Open Scope js_scope.

(* ===================================================================== *)
(** ** App.tsx: the hash router                                           *)
(* ===================================================================== *)

Module App.

Inductive View : Type :=
| landing | dashboard | editor_view | brief_generator | team | settings
| pricing | support.

Record AppState : Type := {
  showAuthModal : bool;
  authMode : string;
  currentView : View
}.

Definition setCurrentView (v : View) (st : AppState) : AppState :=
  {| showAuthModal := showAuthModal st; authMode := authMode st; currentView := v |}.

(** [hash.startsWith(p)]. *)
Definition startsWith (hash p : string) : bool := String.prefix p hash.

(** [handleHashChange], with [window.location.hash] as its input. *)
Definition handleHashChange (hash : string) (st : AppState) : AppState :=
  if startsWith hash "#/dashboard" then setCurrentView dashboard st
  else if startsWith hash "#/project/" then setCurrentView editor_view st
  else if startsWith hash "#/brief-generator" then setCurrentView brief_generator st
  else if startsWith hash "#/team" then setCurrentView team st
  else if startsWith hash "#/settings" then setCurrentView settings st
  else if startsWith hash "#/pricing" then setCurrentView pricing st
  else if startsWith hash "#/support" then setCurrentView support st
  else setCurrentView landing st.

(** The routing table in the words of the specification: the prefixes in
    their fixed order, the view of the first one that matches, [landing]
    when none does. *)
Definition route_table : list (string * View) :=
  [ ("#/dashboard", dashboard);
    ("#/project/", editor_view);
    ("#/brief-generator", brief_generator);
    ("#/team", team);
    ("#/settings", settings);
    ("#/pricing", pricing);
    ("#/support", support) ].

Definition first_matching_route (hash : string) : View :=
  match find (fun r => String.prefix (fst r) hash) route_table with
  | Some r => snd r
  | None => landing
  end.

End App.

(* ===================================================================== *)
(** ** src/lib/supabase.ts                                                *)
(* ===================================================================== *)

Module Supabase.
Section Wrappers.
Context `{Platform}.

Definition result (data error : Value) : Value :=
  obj [("data", data); ("error", error)].

(** [new Date().toISOString()]. *)
Definition now_iso : M Value := (t <- Date_now ;; ret (VDate t)).

(** The block that follows every successful write:
    [try { await supabase.rpc('log_activity', args) }
     catch (logError) { console.warn('Failed to log activity:', logError) }]. *)
Definition try_log_activity (args : M Value) : M unit :=
  try_catch
    (a <- args ;;
     _ <- await (rpc "log_activity" a) ;;
     ret tt)
    (fun logError => console_warn "Failed to log activity:" logError).

Definition signUp (email password fullName : Value) : M Value :=
  try_catch
    (r <- await (auth_signUp
                   (obj [("email", email); ("password", password);
                         ("options", obj [("data", obj [("full_name", fullName)])])])) ;;
     data <- get r "data" ;;
     error <- get r "error" ;;
     ret (result data error))
    (fun error =>
       console_error "Signup error:" error ;;
       ret (result VNull error)).

Definition signIn (email password : Value) : M Value :=
  try_catch
    (r <- await (auth_signInWithPassword
                   (obj [("email", email); ("password", password)])) ;;
     data <- get r "data" ;;
     error <- get r "error" ;;
     ret (result data error))
    (fun error =>
       console_error "Signin error:" error ;;
       ret (result VNull error)).

Definition signOut : M Value :=
  r <- await auth_signOut ;;
  error <- get r "error" ;;
  ret (obj [("error", error)]).

Definition getCurrentUser : M Value :=
  try_catch
    (r <- await auth_getUser ;;
     data <- get r "data" ;;
     user <- get data "user" ;;
     ret user)
    (fun error =>
       console_error "Get current user error:" error ;;
       ret VNull).

(** [const user = await getCurrentUser();
     if (!user) throw new Error('User not authenticated');] *)
Definition require_user : M Value :=
  user <- getCurrentUser ;;
  if falsy user then throw (VError "User not authenticated") else ret user.

Definition createProject (title description : Value) : M Value :=
  try_catch
    (user <- require_user ;;
     uid <- get user "id" ;;
     r <- await (postgrest
                   (from_ "projects"
                      (insert [obj [("user_id", uid); ("owner_id", uid);
                                    ("title", title); ("description", description)]])
                      [returning "*"; single])) ;;
     data <- get r "data" ;;
     error <- get r "error" ;;
     when (truthy data && falsy error)
       (try_log_activity
          (id <- get data "id" ;;
           ret (obj [("p_project_id", id); ("p_action", VStr "created");
                     ("p_resource_type", VStr "project"); ("p_resource_id", id);
                     ("p_metadata", obj [("title", title)])]))) ;;
     ret (result data error))
    (fun error =>
       console_error "Create project error:" error ;;
       ret (result VNull error)).

Definition getUserProjects : M Value :=
  try_catch
    (user <- require_user ;;
     uid <- get user "id" ;;
     r <- await (postgrest
                   (from_ "projects"
                      (select "*, team_members!inner(role, status)")
                      [eq "team_members.user_id" uid;
                       eq "team_members.status" (VStr "active");
                       order "created_at" false])) ;;
     data <- get r "data" ;;
     error <- get r "error" ;;
     ret (result (or_else data (VArr [])) error))
    (fun error =>
       console_error "Get user projects error:" error ;;
       ret (result (VArr []) error)).

Definition createArticle (projectId title content : Value) : M Value :=
  try_catch
    (r <- await (postgrest
                   (from_ "articles"
                      (insert [obj [("project_id", projectId); ("title", title);
                                    ("content", content)]])
                      [returning "*"; single])) ;;
     data <- get r "data" ;;
     error <- get r "error" ;;
     when (truthy data && falsy error)
       (try_log_activity
          (id <- get data "id" ;;
           ret (obj [("p_project_id", projectId); ("p_action", VStr "created");
                     ("p_resource_type", VStr "article"); ("p_resource_id", id);
                     ("p_metadata", obj [("title", title)])]))) ;;
     ret (result data error))
    (fun error =>
       console_error "Create article error:" error ;;
       ret (result VNull error)).

Definition getProjectArticles (projectId : Value) : M Value :=
  try_catch
    (r <- await (postgrest
                   (from_ "articles" (select "*")
                      [eq "project_id" projectId; order "created_at" false])) ;;
     data <- get r "data" ;;
     error <- get r "error" ;;
     ret (result (or_else data (VArr [])) error))
    (fun error =>
       console_error "Get project articles error:" error ;;
       ret (result (VArr []) error)).

Definition updateArticle (articleId updates : Value) : M Value :=
  try_catch
    (r <- await (postgrest
                   (from_ "articles" (update updates)
                      [eq "id" articleId; returning "*"; single])) ;;
     data <- get r "data" ;;
     error <- get r "error" ;;
     when (truthy data && falsy error)
       (try_log_activity
          (pid <- get data "project_id" ;;
           id <- get data "id" ;;
           t <- get data "title" ;;
           ret (obj [("p_project_id", pid); ("p_action", VStr "updated");
                     ("p_resource_type", VStr "article"); ("p_resource_id", id);
                     ("p_metadata", obj [("title", t)])]))) ;;
     ret (result data error))
    (fun error =>
       console_error "Update article error:" error ;;
       ret (result VNull error)).

Definition getUserProfile : M Value :=
  try_catch
    (user <- require_user ;;
     uid <- get user "id" ;;
     r <- await (postgrest (from_ "users" (select "*") [eq "id" uid])) ;;
     data <- get r "data" ;;
     error <- get r "error" ;;
     if truthy error then
       console_error "Get user profile error:" error ;;
       ret (result VNull error)
     else
       ret (result (if truthy data && gt_num (length_of data) 0
                    then index0 data else VNull)
                   VNull))
    (fun error =>
       console_error "Get user profile error:" error ;;
       ret (result VNull error)).

Definition updateUserProfile (updates : Value) : M Value :=
  try_catch
    (user <- require_user ;;
     uid <- get user "id" ;;
     r <- await (postgrest
                   (from_ "users" (update updates)
                      [eq "id" uid; returning "*"; single])) ;;
     data <- get r "data" ;;
     error <- get r "error" ;;
     ret (result data error))
    (fun error =>
       console_error "Update user profile error:" error ;;
       ret (result VNull error)).

(** *** Team collaboration *)

Definition getProjectTeamMembers (projectId : Value) : M Value :=
  try_catch
    (r <- await (postgrest
                   (from_ "team_members"
                      (select "*, user:users(id, email, full_name)")
                      [eq "project_id" projectId; eq "status" (VStr "active");
                       order "created_at" true])) ;;
     data <- get r "data" ;;
     error <- get r "error" ;;
     ret (result (or_else data (VArr [])) error))
    (fun error =>
       console_error "Get team members error:" error ;;
       ret (result (VArr []) error)).

Definition inviteTeamMember (projectId email role : Value) : M Value :=
  try_catch
    (user <- require_user ;;
     uid <- get user "id" ;;
     (* Check if user is already a team member *)
     r1 <- await (postgrest
                    (from_ "team_members" (select "id")
                       [eq "project_id" projectId; eq "user_id" uid; single])) ;;
     existingMember <- get r1 "data" ;;
     if truthy existingMember then
       ret (obj [("error", obj [("message", VStr "User is already a team member")])])
     else
       (* Check if there's already a pending invitation *)
       now <- now_iso ;;
       r2 <- await (postgrest
                      (from_ "project_invitations" (select "id")
                         [eq "project_id" projectId; eq "email" email;
                          is_ "accepted_at" VNull; gt "expires_at" now; single])) ;;
       existingInvitation <- get r2 "data" ;;
       if truthy existingInvitation then
         ret (obj [("error", obj [("message", VStr "Invitation already sent to this email")])])
       else
         uid' <- get user "id" ;;
         r <- await (postgrest
                       (from_ "project_invitations"
                          (insert [obj [("project_id", projectId); ("email", email);
                                        ("role", role); ("invited_by", uid')]])
                          [returning "*"; single])) ;;
         data <- get r "data" ;;
         error <- get r "error" ;;
         when (truthy data && falsy error)
           (try_log_activity
              (ret (obj [("p_project_id", projectId); ("p_action", VStr "invited");
                         ("p_resource_type", VStr "team_member");
                         ("p_metadata", obj [("email", email); ("role", role)])]))) ;;
         ret (result data error))
    (fun error =>
       console_error "Invite team member error:" error ;;
       ret (result VNull error)).

Definition removeTeamMember (projectId userId : Value) : M Value :=
  try_catch
    (r <- await (postgrest
                   (from_ "team_members" (update (obj [("status", VStr "inactive")]))
                      [eq "project_id" projectId; eq "user_id" userId;
                       returning "*"; single])) ;;
     data <- get r "data" ;;
     error <- get r "error" ;;
     when (truthy data && falsy error)
       (try_log_activity
          (ret (obj [("p_project_id", projectId); ("p_action", VStr "removed");
                     ("p_resource_type", VStr "team_member");
                     ("p_resource_id", userId)]))) ;;
     ret (result data error))
    (fun error =>
       console_error "Remove team member error:" error ;;
       ret (result VNull error)).

Definition updateTeamMemberRole (projectId userId role : Value) : M Value :=
  try_catch
    (r <- await (postgrest
                   (from_ "team_members" (update (obj [("role", role)]))
                      [eq "project_id" projectId; eq "user_id" userId;
                       returning "*"; single])) ;;
     data <- get r "data" ;;
     error <- get r "error" ;;
     when (truthy data && falsy error)
       (try_log_activity
          (ret (obj [("p_project_id", projectId); ("p_action", VStr "role_updated");
                     ("p_resource_type", VStr "team_member");
                     ("p_resource_id", userId);
                     ("p_metadata", obj [("new_role", role)])]))) ;;
     ret (result data error))
    (fun error =>
       console_error "Update team member role error:" error ;;
       ret (result VNull error)).

Definition getProjectInvitations (projectId : Value) : M Value :=
  try_catch
    (now <- now_iso ;;
     r <- await (postgrest
                   (from_ "project_invitations" (select "*")
                      [eq "project_id" projectId; is_ "accepted_at" VNull;
                       gt "expires_at" now; order "created_at" false])) ;;
     data <- get r "data" ;;
     error <- get r "error" ;;
     ret (result (or_else data (VArr [])) error))
    (fun error =>
       console_error "Get project invitations error:" error ;;
       ret (result (VArr []) error)).

Definition cancelInvitation (invitationId : Value) : M Value :=
  try_catch
    (r <- await (postgrest
                   (from_ "project_invitations" delete
                      [eq "id" invitationId; returning "*"; single])) ;;
     data <- get r "data" ;;
     error <- get r "error" ;;
     ret (result data error))
    (fun error =>
       console_error "Cancel invitation error:" error ;;
       ret (result VNull error)).

Definition acceptInvitation (token : Value) : M Value :=
  try_catch
    (user <- require_user ;;
     (* Get invitation details *)
     now <- now_iso ;;
     r1 <- await (postgrest
                    (from_ "project_invitations" (select "*")
                       [eq "token" token; is_ "accepted_at" VNull;
                        gt "expires_at" now; single])) ;;
     invitation <- get r1 "data" ;;
     inviteError <- get r1 "error" ;;
     if truthy inviteError || falsy invitation then
       ret (obj [("error", obj [("message", VStr "Invalid or expired invitation")])])
     else
       (* Check if user email matches invitation email *)
       user_email <- get user "email" ;;
       invitation_email <- get invitation "email" ;;
       if negb (strict_eq user_email invitation_email) then
         ret (obj [("error",
                    obj [("message", VStr "Invitation email does not match your account")])])
       else
         (* Create team member *)
         uid <- get user "id" ;;
         pid <- get invitation "project_id" ;;
         role <- get invitation "role" ;;
         invited_by <- get invitation "invited_by" ;;
         r2 <- await (postgrest
                        (from_ "team_members"
                           (insert [obj [("user_id", uid); ("project_id", pid);
                                         ("role", role); ("invited_by", invited_by);
                                         ("status", VStr "active")]])
                           [returning "*"; single])) ;;
         teamMember <- get r2 "data" ;;
         memberError <- get r2 "error" ;;
         if truthy memberError then
           ret (obj [("error", memberError)])
         else
           (* Mark invitation as accepted *)
           accepted_at <- now_iso ;;
           inv_id <- get invitation "id" ;;
           r3 <- await (postgrest
                          (from_ "project_invitations"
                             (update (obj [("accepted_at", accepted_at)]))
                             [eq "id" inv_id])) ;;
           updateError <- get r3 "error" ;;
           if truthy updateError then
             ret (obj [("error", updateError)])
           else
             (* Log activity *)
             try_log_activity
               (pid' <- get invitation "project_id" ;;
                uid' <- get user "id" ;;
                role' <- get invitation "role" ;;
                ret (obj [("p_project_id", pid'); ("p_action", VStr "joined");
                          ("p_resource_type", VStr "team_member");
                          ("p_resource_id", uid');
                          ("p_metadata", obj [("role", role')])])) ;;
             ret (result teamMember VNull))
    (fun error =>
       console_error "Accept invitation error:" error ;;
       ret (result VNull error)).

(** *** Comments *)

Definition getArticleComments (articleId : Value) : M Value :=
  try_catch
    (r <- await (postgrest
                   (from_ "article_comments"
                      (select "*, user:users(id, email, full_name)")
                      [eq "article_id" articleId; order "created_at" true])) ;;
     data <- get r "data" ;;
     error <- get r "error" ;;
     ret (result (or_else data (VArr [])) error))
    (fun error =>
       console_error "Get article comments error:" error ;;
       ret (result (VArr []) error)).

Definition createComment (articleId content position : Value) : M Value :=
  try_catch
    (user <- require_user ;;
     uid <- get user "id" ;;
     r <- await (postgrest
                   (from_ "article_comments"
                      (insert [obj [("article_id", articleId); ("user_id", uid);
                                    ("content", content); ("position", position)]])
                      [returning "*, user:users(id, email, full_name)"; single])) ;;
     data <- get r "data" ;;
     error <- get r "error" ;;
     ret (result data error))
    (fun error =>
       console_error "Create comment error:" error ;;
       ret (result VNull error)).

Definition updateComment (commentId content : Value) : M Value :=
  try_catch
    (now <- now_iso ;;
     r <- await (postgrest
                   (from_ "article_comments"
                      (update (obj [("content", content); ("updated_at", now)]))
                      [eq "id" commentId;
                       returning "*, user:users(id, email, full_name)"; single])) ;;
     data <- get r "data" ;;
     error <- get r "error" ;;
     ret (result data error))
    (fun error =>
       console_error "Update comment error:" error ;;
       ret (result VNull error)).

(** A parameter with a default ([resolved: boolean = true],
    [limit: number = 50]) takes it when the argument is [undefined]. *)
Definition default_to (d v : Value) : Value :=
  match v with
  | VUndef => d
  | _ => v
  end.

Definition resolveComment (commentId resolved : Value) : M Value :=
  let resolved := default_to (VBool true) resolved in
  try_catch
    (r <- await (postgrest
                   (from_ "article_comments" (update (obj [("resolved", resolved)]))
                      [eq "id" commentId; returning "*"; single])) ;;
     data <- get r "data" ;;
     error <- get r "error" ;;
     ret (result data error))
    (fun error =>
       console_error "Resolve comment error:" error ;;
       ret (result VNull error)).

Definition deleteComment (commentId : Value) : M Value :=
  try_catch
    (r <- await (postgrest
                   (from_ "article_comments" delete
                      [eq "id" commentId; returning "*"; single])) ;;
     data <- get r "data" ;;
     error <- get r "error" ;;
     ret (result data error))
    (fun error =>
       console_error "Delete comment error:" error ;;
       ret (result VNull error)).

(** *** Activity *)

Definition getProjectActivity (projectId limit_arg : Value) : M Value :=
  let limit_arg := default_to (VNum 50) limit_arg in
  try_catch
    (r <- await (postgrest
                   (from_ "activity_logs"
                      (select "*, user:users(id, email, full_name)")
                      [eq "project_id" projectId; order "created_at" false;
                       limit limit_arg])) ;;
     data <- get r "data" ;;
     error <- get r "error" ;;
     ret (result (or_else data (VArr [])) error))
    (fun error =>
       console_error "Get project activity error:" error ;;
       ret (result (VArr []) error)).

(** *** Permissions *)

Definition getUserProjectRole (projectId : Value) : M Value :=
  try_catch
    (user <- getCurrentUser ;;
     if falsy user then ret VNull
     else
       uid <- get user "id" ;;
       r <- await (postgrest
                     (from_ "team_members" (select "role")
                        [eq "project_id" projectId; eq "user_id" uid;
                         eq "status" (VStr "active"); single])) ;;
       data <- get r "data" ;;
       error <- get r "error" ;;
       if truthy error then
         console_error "Get user project role error:" error ;;
         ret VNull
       else
         ret (or_else (opt_prop "role" data) VNull))
    (fun error =>
       console_error "Get user project role error:" error ;;
       ret VNull).

Definition canUserEditProject (projectId : Value) : M Value :=
  role <- getUserProjectRole projectId ;;
  ret (and_then role (VBool (includes_value ["owner"; "admin"; "editor"] role))).

Definition canUserManageTeam (projectId : Value) : M Value :=
  role <- getUserProjectRole projectId ;;
  ret (and_then role (VBool (includes_value ["owner"; "admin"] role))).

(** *** Usage counter *)

Definition incrementUsageCount : M Value :=
  try_catch
    (user <- require_user ;;
     uid <- get user "id" ;;
     r <- await (postgrest
                   (from_ "users"
                      (update (obj [("usage_count", VSql "usage_count + 1")]))
                      [eq "id" uid; returning "*"; single])) ;;
     data <- get r "data" ;;
     error <- get r "error" ;;
     ret (result data error))
    (fun error =>
       console_error "Increment usage count error:" error ;;
       ret (result VNull error)).

End Wrappers.
End Supabase.

(* ===================================================================== *)
(** ** src/lib/firebase.ts                                                *)
(* ===================================================================== *)

Module Firebase.
Section Wrappers.
Context `{Platform}.

Definition result (data error : Value) : Value :=
  obj [("data", data); ("error", error)].

Definition serverTimestamp : Value := VServerTimestamp.
Definition increment (n : Z) : Value := VIncrement n.

(** A document snapshot is [{ id, ref, data }]; [snapshot.data()] is
    [undefined] for a document that does not exist.  A query snapshot is
    [{ docs }], and [empty] says that [docs] has no element. *)
Definition doc_data (d : Value) : M Value := get d "data".

Definition doc_exists (d : Value) : M bool :=
  data <- get d "data" ;;
  ret (match data with VUndef => false | _ => true end).

Definition snapshot_empty (snapshot : Value) : M bool :=
  docs <- get snapshot "docs" ;;
  ret (match docs with VArr (_ :: _) => false | _ => true end).

(** [t?.toDate()] on a Firestore timestamp. *)
Definition toDate_opt (t : Value) : M Value :=
  match t with
  | VUndef | VNull => ret VUndef
  | VDate ms => ret (VDate ms)
  | _ => throw (TypeError "toDate is not a function")
  end.

Definition getCurrentUser : M Value :=
  read (fun w => current_user (platform w)).

(** [const user = getCurrentUser();
     if (!user) throw new Error('User not authenticated');] *)
Definition require_user : M Value :=
  user <- getCurrentUser ;;
  if falsy user then throw (VError "User not authenticated") else ret user.

(** *** Helper functions *)

Definition generateInviteToken : M Value :=
  a <- Math_random_toString36 ;;
  b <- Math_random_toString36 ;;
  ret (VStr (String.substring 2 13 a ++ String.substring 2 13 b)).

Definition logActivity (projectId action resourceType resourceId metadata : Value)
  : M unit :=
  let metadata := match metadata with VUndef => obj [] | _ => metadata end in
  try_catch
    (user <- getCurrentUser ;;
     if falsy user then ret tt
     else
       uid <- get user "uid" ;;
       _ <- await (addDoc "activity_logs"
                     (obj [("project_id", projectId); ("user_id", uid);
                           ("action", action); ("resource_type", resourceType);
                           ("resource_id", or_else resourceId VNull);
                           ("metadata", metadata);
                           ("created_at", serverTimestamp)])) ;;
       ret tt)
    (fun error => console_warn "Failed to log activity:" error).

(** *** Auth helpers *)

Definition signUp (email password fullName : Value) : M Value :=
  try_catch
    (userCredential <- await (createUserWithEmailAndPassword email password) ;;
     user <- get userCredential "user" ;;
     (* Create user profile in Firestore *)
     uid <- get user "uid" ;;
     user_email <- get user "email" ;;
     _ <- await (setDoc (doc "users" uid)
                   (obj [("id", uid); ("email", user_email);
                         ("full_name", or_else fullName (VStr ""));
                         ("subscription_tier", VStr "free");
                         ("usage_count", VNum 0); ("usage_limit", VNum 10);
                         ("created_at", serverTimestamp);
                         ("updated_at", serverTimestamp)])) ;;
     ret (result (obj [("user", user)]) VNull))
    (fun error =>
       console_error "Signup error:" error ;;
       ret (result VNull error)).

Definition signIn (email password : Value) : M Value :=
  try_catch
    (userCredential <- await (signInWithEmailAndPassword email password) ;;
     user <- get userCredential "user" ;;
     ret (result (obj [("user", user)]) VNull))
    (fun error =>
       console_error "Signin error:" error ;;
       ret (result VNull error)).

Definition signOut : M Value :=
  try_catch
    (_ <- await firebaseSignOut ;;
     ret (obj [("error", VNull)]))
    (fun error => ret (obj [("error", error)])).

(** *** Database operations *)

Definition createProject (title description : Value) : M Value :=
  try_catch
    (user <- require_user ;;
     uid <- get user "uid" ;;
     let projectData :=
       [("user_id", uid); ("owner_id", uid); ("title", title);
        ("description", or_else description (VStr ""));
        ("created_at", serverTimestamp); ("updated_at", serverTimestamp)] in
     docRef <- await (addDoc "projects" (obj projectData)) ;;
     (* Create team member entry for owner *)
     uid' <- get user "uid" ;;
     project_id <- get docRef "id" ;;
     _ <- await (addDoc "team_members"
                   (obj [("user_id", uid'); ("project_id", project_id);
                         ("role", VStr "owner"); ("status", VStr "active");
                         ("created_at", serverTimestamp);
                         ("updated_at", serverTimestamp)])) ;;
     (* Log activity *)
     id1 <- get docRef "id" ;;
     id2 <- get docRef "id" ;;
     logActivity id1 (VStr "created") (VStr "project") id2 (obj [("title", title)]) ;;
     id <- get docRef "id" ;;
     let project := obj (literal (("id", id) :: projectData)) in
     ret (result project VNull))
    (fun error =>
       console_error "Create project error:" error ;;
       ret (result VNull error)).

(** [snapshot.docs.map(doc => ({ id: doc.id, ...doc.data(),
      k1: doc.data().k1?.toDate(), ... }))]: a stored document with its
    timestamps converted. *)
Definition with_dates (keys : list string) (d : Value) : M Value :=
  id <- get d "id" ;;
  data <- doc_data d ;;
  dates <- mapM (fun k =>
                   data' <- doc_data d ;;
                   t <- get data' k ;;
                   t' <- toDate_opt t ;;
                   ret (k, t')) keys ;;
  ret (obj (literal ((("id", id) :: spread_props data) ++ dates))).

Definition getUserProjects : M Value :=
  try_catch
    (user <- require_user ;;
     uid <- get user "uid" ;;
     (* Get team memberships *)
     teamMembersSnapshot <-
       await (getDocs "team_members"
                [where_ "user_id" "==" uid; where_ "status" "==" (VStr "active")]) ;;
     docs <- get teamMembersSnapshot "docs" ;;
     docs <- as_array docs ;;
     projectIds <- mapM (fun d => data <- doc_data d ;; get data "project_id") docs ;;
     if Nat.eqb (List.length projectIds) 0 then
       ret (result (VArr []) VNull)
     else
       (* Get projects *)
       projectsSnapshot <-
         await (getDocs "projects"
                  [where_ "__name__" "in" (VArr projectIds);
                   orderBy "created_at" "desc"]) ;;
       pdocs <- get projectsSnapshot "docs" ;;
       pdocs <- as_array pdocs ;;
       projects <- mapM (with_dates ["created_at"; "updated_at"]) pdocs ;;
       ret (result (VArr projects) VNull))
    (fun error =>
       console_error "Get user projects error:" error ;;
       ret (result (VArr []) error)).

Definition createArticle (projectId title content : Value) : M Value :=
  try_catch
    (let articleData :=
       [("project_id", projectId); ("title", title); ("content", content);
        ("created_at", serverTimestamp); ("updated_at", serverTimestamp)] in
     docRef <- await (addDoc "articles" (obj articleData)) ;;
     (* Log activity *)
     id1 <- get docRef "id" ;;
     logActivity projectId (VStr "created") (VStr "article") id1
       (obj [("title", title)]) ;;
     id <- get docRef "id" ;;
     let article := obj (literal (("id", id) :: articleData)) in
     ret (result article VNull))
    (fun error =>
       console_error "Create article error:" error ;;
       ret (result VNull error)).

Definition getProjectArticles (projectId : Value) : M Value :=
  try_catch
    (articlesSnapshot <-
       await (getDocs "articles"
                [where_ "project_id" "==" projectId; orderBy "created_at" "desc"]) ;;
     docs <- get articlesSnapshot "docs" ;;
     docs <- as_array docs ;;
     articles <- mapM (with_dates ["created_at"; "updated_at"]) docs ;;
     ret (result (VArr articles) VNull))
    (fun error =>
       console_error "Get project articles error:" error ;;
       ret (result (VArr []) error)).

(** [{ id: snapshot.id, ...snapshot.data() }]. *)
Definition with_id (d : Value) : M Value :=
  id <- get d "id" ;;
  data <- doc_data d ;;
  ret (obj (literal (("id", id) :: spread_props data))).

Definition updateArticle (articleId updates : Value) : M Value :=
  try_catch
    (let articleRef := doc "articles" articleId in
     _ <- await (updateDoc articleRef
                   (obj (literal (spread_props updates
                                    ++ [("updated_at", serverTimestamp)])))) ;;
     updatedDoc <- await (getDoc articleRef) ;;
     article <- with_id updatedDoc ;;
     (* Log activity *)
     project_id <- get article "project_id" ;;
     when (truthy project_id)
       (pid <- get article "project_id" ;;
        t <- get article "title" ;;
        logActivity pid (VStr "updated") (VStr "article") articleId
          (obj [("title", t)])) ;;
     ret (result article VNull))
    (fun error =>
       console_error "Update article error:" error ;;
       ret (result VNull error)).

Definition getUserProfile : M Value :=
  try_catch
    (user <- require_user ;;
     uid <- get user "uid" ;;
     userDoc <- await (getDoc (doc "users" uid)) ;;
     ex <- doc_exists userDoc ;;
     if ex then
       data <- doc_data userDoc ;;
       c <- get data "created_at" ;;
       c' <- toDate_opt c ;;
       u <- get data "updated_at" ;;
       u' <- toDate_opt u ;;
       ret (result (obj (literal (spread_props data
                                    ++ [("created_at", c'); ("updated_at", u')])))
                   VNull)
     else
       ret (result VNull VNull))
    (fun error =>
       console_error "Get user profile error:" error ;;
       ret (result VNull error)).

Definition updateUserProfile (updates : Value) : M Value :=
  try_catch
    (user <- require_user ;;
     uid <- get user "uid" ;;
     let userRef := doc "users" uid in
     _ <- await (updateDoc userRef
                   (obj (literal (spread_props updates
                                    ++ [("updated_at", serverTimestamp)])))) ;;
     updatedDoc <- await (getDoc userRef) ;;
     profile <- with_id updatedDoc ;;
     ret (result profile VNull))
    (fun error =>
       console_error "Update user profile error:" error ;;
       ret (result VNull error)).

(** *** Team collaboration *)

(** The callback of the three listing wrappers:
    [async (d) => { const data = d.data();
                    const userDoc = await getDoc(doc(db, 'users', data.user_id));
                    const userData = userDoc.exists() ? userDoc.data() : null;
                    return { id: d.id, ...data, k: data.k?.toDate(), ...,
                             user: userData ? { id: userDoc.id, email, full_name } : null } }]. *)
Definition join_user (keys : list string) (d : Value) : M Value :=
  data <- doc_data d ;;
  user_id <- get data "user_id" ;;
  userDoc <- await (getDoc (doc "users" user_id)) ;;
  ex <- doc_exists userDoc ;;
  userData <- (if ex then doc_data userDoc else ret VNull) ;;
  id <- get d "id" ;;
  dates <- mapM (fun k => t <- get data k ;; t' <- toDate_opt t ;; ret (k, t')) keys ;;
  user <- (if truthy userData then
             uid <- get userDoc "id" ;;
             e <- get userData "email" ;;
             f <- get userData "full_name" ;;
             ret (obj [("id", uid); ("email", e); ("full_name", f)])
           else ret VNull) ;;
  ret (obj (literal ((("id", id) :: spread_props data) ++ dates ++ [("user", user)]))).

Definition getProjectTeamMembers (projectId : Value) : M Value :=
  try_catch
    (teamMembersSnapshot <-
       await (getDocs "team_members"
                [where_ "project_id" "==" projectId;
                 where_ "status" "==" (VStr "active");
                 orderBy "created_at" "asc"]) ;;
     docs <- get teamMembersSnapshot "docs" ;;
     docs <- as_array docs ;;
     teamMembers <- Promise_all_map (join_user ["created_at"; "updated_at"]) docs ;;
     ret (result (VArr teamMembers) VNull))
    (fun error =>
       console_error "Get team members error:" error ;;
       ret (result (VArr []) error)).

Definition inviteTeamMember (projectId email role : Value) : M Value :=
  try_catch
    (user <- require_user ;;
     (* Check if invitation already exists *)
     existingInviteSnapshot <-
       await (getDocs "project_invitations"
                [where_ "project_id" "==" projectId; where_ "email" "==" email;
                 where_ "accepted_at" "==" VNull]) ;;
     emp <- snapshot_empty existingInviteSnapshot ;;
     if negb emp then
       ret (obj [("error", obj [("message", VStr "Invitation already sent to this email")])])
     else
       uid <- get user "uid" ;;
       token <- generateInviteToken ;;
       now <- Date_now ;;
       let invitationData :=
         [("project_id", projectId); ("email", email); ("role", role);
          ("invited_by", uid); ("token", token);
          ("expires_at", VDate (now + 7 * 24 * 60 * 60 * 1000)); (* 7 days *)
          ("created_at", serverTimestamp)] in
       docRef <- await (addDoc "project_invitations" (obj invitationData)) ;;
       (* Log activity *)
       logActivity projectId (VStr "invited") (VStr "team_member") VNull
         (obj [("email", email); ("role", role)]) ;;
       id <- get docRef "id" ;;
       let invitation := obj (literal (("id", id) :: invitationData)) in
       ret (result invitation VNull))
    (fun error =>
       console_error "Invite team member error:" error ;;
       ret (result VNull error)).

Definition removeTeamMember (projectId userId : Value) : M Value :=
  try_catch
    (teamMemberSnapshot <-
       await (getDocs "team_members"
                [where_ "project_id" "==" projectId; where_ "user_id" "==" userId]) ;;
     emp <- snapshot_empty teamMemberSnapshot ;;
     if negb emp then
       docs <- get teamMemberSnapshot "docs" ;;
       let memberDoc := index0 docs in
       ref <- get memberDoc "ref" ;;
       _ <- await (updateDoc ref
                     (obj [("status", VStr "inactive");
                           ("updated_at", serverTimestamp)])) ;;
       (* Log activity *)
       logActivity projectId (VStr "removed") (VStr "team_member") userId VUndef ;;
       id <- get memberDoc "id" ;;
       ret (result (obj [("id", id)]) VNull)
     else
       ret (result VNull (obj [("message", VStr "Team member not found")])))
    (fun error =>
       console_error "Remove team member error:" error ;;
       ret (result VNull error)).

Definition updateTeamMemberRole (projectId userId role : Value) : M Value :=
  try_catch
    (teamMemberSnapshot <-
       await (getDocs "team_members"
                [where_ "project_id" "==" projectId; where_ "user_id" "==" userId]) ;;
     emp <- snapshot_empty teamMemberSnapshot ;;
     if negb emp then
       docs <- get teamMemberSnapshot "docs" ;;
       let memberDoc := index0 docs in
       ref <- get memberDoc "ref" ;;
       _ <- await (updateDoc ref
                     (obj [("role", role); ("updated_at", serverTimestamp)])) ;;
       (* Log activity *)
       logActivity projectId (VStr "role_updated") (VStr "team_member") userId
         (obj [("new_role", role)]) ;;
       id <- get memberDoc "id" ;;
       ret (result (obj [("id", id)]) VNull)
     else
       ret (result VNull (obj [("message", VStr "Team member not found")])))
    (fun error =>
       console_error "Update team member role error:" error ;;
       ret (result VNull error)).

Definition getProjectInvitations (projectId : Value) : M Value :=
  try_catch
    (invitationsSnapshot <-
       await (getDocs "project_invitations"
                [where_ "project_id" "==" projectId;
                 where_ "accepted_at" "==" VNull;
                 orderBy "created_at" "desc"]) ;;
     docs <- get invitationsSnapshot "docs" ;;
     docs <- as_array docs ;;
     invitations <- mapM (with_dates ["expires_at"; "created_at"]) docs ;;
     ret (result (VArr invitations) VNull))
    (fun error =>
       console_error "Get project invitations error:" error ;;
       ret (result (VArr []) error)).

Definition cancelInvitation (invitationId : Value) : M Value :=
  try_catch
    (_ <- await (deleteDoc (doc "project_invitations" invitationId)) ;;
     ret (result (obj [("id", invitationId)]) VNull))
    (fun error =>
       console_error "Cancel invitation error:" error ;;
       ret (result VNull error)).

(** *** Comments *)

Definition getArticleComments (articleId : Value) : M Value :=
  try_catch
    (commentsSnapshot <-
       await (getDocs "article_comments"
                [where_ "article_id" "==" articleId; orderBy "created_at" "asc"]) ;;
     docs <- get commentsSnapshot "docs" ;;
     docs <- as_array docs ;;
     comments <- Promise_all_map (join_user ["created_at"; "updated_at"]) docs ;;
     ret (result (VArr comments) VNull))
    (fun error =>
       console_error "Get article comments error:" error ;;
       ret (result (VArr []) error)).

Definition createComment (articleId content position : Value) : M Value :=
  try_catch
    (user <- require_user ;;
     uid <- get user "uid" ;;
     let commentData :=
       [("article_id", articleId); ("user_id", uid); ("content", content);
        ("position", or_else position VNull); ("resolved", VBool false);
        ("created_at", serverTimestamp); ("updated_at", serverTimestamp)] in
     docRef <- await (addDoc "article_comments" (obj commentData)) ;;
     (* Get user data for response *)
     uid' <- get user "uid" ;;
     userDoc <- await (getDoc (doc "users" uid')) ;;
     ex <- doc_exists userDoc ;;
     userData <- (if ex then doc_data userDoc else ret VNull) ;;
     id <- get docRef "id" ;;
     user_field <- (if truthy userData then
                      uid'' <- get user "uid" ;;
                      e <- get userData "email" ;;
                      f <- get userData "full_name" ;;
                      ret (obj [("id", uid''); ("email", e); ("full_name", f)])
                    else ret VNull) ;;
     let comment := obj (literal ((("id", id) :: commentData) ++ [("user", user_field)])) in
     ret (result comment VNull))
    (fun error =>
       console_error "Create comment error:" error ;;
       ret (result VNull error)).

Definition updateComment (commentId content : Value) : M Value :=
  try_catch
    (let commentRef := doc "article_comments" commentId in
     _ <- await (updateDoc commentRef
                   (obj [("content", content); ("updated_at", serverTimestamp)])) ;;
     updatedDoc <- await (getDoc commentRef) ;;
     commentData <- doc_data updatedDoc ;;
     (* Get user data *)
     userDoc <- await (getDoc (doc "users" (opt_prop "user_id" commentData))) ;;
     ex <- doc_exists userDoc ;;
     userData <- (if ex then doc_data userDoc else ret VNull) ;;
     id <- get updatedDoc "id" ;;
     c <- toDate_opt (opt_prop "created_at" commentData) ;;
     u <- toDate_opt (opt_prop "updated_at" commentData) ;;
     user_field <- (if truthy userData then
                      uid <- get userDoc "id" ;;
                      e <- get userData "email" ;;
                      f <- get userData "full_name" ;;
                      ret (obj [("id", uid); ("email", e); ("full_name", f)])
                    else ret VNull) ;;
     let comment :=
       obj (literal ((("id", id) :: spread_props commentData)
                       ++ [("created_at", c); ("updated_at", u);
                           ("user", user_field)])) in
     ret (result comment VNull))
    (fun error =>
       console_error "Update comment error:" error ;;
       ret (result VNull error)).

Definition resolveComment (commentId resolved : Value) : M Value :=
  let resolved := match resolved with VUndef => VBool true | _ => resolved end in
  try_catch
    (let commentRef := doc "article_comments" commentId in
     _ <- await (updateDoc commentRef (obj [("resolved", resolved)])) ;;
     ret (result (obj [("id", commentId)]) VNull))
    (fun error =>
       console_error "Resolve comment error:" error ;;
       ret (result VNull error)).

Definition deleteComment (commentId : Value) : M Value :=
  try_catch
    (_ <- await (deleteDoc (doc "article_comments" commentId)) ;;
     ret (result (obj [("id", commentId)]) VNull))
    (fun error =>
       console_error "Delete comment error:" error ;;
       ret (result VNull error)).

(** *** Activity *)

Definition getProjectActivity (projectId limitCount : Value) : M Value :=
  let limitCount := match limitCount with VUndef => VNum 50 | _ => limitCount end in
  try_catch
    (activitySnapshot <-
       await (getDocs "activity_logs"
                [where_ "project_id" "==" projectId; orderBy "created_at" "desc";
                 limit_ limitCount]) ;;
     docs <- get activitySnapshot "docs" ;;
     docs <- as_array docs ;;
     activities <- Promise_all_map (join_user ["created_at"]) docs ;;
     ret (result (VArr activities) VNull))
    (fun error =>
       console_error "Get project activity error:" error ;;
       ret (result (VArr []) error)).

(** *** Permissions *)

Definition getUserProjectRole (projectId : Value) : M Value :=
  try_catch
    (user <- getCurrentUser ;;
     if falsy user then ret VNull
     else
       uid <- get user "uid" ;;
       teamMemberSnapshot <-
         await (getDocs "team_members"
                  [where_ "project_id" "==" projectId; where_ "user_id" "==" uid;
                   where_ "status" "==" (VStr "active")]) ;;
       emp <- snapshot_empty teamMemberSnapshot ;;
       if negb emp then
         docs <- get teamMemberSnapshot "docs" ;;
         data <- doc_data (index0 docs) ;;
         get data "role"
       else ret VNull)
    (fun error =>
       console_error "Get user project role error:" error ;;
       ret VNull).

Definition canUserEditProject (projectId : Value) : M Value :=
  role <- getUserProjectRole projectId ;;
  ret (and_then role (VBool (includes_value ["owner"; "admin"; "editor"] role))).

Definition canUserManageTeam (projectId : Value) : M Value :=
  role <- getUserProjectRole projectId ;;
  ret (and_then role (VBool (includes_value ["owner"; "admin"] role))).

(** *** Usage counter *)

Definition incrementUsageCount : M Value :=
  try_catch
    (user <- require_user ;;
     uid <- get user "uid" ;;
     let userRef := doc "users" uid in
     _ <- await (updateDoc userRef
                   (obj [("usage_count", increment 1);
                         ("updated_at", serverTimestamp)])) ;;
     updatedDoc <- await (getDoc userRef) ;;
     profile <- with_id updatedDoc ;;
     ret (result profile VNull))
    (fun error =>
       console_error "Increment usage count error:" error ;;
       ret (result VNull error)).

(** *** Auth state listener *)

Definition onAuthStateChange : M Value := await onAuthStateChanged.

End Wrappers.
End Firebase.

(* ===================================================================== *)
(** ** src/store/authStore.ts                                             *)
(* ===================================================================== *)

Module AuthStore.
Section Store.
Context `{Platform}.

Definition set_loading (b : bool) (st : AuthState) : AuthState :=
  {| user := user st; userProfile := userProfile st;
     auth_loading := b; initialized := initialized st |}.

Definition set_session (u profile : Value) (st : AuthState) : AuthState :=
  {| user := u; userProfile := profile;
     auth_loading := auth_loading st; initialized := initialized st |}.

Definition set_userProfile (profile : Value) (st : AuthState) : AuthState :=
  {| user := user st; userProfile := profile;
     auth_loading := auth_loading st; initialized := initialized st |}.

Definition set_initialized (b : bool) (st : AuthState) : AuthState :=
  {| user := user st; userProfile := userProfile st;
     auth_loading := auth_loading st; initialized := b |}.

(** [!error && data.user]: [data.user] is read only when [error] is falsy. *)
Definition signed_in (data error : Value) : M bool :=
  if falsy error then (u <- get data "user" ;; ret (truthy u)) else ret false.

Definition signIn (email password : Value) : M Value :=
  set_auth (set_loading true) ;;
  try_catch
    (r <- Supabase.signIn email password ;;
     data <- get r "data" ;;
     error <- get r "error" ;;
     ok <- signed_in data error ;;
     (if ok then
        (* Wait a moment for any database triggers to complete *)
        sleep 500 ;;
        pr <- Supabase.getUserProfile ;;
        profile <- get pr "data" ;;
        u <- get data "user" ;;
        set_auth (fun st => set_loading false (set_session u profile st))
      else
        set_auth (set_loading false)) ;;
     ret (obj [("error", error)]))
    (fun err =>
       set_auth (set_loading false) ;;
       ret (obj [("error", err)])).

Definition signUp (email password fullName : Value) : M Value :=
  set_auth (set_loading true) ;;
  try_catch
    (r <- Supabase.signUp email password fullName ;;
     data <- get r "data" ;;
     error <- get r "error" ;;
     ok <- signed_in data error ;;
     (if ok then
        (* Wait for the user profile to be created by the database trigger *)
        sleep 2000 ;;
        (* Fetch the newly created user profile *)
        pr <- Supabase.getUserProfile ;;
        profile <- get pr "data" ;;
        u <- get data "user" ;;
        set_auth (fun st => set_loading false (set_session u profile st))
      else
        set_auth (set_loading false)) ;;
     ret (obj [("error", error)]))
    (fun err =>
       set_auth (set_loading false) ;;
       ret (obj [("error", err)])).

Definition signOut : M unit :=
  set_auth (set_loading true) ;;
  _ <- await auth_signOut ;;
  set_auth (fun st => set_loading false (set_session VNull VNull st)).

(** The listener registered by [initialize]. *)
Definition onAuthStateChange_listener (event session : Value) : M unit :=
  let session_user := opt_prop "user" session in
  if truthy session_user then
    pr <- Supabase.getUserProfile ;;
    profile <- get pr "data" ;;
    u <- get session "user" ;;
    set_auth (set_session u profile)
  else
    set_auth (set_session VNull VNull).

Definition initialize : M unit :=
  try_catch
    (r <- await auth_getUser ;;
     data <- get r "data" ;;
     u <- get data "user" ;;
     when (truthy u)
       (pr <- Supabase.getUserProfile ;;
        profile <- get pr "data" ;;
        set_auth (set_session u profile)) ;;
     set_auth (set_initialized true) ;;
     (* Listen for auth changes *)
     _ <- await auth_onAuthStateChange ;;
     ret tt)
    (fun error =>
       console_error "Auth initialization error:" error ;;
       set_auth (set_initialized true)).

Definition refreshProfile : M unit :=
  try_catch
    (pr <- Supabase.getUserProfile ;;
     profile <- get pr "data" ;;
     set_auth (set_userProfile profile))
    (fun error => console_error "Profile refresh error:" error).

Definition incrementUsage : M unit :=
  try_catch
    (r <- Supabase.incrementUsageCount ;;
     data <- get r "data" ;;
     when (truthy data) (set_auth (set_userProfile data)))
    (fun error => console_error "Increment usage error:" error).

End Store.
End AuthStore.

(* ===================================================================== *)
(** ** src/store/projectStore.ts                                          *)
(* ===================================================================== *)

Module ProjectStore.
Section Store.
Context `{Platform}.

Definition set_loading (b : bool) (st : ProjectState) : ProjectState :=
  {| projects := projects st; currentProject := currentProject st;
     articles := articles st; loading := b |}.

Definition set_projects (ps : Value) (st : ProjectState) : ProjectState :=
  {| projects := ps; currentProject := currentProject st;
     articles := articles st; loading := loading st |}.

Definition set_articles (xs : Value) (st : ProjectState) : ProjectState :=
  {| projects := projects st; currentProject := currentProject st;
     articles := xs; loading := loading st |}.

(** [...v] inside an array literal: the elements of an array, the
    characters of a string; anything else is not iterable. *)
Definition spread_items (v : Value) : M (list Value) :=
  match v with
  | VArr xs => ret xs
  | VStr s => ret (map (fun c => VStr (String c EmptyString)) (list_ascii_of_string s))
  | _ => throw (TypeError "projects is not iterable")
  end.

Definition fetchProjects : M unit :=
  set_project (set_loading true) ;;
  r <- Firebase.getUserProjects ;;
  data <- get r "data" ;;
  error <- get r "error" ;;
  when (falsy error && truthy data) (set_project (set_projects data)) ;;
  set_project (set_loading false).

Definition createProject (title description : Value) : M Value :=
  set_project (set_loading true) ;;
  r <- Firebase.createProject title description ;;
  data <- get r "data" ;;
  error <- get r "error" ;;
  when (falsy error && truthy data)
    (ps <- read (fun w => projects (projectStore w)) ;;
     items <- spread_items ps ;;
     set_project (set_projects (VArr (data :: items)))) ;;
  set_project (set_loading false) ;;
  ret (obj [("error", error)]).

Definition setCurrentProject (project : Value) : M unit :=
  set_project (fun st =>
    {| projects := projects st; currentProject := project;
       articles := VArr []; loading := loading st |}).

Definition fetchArticles (projectId : Value) : M unit :=
  set_project (set_loading true) ;;
  r <- Firebase.getProjectArticles projectId ;;
  data <- get r "data" ;;
  error <- get r "error" ;;
  when (falsy error && truthy data) (set_project (set_articles data)) ;;
  set_project (set_loading false).

End Store.
End ProjectStore.

(* ===================================================================== *)
(** ** src/components/editor/ArticleEditor.tsx                            *)
(* ===================================================================== *)

Module ArticleEditor.
Section Component.
Context `{Platform}.

(** Modelled from the spec: the hook [useNotification] is not among the
    sources; the specification says errors are surfaced as UI
    notifications, so [showNotification message kind] records the message
    and its kind. *)
Definition showNotification (message kind : string) : M unit :=
  set_editor (fun st =>
    {| title := title st; isGenerating := isGenerating st; canEdit := canEdit st;
       contentLength := contentLength st; editor := editor st;
       notifications := notifications st ++ [(message, kind)] |}).

Definition setIsGenerating (b : bool) : M unit :=
  set_editor (fun st =>
    {| title := title st; isGenerating := b; canEdit := canEdit st;
       contentLength := contentLength st; editor := editor st;
       notifications := notifications st |}).

Definition setCanEdit (v : Value) : M unit :=
  set_editor (fun st =>
    {| title := title st; isGenerating := isGenerating st; canEdit := v;
       contentLength := contentLength st; editor := editor st;
       notifications := notifications st |}).

(** [editor?.commands.setContent(content)]. *)
Definition setContent (content : Value) : M unit :=
  set_editor (fun st =>
    {| title := title st; isGenerating := isGenerating st; canEdit := canEdit st;
       contentLength := contentLength st;
       editor := match editor st with Some _ => Some content | None => None end;
       notifications := notifications st |}).

(** [a >= b] for the two counters, which the [User] interface declares
    as numbers; with an operand that is not a number the comparison is
    taken as false, as it is with [undefined]. *)
Definition ge (a b : Value) : bool :=
  match a, b with
  | VNum x, VNum y => Z.leb y x
  | _, _ => false
  end.

Definition lengthPrompt (contentLength : string) : string :=
  if String.eqb contentLength "short" then " (400-600 words)"
  else if String.eqb contentLength "medium" then " (800-1200 words)"
  else " (1500-2000 words)".

Definition checkPermissions : M unit :=
  currentProject <- read (fun w => currentProject (projectStore w)) ;;
  if truthy currentProject then
    id <- get currentProject "id" ;;
    canEditProject <- Firebase.canUserEditProject id ;;
    setCanEdit canEditProject
  else ret tt.

Definition handleGenerateContent : M unit :=
  st <- read editorState ;;
  userProfile <- read (fun w => userProfile (authStore w)) ;;
  if String.eqb (trim (title st)) "" then
    showNotification "Please enter a title first" "error"
  else if falsy (canEdit st) then
    showNotification "You do not have permission to edit this project" "error"
  else if falsy userProfile then
    showNotification "Please sign in to use AI features" "error"
  else
    usage_count <- get userProfile "usage_count" ;;
    usage_limit <- get userProfile "usage_limit" ;;
    if ge usage_count usage_limit then
      showNotification
        "You have reached your AI generation limit. Please upgrade to continue."
        "error"
    else
      setIsGenerating true ;;
      try_finally
        (try_catch
           (content <- await (generateContent
                                (VStr (title st ++ lengthPrompt (contentLength st)))
                                (VStr "article")) ;;
            setContent content ;;
            (* Increment usage count *)
            AuthStore.incrementUsage ;;
            showNotification "Content generated successfully!" "success")
           (fun error =>
              match error_message error with
              | Some message =>
                  if str_includes "rate limit" message then
                    showNotification
                      "Gemini API rate limit exceeded. Please wait a few minutes before trying again."
                      "error"
                  else if str_includes "API key" message then
                    showNotification
                      "Gemini API configuration error. Please check your settings."
                      "error"
                  else
                    showNotification
                      (if String.eqb message "" then
                         "Failed to generate content. Please try again."
                       else message)
                      "error"
              | None =>
                  showNotification "Failed to generate content. Please try again."
                                   "error"
              end))
        (setIsGenerating false).

End Component.
End ArticleEditor.

(* ===================================================================== *)
(** ** supabase/migrations: a reference platform                          *)
(* ===================================================================== *)

(** One concrete [Platform], used for concrete runs: the schema of the
    migration (tables, column defaults, NOT NULL, CHECK and UNIQUE
    constraints, triggers, the [log_activity] function), a Firestore-like
    document store for the parallel implementation, and a schedule of
    faults.  Row-level-security policies, foreign keys and embedded
    resources ([user:users(...)], inner joins) are not interpreted: the
    platform answers as the table owner would, and answers a query with
    an embedded resource by an error. *)
Module Reference.

Inductive Fault : Type :=
| Healthy
| ReturnsError (e : Value)   (* the call resolves with [{ data: null, error: e }] *)
| Rejects (e : Value).       (* the promise rejects with [e] *)

Record Backend : Type := {
  session : Value;                        (* supabase auth user, or null *)
  fb_user : Value;                        (* firebase [auth.currentUser] *)
  tables : list (string * list Value);    (* Postgres rows *)
  collections : list (string * list Value); (* Firestore documents *)
  serial : nat;                           (* generated ids and tokens *)
  time : Z;                               (* clock, epoch milliseconds *)
  entropy : list string;                  (* [Math.random().toString(36)] *)
  faults : list Fault                     (* one per request, in order *)
}.

Definition with_tables (ts : list (string * list Value)) (b : Backend) : Backend :=
  {| session := session b; fb_user := fb_user b; tables := ts;
     collections := collections b; serial := serial b; time := time b;
     entropy := entropy b; faults := faults b |}.

Definition with_collections (cs : list (string * list Value)) (b : Backend) : Backend :=
  {| session := session b; fb_user := fb_user b; tables := tables b;
     collections := cs; serial := serial b; time := time b;
     entropy := entropy b; faults := faults b |}.

Definition with_session (u : Value) (b : Backend) : Backend :=
  {| session := u; fb_user := fb_user b; tables := tables b;
     collections := collections b; serial := serial b; time := time b;
     entropy := entropy b; faults := faults b |}.

Definition with_fb_user (u : Value) (b : Backend) : Backend :=
  {| session := session b; fb_user := u; tables := tables b;
     collections := collections b; serial := serial b; time := time b;
     entropy := entropy b; faults := faults b |}.

Definition with_faults (fs : list Fault) (b : Backend) : Backend :=
  {| session := session b; fb_user := fb_user b; tables := tables b;
     collections := collections b; serial := serial b; time := time b;
     entropy := entropy b; faults := fs |}.

Definition bump (b : Backend) : Backend :=
  {| session := session b; fb_user := fb_user b; tables := tables b;
     collections := collections b; serial := S (serial b); time := time b;
     entropy := entropy b; faults := faults b |}.

Fixpoint lookup (t : string) (ts : list (string * list Value)) : list Value :=
  match ts with
  | [] => []
  | (t', rows) :: rest => if String.eqb t t' then rows else lookup t rest
  end.

Fixpoint store (t : string) (rows : list Value) (ts : list (string * list Value))
  : list (string * list Value) :=
  match ts with
  | [] => [(t, rows)]
  | (t', rows') :: rest =>
      if String.eqb t t' then (t, rows) :: rest else (t', rows') :: store t rows rest
  end.

Definition rows (t : string) (b : Backend) : list Value := lookup t (tables b).
Definition documents (c : string) (b : Backend) : list Value := lookup c (collections b).

(** Decimal numeral of a serial number. *)
Fixpoint decimal_aux (fuel n : nat) (acc : string) : string :=
  match fuel with
  | O => acc
  | S fuel' =>
      let d := String (ascii_of_nat (48 + Nat.modulo n 10)) acc in
      if Nat.ltb n 10 then d else decimal_aux fuel' (Nat.div n 10) d
  end.

Definition decimal (n : nat) : string := decimal_aux (S n) n "".

Definition is_null (v : Value) : bool :=
  match v with
  | VUndef | VNull => true
  | _ => false
  end.

(** A column of a row; a missing column reads as NULL. *)
Definition column (c : string) (row : Value) : Value :=
  match opt_prop c row with
  | VUndef => VNull
  | v => v
  end.

(** *** The schema (CREATE TABLE statements of the migration) *)

Inductive Default : Type :=
| no_default
| constant (v : Value)
| gen_random_uuid
| now
| now_plus (ms : Z)
| gen_random_token.        (* encode(gen_random_bytes(32), 'hex') *)

Record Column : Type := col {
  cname : string;
  cdefault : Default;
  not_null : bool;
  check_in : list string    (* CHECK (c IN (...)); [] when there is none *)
}.

Definition seven_days : Z := 7 * 24 * 60 * 60 * 1000.

Definition schema (t : string) : list Column :=
  if String.eqb t "users" then
    [ col "id" no_default true [];
      col "email" no_default true [];
      col "full_name" no_default false [];
      col "subscription_tier" (constant (VStr "free")) true ["free"; "pro"; "enterprise"];
      col "usage_count" (constant (VNum 0)) false [];
      col "usage_limit" (constant (VNum 10)) false [];
      col "created_at" now false [];
      col "updated_at" now false [] ]
  else if String.eqb t "projects" then
    [ col "id" gen_random_uuid true [];
      col "user_id" no_default false [];
      col "owner_id" no_default false [];
      col "title" no_default true [];
      col "description" no_default false [];
      col "created_at" now false [];
      col "updated_at" now false [] ]
  else if String.eqb t "articles" then
    [ col "id" gen_random_uuid true [];
      col "project_id" no_default false [];
      col "title" no_default true [];
      col "content" (constant (VStr "")) true [];
      col "seo_score" no_default false [];
      col "keywords" no_default false [];
      col "meta_description" no_default false [];
      col "created_at" now false [];
      col "updated_at" now false [] ]
  else if String.eqb t "team_members" then
    [ col "id" gen_random_uuid true [];
      col "user_id" no_default false [];
      col "project_id" no_default false [];
      col "role" no_default true ["owner"; "admin"; "editor"; "viewer"];
      col "invited_by" no_default false [];
      col "status" (constant (VStr "active")) true ["pending"; "active"; "inactive"];
      col "created_at" now false [];
      col "updated_at" now false [] ]
  else if String.eqb t "project_invitations" then
    [ col "id" gen_random_uuid true [];
      col "project_id" no_default false [];
      col "email" no_default true [];
      col "role" no_default true ["admin"; "editor"; "viewer"];
      col "invited_by" no_default false [];
      col "token" gen_random_token true [];
      col "expires_at" (now_plus seven_days) true [];
      col "accepted_at" no_default false [];
      col "created_at" now false [] ]
  else if String.eqb t "article_comments" then
    [ col "id" gen_random_uuid true [];
      col "article_id" no_default false [];
      col "user_id" no_default false [];
      col "content" no_default true [];
      col "position" no_default false [];
      col "resolved" (constant (VBool false)) false [];
      col "created_at" now false [];
      col "updated_at" now false [] ]
  else if String.eqb t "activity_logs" then
    [ col "id" gen_random_uuid true [];
      col "project_id" no_default false [];
      col "user_id" no_default false [];
      col "action" no_default true [];
      col "resource_type" no_default true [];
      col "resource_id" no_default false [];
      col "metadata" (constant (VObj [])) false [];
      col "created_at" now false [] ]
  else [].

(** PRIMARY KEY and UNIQUE constraints. *)
Definition unique_keys (t : string) : list (list string) :=
  if String.eqb t "users" then [["id"]; ["email"]]
  else if String.eqb t "team_members" then [["id"]; ["user_id"; "project_id"]]
  else if String.eqb t "project_invitations" then [["id"]; ["token"]]
  else [["id"]].

(** Tables with a BEFORE UPDATE trigger [update_updated_at_column]. *)
Definition touches_updated_at (t : string) : bool :=
  existsb (String.eqb t)
    ["users"; "projects"; "articles"; "team_members"; "article_comments"].

Definition default_value (d : Default) (b : Backend) : Value :=
  match d with
  | no_default => VNull
  | constant v => v
  | gen_random_uuid => VStr ("uuid-" ++ decimal (serial b))
  | now => VDate (time b)
  | now_plus ms => VDate (time b + ms)
  | gen_random_token => VStr ("token-" ++ decimal (serial b))
  end.

(** The stored row: a value for every column, the given one or the
    default ([undefined] is dropped by JSON serialisation). *)
Definition fill (given : Value) (b : Backend) (c : Column) : string * Value :=
  (cname c,
   match opt_prop (cname c) given with
   | VUndef => default_value (cdefault c) b
   | v => v
   end).

Definition violates (c : Column) (v : Value) : bool :=
  (not_null c && is_null v)
  || match check_in c with
     | [] => false
     | allowed => negb (is_null v) && negb (includes_value allowed v)
     end.

Definition row_ok (t : string) (row : Value) : bool :=
  forallb (fun c => negb (violates c (column (cname c) row))) (schema t).

Definition same_key (key : list string) (r1 r2 : Value) : bool :=
  forallb (fun k => negb (is_null (column k r1)) && value_eqb (column k r1) (column k r2)) key.

Definition duplicates (t : string) (row : Value) (existing : list Value) : bool :=
  existsb (fun key => existsb (same_key key row) existing) (unique_keys t).

Definition pg_error (code message : string) : Value :=
  obj [("code", VStr code); ("message", VStr message)].

(** INSERT of one row: [inl row] with the new state, or [inr error]. *)
Definition insert_row (t : string) (given : Value) (b : Backend)
  : (Value * Backend) + Value :=
  match schema t with
  | [] => inr (pg_error "42P01" "relation does not exist")
  | columns =>
      let row := VObj (map (fill given b) columns) in
      if negb (row_ok t row) then
        inr (pg_error "23514" "violates not-null or check constraint")
      else if duplicates t row (rows t b) then
        inr (pg_error "23505" "duplicate key value violates unique constraint")
      else
        inl (row, bump (with_tables (store t (rows t b ++ [row]) (tables b)) b))
  end.

(** AFTER INSERT triggers: [create_project_owner_membership] on projects.
    A failing trigger aborts the statement. *)
Definition insert_with_triggers (t : string) (given : Value) (b : Backend)
  : (Value * Backend) + Value :=
  match insert_row t given b with
  | inr e => inr e
  | inl (row, b') =>
      if String.eqb t "projects" then
        match insert_row "team_members"
                (obj [("user_id", column "owner_id" row);
                      ("project_id", column "id" row);
                      ("role", VStr "owner"); ("status", VStr "active")]) b' with
        | inl (_, b'') => inl (row, b'')
        | inr e => inr e
        end
      else inl (row, b')
  end.

(** *** PostgREST queries *)

Definition satisfies (m : Modifier) (row : Value) : bool :=
  match m with
  | eq c v => negb (is_null v) && value_eqb (column c row) v
  | is_ c v => value_eqb (column c row) v
  | gt c v =>
      match column c row, v with
      | VDate a, VDate x => Z.ltb x a
      | VNum a, VNum x => Z.ltb x a
      | _, _ => false
      end
  | _ => true
  end.

Definition selected (ms : list Modifier) (row : Value) : bool :=
  forallb (fun m => satisfies m row) ms.

Definition wants_single (ms : list Modifier) : bool :=
  existsb (fun m => match m with single => true | _ => false end) ms.

Definition wants_rows (ms : list Modifier) : bool :=
  existsb (fun m => match m with returning _ => true | _ => false end) ms.

Definition sort_key (v : Value) : Z :=
  match v with
  | VDate x => x
  | VNum x => x
  | _ => 0
  end.

Fixpoint insert_sorted (c : string) (asc : bool) (r : Value) (sorted : list Value)
  : list Value :=
  match sorted with
  | [] => [r]
  | x :: rest =>
      let a := sort_key (column c r) in
      let b := sort_key (column c x) in
      if (if asc then Z.ltb a b else Z.ltb b a) then r :: sorted
      else x :: insert_sorted c asc r rest
  end.

Definition sort_rows (c : string) (asc : bool) (rs : list Value) : list Value :=
  fold_left (fun acc r => insert_sorted c asc r acc) rs [].

(** [order] and [limit], in the order of the chain. *)
Definition arrange (ms : list Modifier) (rs : list Value) : list Value :=
  fold_left
    (fun acc m =>
       match m with
       | order c asc => sort_rows c asc acc
       | limit (VNum n) => firstn (Z.to_nat n) acc
       | _ => acc
       end) ms rs.

(** Column lists: ["*"] or one plain column. *)
Definition project (columns : string) (row : Value) : Value :=
  if String.eqb columns "*" then row
  else obj [(columns, column columns row)].

Definition embedded (q : Query) : bool :=
  match verb q with
  | select cols => str_includes "(" cols
  | _ => false
  end
  || existsb (fun m => match m with
                       | eq c _ | is_ c _ | gt c _ => str_includes "." c
                       | returning cols => str_includes "(" cols
                       | _ => false
                       end) (modifiers q).

Definition answer (data error : Value) : Value :=
  obj [("data", data); ("error", error)].

(** The body of the response: one row for [.single()], a list otherwise. *)
Definition shape (ms : list Modifier) (rs : list Value) : Value :=
  if wants_single ms then
    match rs with
    | [r] => answer r VNull
    | _ => answer VNull
             (pg_error "PGRST116" "JSON object requested, multiple (or no) rows returned")
    end
  else answer (VArr rs) VNull.

(** One assignment of an UPDATE; [supabase.sql`c + 1`] on column [c]
    increments it. *)
Definition assign (row : Value) (change : string * Value) : Value :=
  let (k, v) := change in
  let v' := match v with
            | VSql e =>
                if String.eqb e (k ++ " + 1") then
                  match column k row with
                  | VNum n => VNum (n + 1)
                  | x => x
                  end
                else column k row
            | _ => v
            end in
  VObj (set_key k v' (spread_props row)).

Definition apply_update (t : string) (changes : Value) (b : Backend) (row : Value)
  : Value :=
  let row' := fold_left assign (spread_props changes) row in
  if touches_updated_at t then VObj (set_key "updated_at" (VDate (time b)) (spread_props row'))
  else row'.

Definition run_query (q : Query) (b : Backend) : Value * Backend :=
  let t := table q in
  let ms := modifiers q in
  if embedded q then
    (answer VNull (pg_error "PGRST200" "embedded resources are not interpreted"), b)
  else
    match verb q with
    | select cols =>
        (shape ms (map (project cols) (arrange ms (filter (selected ms) (rows t b)))), b)
    | insert [given] =>
        match insert_with_triggers t given b with
        | inl (row, b') =>
            (if wants_rows ms then shape ms [row] else answer VNull VNull, b')
        | inr e => (answer VNull e, b)
        end
    | insert _ => (answer VNull (pg_error "PGRST102" "one row at a time"), b)
    | update changes =>
        let updated := map (fun r => if selected ms r then apply_update t changes b r else r)
                           (rows t b) in
        let touched := map (apply_update t changes b) (filter (selected ms) (rows t b)) in
        if negb (forallb (row_ok t) touched) then
          (answer VNull (pg_error "23514" "violates not-null or check constraint"), b)
        else
          (if wants_rows ms then shape ms touched else answer VNull VNull,
           with_tables (store t updated (tables b)) b)
    | delete =>
        let gone := filter (selected ms) (rows t b) in
        let kept := filter (fun r => negb (selected ms r)) (rows t b) in
        (if wants_rows ms then shape ms gone else answer VNull VNull,
         with_tables (store t kept (tables b)) b)
    end.

(** [log_activity]: the insert runs with [auth.uid()]; the function
    swallows every error. *)
Definition run_rpc (fn : string) (args : Value) (b : Backend) : Value * Backend :=
  if String.eqb fn "log_activity" then
    match insert_row "activity_logs"
            (obj [("project_id", column "p_project_id" args);
                  ("user_id", column "id" (session b));
                  ("action", column "p_action" args);
                  ("resource_type", column "p_resource_type" args);
                  ("resource_id", column "p_resource_id" args);
                  ("metadata", opt_prop "p_metadata" args)]) b with
    | inl (_, b') => (answer VNull VNull, b')
    | inr _ => (answer VNull VNull, b)
    end
  else (answer VNull (pg_error "PGRST202" "function not found"), b).

(** *** Supabase auth; the trigger [on_auth_user_created] *)

Definition auth_answer (u error : Value) : Value :=
  obj [("data", obj [("user", u); ("session", and_then u (obj [("user", u)]))]);
       ("error", error)].

Definition auth_error (message : string) : Value := obj [("message", VStr message)].

Definition run_signUp (credentials : Value) (b : Backend) : Value * Backend :=
  let email := column "email" credentials in
  if existsb (fun r => value_eqb (column "email" r) email) (rows "auth.users" b) then
    (auth_answer VNull (auth_error "User already registered"), b)
  else
    let id := VStr ("uuid-" ++ decimal (serial b)) in
    let meta := opt_prop "data" (opt_prop "options" credentials) in
    let account := obj [("id", id); ("email", email);
                        ("password", column "password" credentials);
                        ("raw_user_meta_data", meta)] in
    let b1 := bump (with_tables (store "auth.users" (rows "auth.users" b ++ [account])
                                       (tables b)) b) in
    (* handle_new_user *)
    match insert_row "users"
            (obj [("id", id); ("email", email);
                  ("full_name", or_else (opt_prop "full_name" meta) (VStr ""))]) b1 with
    | inl (_, b2) =>
        let u := obj [("id", id); ("email", email)] in
        (auth_answer u VNull, with_session u b2)
    | inr _ => (auth_answer VNull (auth_error "Database error saving new user"), b)
    end.

Definition run_signIn (credentials : Value) (b : Backend) : Value * Backend :=
  match find (fun r => value_eqb (column "email" r) (column "email" credentials)
                       && value_eqb (column "password" r) (column "password" credentials))
             (rows "auth.users" b) with
  | Some r =>
      let u := obj [("id", column "id" r); ("email", column "email" r)] in
      (auth_answer u VNull, with_session u b)
  | None => (auth_answer VNull (auth_error "Invalid login credentials"), b)
  end.

(** *** Firestore *)

Definition snapshot (collection : string) (d : Value) : Value :=
  obj [("id", column "id" d); ("ref", doc collection (column "id" d));
       ("data", opt_prop "data" d)].

Definition missing (ref : Value) : Value :=
  obj [("id", column "id" ref); ("ref", ref); ("data", VUndef)].

Definition find_doc (ref : Value) (b : Backend) : option Value :=
  match column "collection" ref with
  | VStr c => find (fun d => value_eqb (column "id" d) (column "id" ref)) (documents c b)
  | _ => None
  end.

(** Write sentinels are replaced when the document is stored. *)
Definition settle (b : Backend) (old : Value) (field : string * Value) : string * Value :=
  let (k, v) := field in
  (k, match v with
      | VServerTimestamp => VDate (time b)
      | VIncrement n =>
          match opt_prop k old with
          | VNum m => VNum (m + n)
          | _ => VNum n
          end
      | _ => v
      end).

Definition put_doc (c : string) (id data : Value) (b : Backend) : Backend :=
  let d := obj [("id", id); ("data", data)] in
  let others := filter (fun x => negb (value_eqb (column "id" x) id)) (documents c b) in
  let docs := if existsb (fun x => value_eqb (column "id" x) id) (documents c b)
              then map (fun x => if value_eqb (column "id" x) id then d else x)
                       (documents c b)
              else others ++ [d] in
  with_collections (store c docs (collections b)) b.

Definition fs_error (code : string) : Value := VError ("FirebaseError: " ++ code).

Definition holds (cn : Constraint) (d : Value) : bool :=
  match cn with
  | where_ f op v =>
      let x := if String.eqb f "__name__" then column "id" d
               else column f (opt_prop "data" d) in
      if String.eqb op "==" then value_eqb x (match v with VUndef => VNull | _ => v end)
      else if String.eqb op "in" then
        match v with
        | VArr vs => existsb (value_eqb x) vs
        | _ => false
        end
      else false
  | _ => true
  end.

Definition arrange_docs (cs : list Constraint) (ds : list Value) : list Value :=
  fold_left
    (fun acc cn =>
       match cn with
       | orderBy f dir =>
           map (fun r => obj [("id", column "id" r); ("data", opt_prop "data" r)])
             (sort_rows f (String.eqb dir "asc")
                (map (fun d => obj (("id", column "id" d) :: ("data", opt_prop "data" d)
                                     :: (f, column f (opt_prop "data" d)) :: [])) acc))
       | limit_ (VNum n) => firstn (Z.to_nat n) acc
       | _ => acc
       end) cs ds.

(** *** Answering a request *)

Definition honest (r : Req) (b : Backend) : Completion Value * Backend :=
  match r with
  | auth_signUp credentials =>
      let (v, b') := run_signUp credentials b in (Normal v, b')
  | auth_signInWithPassword credentials =>
      let (v, b') := run_signIn credentials b in (Normal v, b')
  | auth_signOut => (Normal (obj [("error", VNull)]), with_session VNull b)
  | auth_getUser =>
      (Normal (obj [("data", obj [("user", session b)]);
                    ("error", if truthy (session b) then VNull
                              else auth_error "Auth session missing!")]), b)
  | auth_onAuthStateChange =>
      (Normal (obj [("data", obj [("subscription", obj [])])]), b)
  | postgrest q => let (v, b') := run_query q b in (Normal v, b')
  | rpc fn args => let (v, b') := run_rpc fn args b in (Normal v, b')
  | createUserWithEmailAndPassword email password =>
      if existsb (fun d => value_eqb (column "email" (opt_prop "data" d)) email)
                 (documents "auth" b) then
        (Throw (fs_error "auth/email-already-in-use"), b)
      else
        let uid := VStr ("uid-" ++ decimal (serial b)) in
        let u := obj [("uid", uid); ("email", email)] in
        (Normal (obj [("user", u)]),
         with_fb_user u
           (bump (put_doc "auth" uid (obj [("email", email); ("password", password)]) b)))
  | signInWithEmailAndPassword email password =>
      match find (fun d => value_eqb (column "email" (opt_prop "data" d)) email
                           && value_eqb (column "password" (opt_prop "data" d)) password)
                 (documents "auth" b) with
      | Some d =>
          let u := obj [("uid", column "id" d); ("email", email)] in
          (Normal (obj [("user", u)]), with_fb_user u b)
      | None => (Throw (fs_error "auth/invalid-credential"), b)
      end
  | firebaseSignOut => (Normal VUndef, with_fb_user VNull b)
  | onAuthStateChanged => (Normal (obj []), b)
  | setDoc ref data =>
      match column "collection" ref with
      | VStr c =>
          (Normal VUndef,
           put_doc c (column "id" ref)
             (VObj (map (settle b VUndef) (spread_props data))) b)
      | _ => (Throw (fs_error "invalid-argument"), b)
      end
  | addDoc c data =>
      let id := VStr ("doc-" ++ decimal (serial b)) in
      (Normal (doc c id),
       bump (put_doc c id (VObj (map (settle b VUndef) (spread_props data))) b))
  | updateDoc ref data =>
      match column "collection" ref, find_doc ref b with
      | VStr c, Some d =>
          let old := opt_prop "data" d in
          let merged := fold_left (fun acc kv => set_key (fst kv) (snd kv) acc)
                          (map (settle b old) (spread_props data)) (spread_props old) in
          (Normal VUndef, put_doc c (column "id" ref) (VObj merged) b)
      | _, _ => (Throw (fs_error "not-found"), b)
      end
  | getDoc ref =>
      match column "collection" ref, find_doc ref b with
      | VStr c, Some d => (Normal (snapshot c d), b)
      | _, _ => (Normal (missing ref), b)
      end
  | getDocs c cs =>
      (Normal (obj [("docs",
                     VArr (map (snapshot c)
                             (arrange_docs cs
                                (filter (fun d => forallb (fun cn => holds cn d) cs)
                                        (documents c b)))))]), b)
  | deleteDoc ref =>
      match column "collection" ref with
      | VStr c =>
          (Normal VUndef,
           with_collections
             (store c (filter (fun x => negb (value_eqb (column "id" x) (column "id" ref)))
                              (documents c b)) (collections b)) b)
      | _ => (Throw (fs_error "invalid-argument"), b)
      end
  | generateContent prompt kind =>
      match prompt with
      | VStr p => (Normal (VStr ("<p>" ++ p ++ "</p>")), b)
      | _ => (Throw (VError "prompt must be a string"), b)
      end
  | setTimeout _ => (Normal VUndef, b)
  end.

(** What a returned error looks like for each request: supabase-js
    resolves with [{ data, error }], the others have no such channel. *)
Definition failing (r : Req) (e : Value) : Completion Value :=
  match r with
  | auth_signUp _ | auth_signInWithPassword _ => Normal (auth_answer VNull e)
  | auth_getUser => Normal (obj [("data", obj [("user", VNull)]); ("error", e)])
  | auth_signOut => Normal (obj [("error", e)])
  | postgrest _ | rpc _ _ => Normal (answer VNull e)
  | _ => Throw e
  end.

Definition respond (r : Req) (b : Backend) : Completion Value * Backend :=
  match faults b with
  | [] => honest r b
  | Healthy :: fs => honest r (with_faults fs b)
  | ReturnsError e :: fs => (failing r e, with_faults fs b)
  | Rejects e :: fs => (Throw e, with_faults fs b)
  end.

Definition draw (b : Backend) : string * Backend :=
  match entropy b with
  | [] => ("0.", b)
  | s :: rest =>
      (s, {| session := session b; fb_user := fb_user b; tables := tables b;
             collections := collections b; serial := serial b; time := time b;
             entropy := rest; faults := faults b |})
  end.

Definition pass (ms : Z) (b : Backend) : Backend :=
  {| session := session b; fb_user := fb_user b; tables := tables b;
     collections := collections b; serial := serial b; time := time b + ms;
     entropy := entropy b; faults := faults b |}.

#[export] Instance reference_platform : Platform := {|
  Sdk.backend := Backend;
  Sdk.respond := respond;
  Sdk.current_user := fb_user;
  Sdk.clock := time;
  Sdk.random36 := draw;
  Sdk.elapse := pass
|}.

(** A fresh deployment and a fresh client. *)
Definition empty : Backend :=
  {| session := VNull; fb_user := VNull; tables := []; collections := [];
     serial := 0; time := 0; entropy := []; faults := [] |}.

Definition boot (b : Backend) : World :=
  {| platform := b;
     calls := [];
     console := [];
     authStore := {| user := VNull; userProfile := VNull;
                     auth_loading := false; initialized := false |};
     projectStore := {| projects := VArr []; currentProject := VNull;
                        articles := VArr []; loading := false |};
     editorState := {| title := ""; isGenerating := false; canEdit := VBool false;
                       contentLength := "medium"; editor := Some (VStr "");
                       notifications := [] |} |}.

End Reference.

(* ===================================================================== *)
(** ** Every operation of the client, and what a run of one emits         *)
(* ===================================================================== *)

Section Operations.
Context `{Platform}.

(** The exported functions of the two SDK-wrapper modules, the actions of
    the two stores and the handlers of the editor. *)
Inductive Op : Type :=
(* src/lib/supabase.ts *)
| S_signUp (email password fullName : Value)
| S_signIn (email password : Value)
| S_signOut
| S_getCurrentUser
| S_createProject (title description : Value)
| S_getUserProjects
| S_createArticle (projectId title content : Value)
| S_getProjectArticles (projectId : Value)
| S_updateArticle (articleId updates : Value)
| S_getUserProfile
| S_updateUserProfile (updates : Value)
| S_getProjectTeamMembers (projectId : Value)
| S_inviteTeamMember (projectId email role : Value)
| S_removeTeamMember (projectId userId : Value)
| S_updateTeamMemberRole (projectId userId role : Value)
| S_getProjectInvitations (projectId : Value)
| S_cancelInvitation (invitationId : Value)
| S_acceptInvitation (token : Value)
| S_getArticleComments (articleId : Value)
| S_createComment (articleId content position : Value)
| S_updateComment (commentId content : Value)
| S_resolveComment (commentId resolved : Value)
| S_deleteComment (commentId : Value)
| S_getProjectActivity (projectId limit_arg : Value)
| S_getUserProjectRole (projectId : Value)
| S_canUserEditProject (projectId : Value)
| S_canUserManageTeam (projectId : Value)
| S_incrementUsageCount
(* src/lib/firebase.ts *)
| F_signUp (email password fullName : Value)
| F_signIn (email password : Value)
| F_signOut
| F_getCurrentUser
| F_createProject (title description : Value)
| F_getUserProjects
| F_createArticle (projectId title content : Value)
| F_getProjectArticles (projectId : Value)
| F_updateArticle (articleId updates : Value)
| F_getUserProfile
| F_updateUserProfile (updates : Value)
| F_getProjectTeamMembers (projectId : Value)
| F_inviteTeamMember (projectId email role : Value)
| F_removeTeamMember (projectId userId : Value)
| F_updateTeamMemberRole (projectId userId role : Value)
| F_getProjectInvitations (projectId : Value)
| F_cancelInvitation (invitationId : Value)
| F_getArticleComments (articleId : Value)
| F_createComment (articleId content position : Value)
| F_updateComment (commentId content : Value)
| F_resolveComment (commentId resolved : Value)
| F_deleteComment (commentId : Value)
| F_getProjectActivity (projectId limitCount : Value)
| F_getUserProjectRole (projectId : Value)
| F_canUserEditProject (projectId : Value)
| F_canUserManageTeam (projectId : Value)
| F_incrementUsageCount
| F_onAuthStateChange
(* src/store/authStore.ts *)
| A_signIn (email password : Value)
| A_signUp (email password fullName : Value)
| A_signOut
| A_initialize
| A_onAuthStateChange_listener (event session : Value)
| A_refreshProfile
| A_incrementUsage
(* src/store/projectStore.ts *)
| P_fetchProjects
| P_createProject (title description : Value)
| P_setCurrentProject (project : Value)
| P_fetchArticles (projectId : Value)
(* src/components/editor/ArticleEditor.tsx *)
| E_checkPermissions
| E_handleGenerateContent.

(** An action that returns nothing yields [undefined]. *)
Definition void (m : M unit) : M Value := bind m (fun _ => ret VUndef).

Definition run (op : Op) : M Value :=
  match op with
  | S_signUp e p n => Supabase.signUp e p n
  | S_signIn e p => Supabase.signIn e p
  | S_signOut => Supabase.signOut
  | S_getCurrentUser => Supabase.getCurrentUser
  | S_createProject t d => Supabase.createProject t d
  | S_getUserProjects => Supabase.getUserProjects
  | S_createArticle p t c => Supabase.createArticle p t c
  | S_getProjectArticles p => Supabase.getProjectArticles p
  | S_updateArticle a u => Supabase.updateArticle a u
  | S_getUserProfile => Supabase.getUserProfile
  | S_updateUserProfile u => Supabase.updateUserProfile u
  | S_getProjectTeamMembers p => Supabase.getProjectTeamMembers p
  | S_inviteTeamMember p e r => Supabase.inviteTeamMember p e r
  | S_removeTeamMember p u => Supabase.removeTeamMember p u
  | S_updateTeamMemberRole p u r => Supabase.updateTeamMemberRole p u r
  | S_getProjectInvitations p => Supabase.getProjectInvitations p
  | S_cancelInvitation i => Supabase.cancelInvitation i
  | S_acceptInvitation t => Supabase.acceptInvitation t
  | S_getArticleComments a => Supabase.getArticleComments a
  | S_createComment a c p => Supabase.createComment a c p
  | S_updateComment c t => Supabase.updateComment c t
  | S_resolveComment c r => Supabase.resolveComment c r
  | S_deleteComment c => Supabase.deleteComment c
  | S_getProjectActivity p l => Supabase.getProjectActivity p l
  | S_getUserProjectRole p => Supabase.getUserProjectRole p
  | S_canUserEditProject p => Supabase.canUserEditProject p
  | S_canUserManageTeam p => Supabase.canUserManageTeam p
  | S_incrementUsageCount => Supabase.incrementUsageCount
  | F_signUp e p n => Firebase.signUp e p n
  | F_signIn e p => Firebase.signIn e p
  | F_signOut => Firebase.signOut
  | F_getCurrentUser => Firebase.getCurrentUser
  | F_createProject t d => Firebase.createProject t d
  | F_getUserProjects => Firebase.getUserProjects
  | F_createArticle p t c => Firebase.createArticle p t c
  | F_getProjectArticles p => Firebase.getProjectArticles p
  | F_updateArticle a u => Firebase.updateArticle a u
  | F_getUserProfile => Firebase.getUserProfile
  | F_updateUserProfile u => Firebase.updateUserProfile u
  | F_getProjectTeamMembers p => Firebase.getProjectTeamMembers p
  | F_inviteTeamMember p e r => Firebase.inviteTeamMember p e r
  | F_removeTeamMember p u => Firebase.removeTeamMember p u
  | F_updateTeamMemberRole p u r => Firebase.updateTeamMemberRole p u r
  | F_getProjectInvitations p => Firebase.getProjectInvitations p
  | F_cancelInvitation i => Firebase.cancelInvitation i
  | F_getArticleComments a => Firebase.getArticleComments a
  | F_createComment a c p => Firebase.createComment a c p
  | F_updateComment c t => Firebase.updateComment c t
  | F_resolveComment c r => Firebase.resolveComment c r
  | F_deleteComment c => Firebase.deleteComment c
  | F_getProjectActivity p l => Firebase.getProjectActivity p l
  | F_getUserProjectRole p => Firebase.getUserProjectRole p
  | F_canUserEditProject p => Firebase.canUserEditProject p
  | F_canUserManageTeam p => Firebase.canUserManageTeam p
  | F_incrementUsageCount => Firebase.incrementUsageCount
  | F_onAuthStateChange => Firebase.onAuthStateChange
  | A_signIn e p => AuthStore.signIn e p
  | A_signUp e p n => AuthStore.signUp e p n
  | A_signOut => void AuthStore.signOut
  | A_initialize => void AuthStore.initialize
  | A_onAuthStateChange_listener e s => void (AuthStore.onAuthStateChange_listener e s)
  | A_refreshProfile => void AuthStore.refreshProfile
  | A_incrementUsage => void AuthStore.incrementUsage
  | P_fetchProjects => void ProjectStore.fetchProjects
  | P_createProject t d => ProjectStore.createProject t d
  | P_setCurrentProject p => void (ProjectStore.setCurrentProject p)
  | P_fetchArticles p => void (ProjectStore.fetchArticles p)
  | E_checkPermissions => void ArticleEditor.checkPermissions
  | E_handleGenerateContent => void ArticleEditor.handleGenerateContent
  end.

(** The requests an invocation adds to the log. *)
Fixpoint drop {A} (n : nat) (xs : list A) : list A :=
  match n, xs with
  | S n', _ :: rest => drop n' rest
  | _, _ => xs
  end.

Definition emitted {A} (m : M A) (w : World) : list Req :=
  drop (List.length (calls w)) (calls (snd (m w))).

(** *** Timers and call sites *)

Definition no_timer (r : Req) : bool := negb (is_timer r).

(** The only operations that wait: [signIn] and [signUp] of the auth
    store, after a successful authentication. *)
Definition delay (op : Op) : option Z :=
  match op with
  | A_signIn _ _ => Some 500%Z
  | A_signUp _ _ _ => Some 2000%Z
  | _ => None
  end.

(** The wrappers that read one user document per listed row. *)
Definition listing (op : Op) : bool :=
  match op with
  | F_getProjectTeamMembers _ | F_getArticleComments _ | F_getProjectActivity _ _ => true
  | _ => false
  end.

(** The number of call sites (SDK calls, the generator, the timer) on the
    longest path through each operation. *)
Definition call_sites (op : Op) : nat :=
  match op with
  | S_signUp _ _ _ | S_signIn _ _ | S_signOut | S_getCurrentUser => 1
  | S_createProject _ _ => 3
  | S_getUserProjects => 2
  | S_createArticle _ _ _ => 2
  | S_getProjectArticles _ => 1
  | S_updateArticle _ _ => 2
  | S_getUserProfile | S_updateUserProfile _ => 2
  | S_getProjectTeamMembers _ => 1
  | S_inviteTeamMember _ _ _ => 5
  | S_removeTeamMember _ _ | S_updateTeamMemberRole _ _ _ => 2
  | S_getProjectInvitations _ | S_cancelInvitation _ => 1
  | S_acceptInvitation _ => 5
  | S_getArticleComments _ => 1
  | S_createComment _ _ _ => 2
  | S_updateComment _ _ | S_resolveComment _ _ | S_deleteComment _ => 1
  | S_getProjectActivity _ _ => 1
  | S_getUserProjectRole _ | S_canUserEditProject _ | S_canUserManageTeam _ => 2
  | S_incrementUsageCount => 2
  | F_signUp _ _ _ => 2
  | F_signIn _ _ | F_signOut => 1
  | F_getCurrentUser => 0
  | F_createProject _ _ => 3
  | F_getUserProjects => 2
  | F_createArticle _ _ _ => 2
  | F_getProjectArticles _ => 1
  | F_updateArticle _ _ => 3
  | F_getUserProfile => 1
  | F_updateUserProfile _ => 2
  | F_getProjectTeamMembers _ => 1
  | F_inviteTeamMember _ _ _ | F_removeTeamMember _ _ | F_updateTeamMemberRole _ _ _ => 3
  | F_getProjectInvitations _ | F_cancelInvitation _ => 1
  | F_getArticleComments _ => 1
  | F_createComment _ _ _ => 2
  | F_updateComment _ _ => 3
  | F_resolveComment _ _ | F_deleteComment _ => 1
  | F_getProjectActivity _ _ => 1
  | F_getUserProjectRole _ | F_canUserEditProject _ | F_canUserManageTeam _ => 1
  | F_incrementUsageCount => 2
  | F_onAuthStateChange => 1
  | A_signIn _ _ | A_signUp _ _ _ => 4
  | A_signOut => 1
  | A_initialize => 4
  | A_onAuthStateChange_listener _ _ | A_refreshProfile | A_incrementUsage => 2
  | P_fetchProjects => 2
  | P_createProject _ _ => 3
  | P_setCurrentProject _ => 0
  | P_fetchArticles _ => 1
  | E_checkPermissions => 1
  | E_handleGenerateContent => 3
  end.

(** *** Writes that the specification attributes to the platform *)

(** [k] is a key of the payload, with a value that survives
    serialisation. *)
Definition has_key (k : string) (payload : Value) : bool :=
  match payload with
  | VObj fs =>
      match assoc k fs with
      | Some VUndef | None => false
      | Some _ => true
      end
  | _ => false
  end.

Definition collection_of (ref : Value) : string :=
  match opt_prop "collection" ref with
  | VStr c => c
  | _ => ""
  end.

(** A row or document is added to [t]. *)
Definition adds_to (t : string) (r : Req) : bool :=
  match r with
  | postgrest q =>
      match verb q with
      | insert _ => String.eqb (table q) t
      | _ => false
      end
  | addDoc c _ => String.eqb c t
  | setDoc ref _ => String.eqb (collection_of ref) t
  | _ => false
  end.

Definition creates_profile : Req -> bool := adds_to "users".
Definition inserts_membership : Req -> bool := adds_to "team_members".
Definition writes_activity_log : Req -> bool := adds_to "activity_logs".

Definition updates_usage_counter (r : Req) : bool :=
  match r with
  | postgrest q =>
      match verb q with
      | update changes => String.eqb (table q) "users" && has_key "usage_count" changes
      | _ => false
      end
  | updateDoc ref data =>
      String.eqb (collection_of ref) "users" && has_key "usage_count" data
  | _ => false
  end.

Definition direct_write (r : Req) : bool :=
  creates_profile r || inserts_membership r || writes_activity_log r
  || updates_usage_counter r.

Definition leaves_it_to_platform (r : Req) : bool := negb (direct_write r).

(** The wrappers of supabase.ts, and among them the three that write a
    membership row or the [users] row themselves. *)
Definition supabase_op (op : Op) : bool :=
  match op with
  | S_signUp _ _ _ | S_signIn _ _ | S_signOut | S_getCurrentUser
  | S_createProject _ _ | S_getUserProjects | S_createArticle _ _ _
  | S_getProjectArticles _ | S_updateArticle _ _ | S_getUserProfile
  | S_updateUserProfile _ | S_getProjectTeamMembers _ | S_inviteTeamMember _ _ _
  | S_removeTeamMember _ _ | S_updateTeamMemberRole _ _ _
  | S_getProjectInvitations _ | S_cancelInvitation _ | S_acceptInvitation _
  | S_getArticleComments _ | S_createComment _ _ _ | S_updateComment _ _
  | S_resolveComment _ _ | S_deleteComment _ | S_getProjectActivity _ _
  | S_getUserProjectRole _ | S_canUserEditProject _ | S_canUserManageTeam _
  | S_incrementUsageCount => true
  | _ => false
  end.

Definition writes_by_itself (op : Op) : bool :=
  match op with
  | S_acceptInvitation _ | S_incrementUsageCount | S_updateUserProfile _ => true
  | _ => false
  end.

(** The exported wrappers whose source returns [{ data, error }] or
    [{ error }]: all of the two modules but the getters
    ([getCurrentUser], [getUserProjectRole], [canUserEditProject],
    [canUserManageTeam]) and the listener registration. *)
Definition returns_result_object (op : Op) : bool :=
  match op with
  | S_getCurrentUser | S_getUserProjectRole _ | S_canUserEditProject _
  | S_canUserManageTeam _
  | F_getCurrentUser | F_getUserProjectRole _ | F_canUserEditProject _
  | F_canUserManageTeam _ | F_onAuthStateChange
  | A_signIn _ _ | A_signUp _ _ _ | A_signOut | A_initialize
  | A_onAuthStateChange_listener _ _ | A_refreshProfile | A_incrementUsage
  | P_fetchProjects | P_createProject _ _ | P_setCurrentProject _ | P_fetchArticles _
  | E_checkPermissions | E_handleGenerateContent => false
  | _ => true
  end.

Definition is_supabase_signOut (op : Op) : bool :=
  match op with
  | S_signOut => true
  | _ => false
  end.

(** The client supplies the token or the expiry of an invitation. *)
Definition supplies_token_or_expiry (r : Req) : bool :=
  let supplied payload := has_key "token" payload || has_key "expires_at" payload in
  match r with
  | postgrest q =>
      String.eqb (table q) "project_invitations"
      && match verb q with
         | insert rows => existsb supplied rows
         | update changes => supplied changes
         | _ => false
         end
  | addDoc c data => String.eqb c "project_invitations" && supplied data
  | setDoc ref data | updateDoc ref data =>
      String.eqb (collection_of ref) "project_invitations" && supplied data
  | _ => false
  end.

Definition leaves_defaults_to_schema (r : Req) : bool :=
  negb (supplies_token_or_expiry r).

(** A discipline that runs may be held to: which requests are permitted,
    what each of them costs, whether the client stores may be written,
    and how two worlds relate after requests of total cost at most [n]. *)
Record Discipline : Type := {
  permits : Req -> bool;
  cost : Req -> nat;
  stores : bool;
  within : nat -> World -> World -> Prop
}.

Definition obeys (D : Discipline) {A} (n : nat) (m : M A) : Prop :=
  forall w, within D n w (snd (m w)).

Definition total_cost (c : Req -> nat) (rs : list Req) : nat :=
  fold_right (fun r acc => (c r + acc)%nat) 0%nat rs.

(** The requests added to the log were all permitted, and cost at most
    [n] together. *)
Definition emitting (c : Req -> nat) (P : Req -> bool) : Discipline :=
  {| permits := P;
     cost := c;
     stores := true;
     within := fun n w w' =>
       exists new, calls w' = calls w ++ new
                   /\ forallb P new = true
                   /\ (total_cost c new <= n)%nat |}.

Definition unit_cost (r : Req) : nat := 1.
Definition any_request (r : Req) : bool := true.
Definition timer_cost (r : Req) : nat := if is_timer r then 1%nat else 0%nat.

(** Timers, if any, wait for [d] milliseconds. *)
Definition waits_only (d : option Z) (r : Req) : bool :=
  match r, d with
  | setTimeout ms, Some ms' => Z.eqb ms ms'
  | setTimeout _, None => false
  | _, _ => true
  end.

(** The requests added to the log were all permitted, however many. *)
Definition only (P : Req -> bool) : Discipline :=
  {| permits := P;
     cost := fun _ => 0%nat;
     stores := true;
     within := fun _ w w' =>
       exists new, calls w' = calls w ++ new /\ forallb P new = true |}.

(** The client stores and the editor state were left alone. *)
Definition framing : Discipline :=
  {| permits := fun _ => true;
     cost := fun _ => 0%nat;
     stores := false;
     within := fun _ w w' =>
       authStore w' = authStore w
       /\ projectStore w' = projectStore w
       /\ editorState w' = editorState w |}.

(** What makes the rules of composition sound for a discipline. *)
Record Lawful (D : Discipline) : Prop := {
  within_here : forall w, within D 0 w w;
  within_then : forall n m a b c,
      within D n a b -> within D m b c -> within D (n + m) a c;
  within_more : forall n m a b, (n <= m)%nat -> within D n a b -> within D m a b;
  within_await : forall r w,
      permits D r = true -> within D (cost D r) w (snd (await r w));
  within_sleep : forall ms w,
      permits D (setTimeout ms) = true ->
      within D (cost D (setTimeout ms)) w (snd (sleep ms w));
  within_console : forall msg e w, within D 0 w (snd (console_log msg e w));
  within_random : forall w, within D 0 w (snd (Math_random_toString36 w));
  within_set_auth : stores D = true ->
      forall f w, within D 0 w (snd (set_auth f w));
  within_set_project : stores D = true ->
      forall f w, within D 0 w (snd (set_project f w));
  within_set_editor : stores D = true ->
      forall f w, within D 0 w (snd (set_editor f w))
}.

(** A discipline that does not count. *)
Definition flat (D : Discipline) : Prop :=
  forall n m a b, within D n a b -> within D m a b.

(** A normal completion satisfies [Q] (and nothing is said of a throw);
    the run completes normally and satisfies [Q]. *)
Definition returns {A} (Q : A -> Prop) (m : M A) : Prop :=
  forall w a w', m w = (Normal a, w') -> Q a.

Definition settles {A} (Q : A -> Prop) (m : M A) : Prop :=
  forall w, exists a w', m w = (Normal a, w') /\ Q a.

(** The world after a request was logged and answered, and after a line
    was written to the console. *)
Definition logged (r : Req) (b : backend) (w : World) : World :=
  {| platform := b; calls := calls w ++ [r]; console := console w;
     authStore := authStore w; projectStore := projectStore w;
     editorState := editorState w |}.

Definition noted (msg : string) (e : Value) (w : World) : World :=
  {| platform := platform w; calls := calls w; console := console w ++ [(msg, e)];
     authStore := authStore w; projectStore := projectStore w;
     editorState := editorState w |}.

(** [Q] holds of the completion and the final world of [m] run in [w]. *)
Definition wp {A} (m : M A) (Q : Completion A -> World -> Prop) (w : World) : Prop :=
  Q (fst (m w)) (snd (m w)).

(** *** What the platform reports about the current user *)

(** The lookups behind [getUserProjectRole]: the row of the given user in
    the given project, with status ['active']. *)
Definition supabase_role_lookup (pid uid : Value) : Req :=
  postgrest (from_ "team_members" (select "role")
               [eq "project_id" pid; eq "user_id" uid;
                eq "status" (VStr "active"); single]).

Definition firebase_role_lookup (pid uid : Value) : Req :=
  getDocs "team_members"
    [where_ "project_id" "==" pid; where_ "user_id" "==" uid;
     where_ "status" "==" (VStr "active")].

(** supabase-js reports [u], with id [uid], as the signed-in user, and
    the platform is in state [b] afterwards. *)
Definition supabase_reports_user (w : World) (u uid : Value) (b : backend) : Prop :=
  exists answer data,
    respond auth_getUser (platform w) = (Normal answer, b)
    /\ prop "data" answer = Normal data
    /\ prop "user" data = Normal u
    /\ truthy u = true
    /\ prop "id" u = Normal uid.

(** The platform reports [role] as the role on the current user's active
    team-member row for project [pid]. *)
Definition supabase_reports_role (w : World) (pid role : Value) : Prop :=
  exists u uid b1 answer b2 row error,
    supabase_reports_user w u uid b1
    /\ respond (supabase_role_lookup pid uid) b1 = (Normal answer, b2)
    /\ prop "data" answer = Normal row
    /\ prop "error" answer = Normal error
    /\ truthy error = false
    /\ opt_prop "role" row = role.

Definition firebase_reports_role (w : World) (pid role : Value) : Prop :=
  exists uid snap b first rest data,
    truthy (current_user (platform w)) = true
    /\ prop "uid" (current_user (platform w)) = Normal uid
    /\ respond (firebase_role_lookup pid uid) (platform w) = (Normal snap, b)
    /\ prop "docs" snap = Normal (VArr (first :: rest))
    /\ prop "data" first = Normal data
    /\ prop "role" data = Normal role.

(** *** The requests of [inviteTeamMember] and [acceptInvitation] *)

(** "Check if user is already a team member": the row of user [uid]. *)
Definition caller_membership_lookup (pid uid : Value) : Req :=
  postgrest (from_ "team_members" (select "id")
               [eq "project_id" pid; eq "user_id" uid; single]).

Definition already_a_team_member : Value :=
  obj [("error", obj [("message", VStr "User is already a team member")])].

Definition invitation_lookup (token : Value) (now : Z) : Req :=
  postgrest (from_ "project_invitations" (select "*")
               [eq "token" token; is_ "accepted_at" VNull;
                gt "expires_at" (VDate now); single]).

Definition membership_insert (uid invitation : Value) : Req :=
  postgrest (from_ "team_members"
               (insert [obj [("user_id", uid);
                             ("project_id", opt_prop "project_id" invitation);
                             ("role", opt_prop "role" invitation);
                             ("invited_by", opt_prop "invited_by" invitation);
                             ("status", VStr "active")]])
               [returning "*"; single]).

Definition mark_accepted (invitation : Value) (now : Z) : Req :=
  postgrest (from_ "project_invitations"
               (update (obj [("accepted_at", VDate now)]))
               [eq "id" (opt_prop "id" invitation)]).

(** *** The requests of [handleGenerateContent] *)

Definition generation_request (st : EditorState) : Req :=
  generateContent (VStr (title st ++ ArticleEditor.lengthPrompt (contentLength st)))
                  (VStr "article").

(** [update users set usage_count = usage_count + 1 where id = uid]. *)
Definition usage_increment (uid : Value) : Req :=
  postgrest (from_ "users"
               (update (obj [("usage_count", VSql "usage_count + 1")]))
               [eq "id" uid; returning "*"; single]).

Definition is_usage_increment (r : Req) : bool :=
  match r with
  | postgrest q =>
      String.eqb (table q) "users"
      && match verb q, modifiers q with
         | update (VObj [(k, VSql e)]), [eq c _; returning cols; single] =>
             String.eqb k "usage_count" && String.eqb e "usage_count + 1"
             && String.eqb c "id" && String.eqb cols "*"
         | _, _ => false
         end
  | _ => false
  end.

(** A write of the usage counter, if any, adds exactly one. *)
Definition counts_by_one (r : Req) : bool :=
  if updates_usage_counter r then is_usage_increment r else true.

Definition counter_cost (r : Req) : nat :=
  if updates_usage_counter r then 1%nat else 0%nat.

(** The title is blank, the user may not edit, no profile is loaded, or
    the usage count has reached the limit. *)
Definition generation_barred (w : World) : Prop :=
  trim (title (editorState w)) = ""
  \/ truthy (canEdit (editorState w)) = false
  \/ truthy (userProfile (authStore w)) = false
  \/ exists count limit_,
       prop "usage_count" (userProfile (authStore w)) = Normal (VNum count)
       /\ prop "usage_limit" (userProfile (authStore w)) = Normal (VNum limit_)
       /\ (limit_ <= count)%Z.

(** The request failed with [e]: it resolved with a truthy [error], or
    it was rejected. *)
Definition failed_with (c : Completion Value) (e : Value) : Prop :=
  (exists answer, c = Normal answer
                  /\ prop "error" answer = Normal e /\ truthy e = true)
  \/ c = Throw e.

(** The world in which a store action calls the API: [loading] is set. *)
Definition loading_on (w : World) : World :=
  snd (set_project (ProjectStore.set_loading true) w).

(** [{ data, error }] or [{ error }]. *)
Definition is_result (v : Value) : Prop :=
  (exists data error, v = obj [("data", data); ("error", error)])
  \/ (exists error, v = obj [("error", error)]).

End Operations.

(* ===================================================================== *)
(** ** Three sentences of the specification, as they are written          *)
(* ===================================================================== *)

(** "Every non-trivial operation (auth, row-level security, activity
    logging, usage counters) is implemented by the BaaS platform via SQL
    policies and triggers, not by application code": no operation of the
    client creates a profile, inserts a membership, writes an
    activity-log entry or updates a usage counter. *)
Definition no_operation_writes_for_the_platform : Prop :=
  forall (P : Platform) (op : Op) (w : World),
    forallb leaves_it_to_platform (emitted (run op) w) = true.

(** "Invariants (role enums, uniqueness, expiry) are enforced by the
    database, not the application": no operation of the client supplies
    an invitation token or an expiry timestamp. *)
Definition no_operation_computes_token_or_expiry : Prop :=
  forall (P : Platform) (op : Op) (w : World),
    forallb leaves_defaults_to_schema (emitted (run op) w) = true.

(** "No custom retry, backpressure, or ordering logic": in every
    invocation each SDK call is issued at most once and no delay is
    inserted. *)
Definition every_call_once_and_undelayed : Prop :=
  forall (P : Platform) (op : Op) (w : World),
    NoDup (filter is_baas_call (emitted (run op) w))
    /\ forallb no_timer (emitted (run op) w) = true.

(* ===================================================================== *)
(** ** Concrete deployments                                               *)
(* ===================================================================== *)

Module Demo.
Import Reference.

(** Ann has an account and a profile that has used 3 of 10 generations;
    she owns project [p1]; Bob was invited to it as an editor. *)
Definition ann : Value := obj [("id", VStr "u-ann"); ("email", VStr "ann@x.io")].
Definition bob : Value := obj [("id", VStr "u-bob"); ("email", VStr "bob@x.io")].

Definition ann_profile : Value :=
  obj [("id", VStr "u-ann"); ("email", VStr "ann@x.io"); ("full_name", VStr "Ann");
       ("subscription_tier", VStr "free"); ("usage_count", VNum 3);
       ("usage_limit", VNum 10); ("created_at", VDate 0); ("updated_at", VDate 0)].

Definition ann_owns_p1 : Value :=
  obj [("id", VStr "m-1"); ("user_id", VStr "u-ann"); ("project_id", VStr "p1");
       ("role", VStr "owner"); ("invited_by", VNull); ("status", VStr "active");
       ("created_at", VDate 0); ("updated_at", VDate 0)].

Definition invitation_for_bob : Value :=
  obj [("id", VStr "i-1"); ("project_id", VStr "p1"); ("email", VStr "bob@x.io");
       ("role", VStr "editor"); ("invited_by", VStr "u-ann"); ("token", VStr "t-bob");
       ("expires_at", VDate 604800000); ("accepted_at", VNull); ("created_at", VDate 0)].

Definition deployment : Backend :=
  {| session := VNull;
     fb_user := VNull;
     tables :=
       [("auth.users",
         [obj [("id", VStr "u-ann"); ("email", VStr "ann@x.io"); ("password", VStr "secret")];
          obj [("id", VStr "u-bob"); ("email", VStr "bob@x.io"); ("password", VStr "hunter2")]]);
        ("users", [ann_profile]);
        ("projects",
         [obj [("id", VStr "p1"); ("user_id", VStr "u-ann"); ("owner_id", VStr "u-ann");
               ("title", VStr "Blog"); ("description", VNull);
               ("created_at", VDate 0); ("updated_at", VDate 0)]]);
        ("team_members", [ann_owns_p1]);
        ("project_invitations", [invitation_for_bob])];
     collections := [];
     serial := 7;
     time := 1000;
     entropy := ["0.k3j9x2m1q8w7z"; "0.p0o9i8u7y6t5r"];
     faults := [] |}.

Definition signed_in (u : Value) (fs : list Fault) : Backend :=
  with_faults fs (with_fb_user (obj [("uid", column "id" u); ("email", column "email" u)])
                               (with_session u deployment)).

Definition network_error : Value := VError "Failed to fetch".

(** Worlds of the runs below.  In [flaky] Bob is signed in and the fourth
    request fails; in [offline] Ann is signed in and the next request is
    rejected.  [at_the_editor profile t] is Ann at the article editor,
    with edit permission, the given profile loaded and the title [t]. *)
Definition flaky : World :=
  boot (signed_in bob [Healthy; Healthy; Healthy; ReturnsError network_error]).

Definition offline : World := boot (signed_in ann [Rejects network_error]).

Definition exhausted_profile : Value :=
  obj [("id", VStr "u-ann"); ("email", VStr "ann@x.io"); ("full_name", VStr "Ann");
       ("subscription_tier", VStr "free"); ("usage_count", VNum 10);
       ("usage_limit", VNum 10); ("created_at", VDate 0); ("updated_at", VDate 0)].

Definition at_the_editor (profile : Value) (t : string) : World :=
  {| platform := signed_in ann [];
     calls := [];
     console := [];
     authStore := {| user := ann; userProfile := profile;
                     auth_loading := false; initialized := true |};
     projectStore := {| projects := VArr []; currentProject := VNull;
                        articles := VArr []; loading := false |};
     editorState := {| title := t; isGenerating := false; canEdit := VBool true;
                       contentLength := "medium"; editor := Some (VStr "");
                       notifications := [] |} |}.

(** Nobody is signed in. *)
Definition signed_out : World := boot deployment.

(** A Firestore in which Ann has two membership documents for [p1]
    (Firestore has no uniqueness constraint). *)
Definition firestore : Backend :=
  with_collections
    [("team_members",
      [obj [("id", VStr "m-1");
            ("data", obj [("project_id", VStr "p1"); ("user_id", VStr "u-ann");
                          ("role", VStr "owner"); ("status", VStr "active")])];
       obj [("id", VStr "m-2");
            ("data", obj [("project_id", VStr "p1"); ("user_id", VStr "u-ann");
                          ("role", VStr "editor"); ("status", VStr "active")])]])]
    (signed_in ann []).

(** Ann at the editor of her project, with a title and a paragraph
    typed, while the platform behaves as [fs] says. *)
Definition blog : Value := obj [("id", VStr "p1"); ("title", VStr "Blog")].

Definition writing (fs : list Fault) : World :=
  {| platform := signed_in ann fs;
     calls := [];
     console := [];
     authStore := {| user := ann; userProfile := ann_profile;
                     auth_loading := false; initialized := true |};
     projectStore := {| projects := VArr [blog]; currentProject := blog;
                        articles := VArr []; loading := false |};
     editorState := {| title := " Rust "; isGenerating := false; canEdit := VBool true;
                       contentLength := "medium"; editor := Some (VStr "<p>Hello</p>");
                       notifications := [] |} |}.

End Demo.

(* ===================================================================== *)
(** ** The rest of the client                                             *)
(* ===================================================================== *)

(** *** Kinds of operations and of requests *)

Section Kinds.
Context `{Platform}.

(** The wrappers of the two libraries, as opposed to the actions of the
    stores and the handlers of the editor. *)
Definition lib_wrapper (op : Op) : bool :=
  match op with
  | A_signIn _ _ | A_signUp _ _ _ | A_signOut | A_initialize
  | A_onAuthStateChange_listener _ _ | A_refreshProfile | A_incrementUsage
  | P_fetchProjects | P_createProject _ _ | P_setCurrentProject _ | P_fetchArticles _
  | E_checkPermissions | E_handleGenerateContent => false
  | _ => true
  end.

(** The getters, the store actions and the editor handlers that have a
    [try] of their own, or call only functions that have one. *)
Definition never_rejects (op : Op) : bool :=
  match op with
  | S_getCurrentUser | S_getUserProjectRole _ | S_canUserEditProject _
  | S_canUserManageTeam _
  | F_getCurrentUser | F_getUserProjectRole _ | F_canUserEditProject _
  | F_canUserManageTeam _
  | A_signIn _ _ | A_signUp _ _ _ | A_initialize | A_onAuthStateChange_listener _ _
  | A_refreshProfile | A_incrementUsage
  | P_fetchProjects | P_setCurrentProject _ | P_fetchArticles _
  | E_checkPermissions | E_handleGenerateContent => true
  | _ => false
  end.

Definition is_read (r : Req) : bool :=
  match r with
  | auth_getUser | getDoc _ | getDocs _ _ => true
  | postgrest q => match verb q with select _ => true | _ => false end
  | _ => false
  end.

(** The operations whose name says that they only fetch or check. *)
Definition reads_only (op : Op) : bool :=
  match op with
  | S_getCurrentUser | S_getUserProjects | S_getProjectArticles _ | S_getUserProfile
  | S_getProjectTeamMembers _ | S_getProjectInvitations _ | S_getArticleComments _
  | S_getProjectActivity _ _ | S_getUserProjectRole _ | S_canUserEditProject _
  | S_canUserManageTeam _
  | F_getCurrentUser | F_getUserProjects | F_getProjectArticles _ | F_getUserProfile
  | F_getProjectTeamMembers _ | F_getProjectInvitations _ | F_getArticleComments _
  | F_getProjectActivity _ _ | F_getUserProjectRole _ | F_canUserEditProject _
  | F_canUserManageTeam _
  | A_refreshProfile | A_onAuthStateChange_listener _ _
  | P_fetchProjects | P_setCurrentProject _ | P_fetchArticles _
  | E_checkPermissions => true
  | _ => false
  end.

Definition is_delete (r : Req) : bool :=
  match r with
  | deleteDoc _ => true
  | postgrest q => match verb q with delete => true | _ => false end
  | _ => false
  end.

Definition deletes (op : Op) : bool :=
  match op with
  | S_cancelInvitation _ | S_deleteComment _
  | F_cancelInvitation _ | F_deleteComment _ => true
  | _ => false
  end.

(** The wrappers that begin with
    [if (!user) throw new Error('User not authenticated')]. *)
Definition needs_user (op : Op) : bool :=
  match op with
  | S_createProject _ _ | S_getUserProjects | S_getUserProfile | S_updateUserProfile _
  | S_inviteTeamMember _ _ _ | S_acceptInvitation _ | S_createComment _ _ _
  | S_incrementUsageCount
  | F_createProject _ _ | F_getUserProjects | F_getUserProfile | F_updateUserProfile _
  | F_inviteTeamMember _ _ _ | F_createComment _ _ _ | F_incrementUsageCount => true
  | _ => false
  end.

(** [data] in the [catch] of a wrapper: [[]] where a list is returned. *)
Definition data_on_failure (op : Op) : Value :=
  match op with
  | S_getUserProjects | F_getUserProjects => VArr []
  | _ => VNull
  end.

Definition not_authenticated : Value := VError "User not authenticated".

(** What supabase-js reports as the signed-in user: [data.user] of the
    answer to [auth.getUser()], if the call resolves and has one. *)
Definition reported_user (w : World) : option Value :=
  match fst (respond auth_getUser (platform w)) with
  | Normal answer =>
      match prop "data" answer with
      | Normal data =>
          match prop "user" data with
          | Normal x => Some x
          | Throw _ => None
          end
      | Throw _ => None
      end
  | Throw _ => None
  end.

(** The wrappers that return a list. *)
Definition lists (op : Op) : bool :=
  match op with
  | S_getUserProjects | S_getProjectArticles _ | S_getProjectTeamMembers _
  | S_getProjectInvitations _ | S_getArticleComments _ | S_getProjectActivity _ _
  | F_getUserProjects | F_getProjectArticles _ | F_getProjectTeamMembers _
  | F_getProjectInvitations _ | F_getArticleComments _ | F_getProjectActivity _ _ => true
  | _ => false
  end.

(** [{ data, error }] with [data] not [null]; an array, if [strict]. *)
Definition has_list (strict : bool) (v : Value) : Prop :=
  exists data error,
    v = obj [("data", data); ("error", error)]
    /\ truthy data = true
    /\ (strict = true -> exists items, data = VArr items).

Definition anything {A} (a : A) : Prop := True.

(** *** The requests of the wrappers of supabase.ts *)

(** The one query of each wrapper that writes without asking who the
    user is, at time [now]. *)
Definition write_query (op : Op) (now : Z) : option Req :=
  match op with
  | S_createArticle projectId title content =>
      Some (postgrest (from_ "articles"
                         (insert [obj [("project_id", projectId); ("title", title);
                                       ("content", content)]])
                         [returning "*"; single]))
  | S_updateArticle articleId updates =>
      Some (postgrest (from_ "articles" (update updates)
                         [eq "id" articleId; returning "*"; single]))
  | S_removeTeamMember projectId userId =>
      Some (postgrest (from_ "team_members" (update (obj [("status", VStr "inactive")]))
                         [eq "project_id" projectId; eq "user_id" userId;
                          returning "*"; single]))
  | S_updateTeamMemberRole projectId userId role =>
      Some (postgrest (from_ "team_members" (update (obj [("role", role)]))
                         [eq "project_id" projectId; eq "user_id" userId;
                          returning "*"; single]))
  | S_cancelInvitation invitationId =>
      Some (postgrest (from_ "project_invitations" delete
                         [eq "id" invitationId; returning "*"; single]))
  | S_updateComment commentId content =>
      Some (postgrest (from_ "article_comments"
                         (update (obj [("content", content); ("updated_at", VDate now)]))
                         [eq "id" commentId;
                          returning "*, user:users(id, email, full_name)"; single]))
  | S_resolveComment commentId resolved =>
      Some (postgrest (from_ "article_comments"
                         (update (obj [("resolved",
                                        Supabase.default_to (VBool true) resolved)]))
                         [eq "id" commentId; returning "*"; single]))
  | S_deleteComment commentId =>
      Some (postgrest (from_ "article_comments" delete
                         [eq "id" commentId; returning "*"; single]))
  | _ => None
  end.

(** Those of them that log the activity afterwards. *)
Definition logs (op : Op) : bool :=
  match op with
  | S_createArticle _ _ _ | S_updateArticle _ _ | S_removeTeamMember _ _
  | S_updateTeamMemberRole _ _ _ => true
  | _ => false
  end.

Definition invalid_or_expired : Value :=
  obj [("error", obj [("message", VStr "Invalid or expired invitation")])].

Definition email_mismatch : Value :=
  obj [("error", obj [("message", VStr "Invitation email does not match your account")])].

Definition already_invited : Value :=
  obj [("error", obj [("message", VStr "Invitation already sent to this email")])].

(** "Check if there's already a pending invitation". *)
Definition pending_invitation_lookup (pid email : Value) (now : Z) : Req :=
  postgrest (from_ "project_invitations" (select "id")
               [eq "project_id" pid; eq "email" email; is_ "accepted_at" VNull;
                gt "expires_at" (VDate now); single]).

Definition invitation_insert (pid email role uid : Value) : Req :=
  postgrest (from_ "project_invitations"
               (insert [obj [("project_id", pid); ("email", email);
                             ("role", role); ("invited_by", uid)]])
               [returning "*"; single]).

Definition invited_log (pid email role : Value) : Req :=
  rpc "log_activity"
      (obj [("p_project_id", pid); ("p_action", VStr "invited");
            ("p_resource_type", VStr "team_member");
            ("p_metadata", obj [("email", email); ("role", role)])]).

(** *** The requests of the wrappers of firebase.ts *)

(** [auth.currentUser] is a user with the given [uid]. *)
Definition signed_in_as (w : World) (uid : Value) : Prop :=
  truthy (current_user (platform w)) = true
  /\ prop "uid" (current_user (platform w)) = Normal uid.

Definition projectData (uid title description : Value) : list (string * Value) :=
  [("user_id", uid); ("owner_id", uid); ("title", title);
   ("description", or_else description (VStr ""));
   ("created_at", Firebase.serverTimestamp); ("updated_at", Firebase.serverTimestamp)].

Definition project_doc (uid title description : Value) : Req :=
  addDoc "projects" (obj (projectData uid title description)).

Definition owner_membership_doc (uid project_id : Value) : Req :=
  addDoc "team_members"
         (obj [("user_id", uid); ("project_id", project_id);
               ("role", VStr "owner"); ("status", VStr "active");
               ("created_at", Firebase.serverTimestamp);
               ("updated_at", Firebase.serverTimestamp)]).

Definition active_memberships (uid : Value) : Req :=
  getDocs "team_members"
          [where_ "user_id" "==" uid; where_ "status" "==" (VStr "active")].

Definition member_lookup (projectId userId : Value) : Req :=
  getDocs "team_members"
          [where_ "project_id" "==" projectId; where_ "user_id" "==" userId].

Definition team_member_not_found : Value :=
  obj [("data", VNull); ("error", obj [("message", VStr "Team member not found")])].

(** The project, the user and the change that [removeTeamMember] and
    [updateTeamMemberRole] make to the member's document. *)
Definition member_change (op : Op) : option (Value * Value * list (string * Value)) :=
  match op with
  | F_removeTeamMember projectId userId =>
      Some (projectId, userId,
            [("status", VStr "inactive"); ("updated_at", Firebase.serverTimestamp)])
  | F_updateTeamMemberRole projectId userId role =>
      Some (projectId, userId,
            [("role", role); ("updated_at", Firebase.serverTimestamp)])
  | _ => None
  end.

Definition profile_doc (uid email fullName : Value) : Req :=
  setDoc (doc "users" uid)
         (obj [("id", uid); ("email", email);
               ("full_name", or_else fullName (VStr ""));
               ("subscription_tier", VStr "free");
               ("usage_count", VNum 0); ("usage_limit", VNum 10);
               ("created_at", Firebase.serverTimestamp);
               ("updated_at", Firebase.serverTimestamp)]).

End Kinds.

(** *** App.tsx: what is rendered *)

Module Shell.

Inductive Screen : Type :=
| LoadingSpinner_screen | ArticleEditor_screen | ContentBriefGenerator_screen
| TeamCollaboration_screen | AccountSettings_screen | PricingPage_screen
| SupportFAQ_screen | Dashboard_screen | Landing_screen.

(** The body of [App] after the hooks: the screen for the auth state and
    the current view. *)
Definition render (initialized : bool) (user : Value) (currentView : App.View)
  : Screen :=
  if negb initialized then LoadingSpinner_screen
  else if truthy user then
    match currentView with
    | App.editor_view => ArticleEditor_screen
    | App.brief_generator => ContentBriefGenerator_screen
    | App.team => TeamCollaboration_screen
    | App.settings => AccountSettings_screen
    | App.pricing => PricingPage_screen
    | App.support => SupportFAQ_screen
    | _ => Dashboard_screen
    end
  else
    match currentView with
    | App.pricing => PricingPage_screen
    | App.support => SupportFAQ_screen
    | _ => Landing_screen
    end.

(** [handleAuthClick]. *)
Definition handleAuthClick (mode : string) (st : App.AppState) : App.AppState :=
  {| App.showAuthModal := true; App.authMode := mode;
     App.currentView := App.currentView st |}.

End Shell.

(** *** Navigation: the handlers that assign [window.location.hash]

    Each handler yields the hash it assigns.  A template literal
    [`${v}`] converts [v] to a string; the conversion is a parameter,
    [template]. *)

Module ProjectCard.
Section Component.
Context `{Platform}.
Variable template : Value -> string.

Definition handleOpenProject (project : Value) : M string :=
  ProjectStore.setCurrentProject project ;;
  id <- get project "id" ;;
  ret ("#/project/" ++ template id)%string.

Definition handleManageTeam (project : Value) : M string :=
  id <- get project "id" ;;
  ret ("#/team/" ++ template id)%string.

End Component.
End ProjectCard.

Module Dashboard.
Section Component.
Context `{Platform}.

Definition handleNavigation (path : string) : string := ("#/" ++ path)%string.

(** The paths of the quick actions and of the settings button. *)
Definition destinations : list string :=
  ["brief-generator"; "team"; "pricing"; "settings"].

Definition handleSignOut : M unit :=
  AuthStore.signOut ;;
  ArticleEditor.showNotification "Signed out successfully" "success".

End Component.
End Dashboard.

Module EditorNavigation.
Section Component.
Context `{Platform}.
Variable template : Value -> string.

(** [handleBack] and [handleManageTeam] of ArticleEditor.tsx; the second
    assigns nothing without a current project. *)
Definition handleBack : string := "#/dashboard".

Definition handleManageTeam : M (option string) :=
  currentProject <- read (fun w => currentProject (projectStore w)) ;;
  if truthy currentProject then
    id <- get currentProject "id" ;;
    ret (Some ("#/team/" ++ template id)%string)
  else ret None.

End Component.
End EditorNavigation.

(** *** ArticleEditor.tsx: the article list and saving *)

(** The rest of the component's local state: what [loadArticles] and
    [handleSave] read and set. *)
Record ArticlesPanel : Type := {
  isSaving : bool;
  currentArticleId : Value;
  articleList : Value;
  loadingArticles : bool
}.

Section PanelMonad.
Context `{Platform}.

(** Invocations that also thread the panel; a [throw] keeps what was set
    before it. *)
Definition PanelM (A : Type) : Type :=
  ArticlesPanel -> World -> (Completion A * ArticlesPanel) * World.

Definition eret {A} (a : A) : PanelM A := fun p w => ((Normal a, p), w).

Definition ebind {A B} (m : PanelM A) (k : A -> PanelM B) : PanelM B :=
  fun p w =>
    match m p w with
    | ((Normal a, p'), w') => k a p' w'
    | ((Throw e, p'), w') => ((Throw e, p'), w')
    end.

Definition etry_catch {A} (body : PanelM A) (handler : Value -> PanelM A) : PanelM A :=
  fun p w =>
    match body p w with
    | ((Normal a, p'), w') => ((Normal a, p'), w')
    | ((Throw e, p'), w') => handler e p' w'
    end.

Definition etry_finally {A} (body : PanelM A) (cleanup : PanelM unit) : PanelM A :=
  fun p w =>
    match body p w with
    | ((c, p'), w') =>
        match cleanup p' w' with
        | ((Normal _, p''), w'') => ((c, p''), w'')
        | ((Throw e, p''), w'') => ((Throw e, p''), w'')
        end
    end.

(** A computation that does not touch the panel. *)
Definition elift {A} (m : M A) : PanelM A :=
  fun p w => let (c, w') := m w in ((c, p), w').

(** A React state setter of the panel, and a read of it. *)
Definition modify (f : ArticlesPanel -> ArticlesPanel) : PanelM unit :=
  fun p w => ((Normal tt, f p), w).

Definition gets {A} (f : ArticlesPanel -> A) : PanelM A :=
  fun p w => ((Normal (f p), p), w).

End PanelMonad.

Declare Scope panel_scope.
Delimit Scope panel_scope with panel.
Notation "x <- m ;; k" := (ebind m (fun x => k))
  (at level 100, m at next level, right associativity) : panel_scope.
Notation "m ;; k" := (ebind m (fun _ => k))
  (at level 100, right associativity) : panel_scope.

Module ArticlesList.
Section Component.
Context `{Platform}.
Local Open Scope panel_scope.

Definition setIsSaving (b : bool) (p : ArticlesPanel) : ArticlesPanel :=
  {| isSaving := b; currentArticleId := currentArticleId p;
     articleList := articleList p; loadingArticles := loadingArticles p |}.

Definition setCurrentArticleId (id : Value) (p : ArticlesPanel) : ArticlesPanel :=
  {| isSaving := isSaving p; currentArticleId := id;
     articleList := articleList p; loadingArticles := loadingArticles p |}.

Definition setArticles (xs : Value) (p : ArticlesPanel) : ArticlesPanel :=
  {| isSaving := isSaving p; currentArticleId := currentArticleId p;
     articleList := xs; loadingArticles := loadingArticles p |}.

Definition setLoadingArticles (b : bool) (p : ArticlesPanel) : ArticlesPanel :=
  {| isSaving := isSaving p; currentArticleId := currentArticleId p;
     articleList := articleList p; loadingArticles := b |}.

(** [editor?.getHTML()]: the document as it was last set. *)
Definition getHTML (st : EditorState) : Value :=
  match editor st with
  | Some html => html
  | None => VUndef
  end.

Definition showNotification (message kind : string) : PanelM unit :=
  elift (ArticleEditor.showNotification message kind).

Definition loadArticles : PanelM unit :=
  currentProject <- elift (read (fun w => currentProject (projectStore w))) ;;
  if falsy currentProject then eret tt
  else
    modify (setLoadingArticles true) ;;
    etry_finally
      (etry_catch
         (id <- elift (get currentProject "id") ;;
          r <- elift (Firebase.getProjectArticles id) ;;
          data <- elift (get r "data") ;;
          error <- elift (get r "error") ;;
          if truthy error then elift (throw error)
          else modify (setArticles (or_else data (VArr []))))
         (fun error => showNotification "Failed to load articles" "error"))
      (modify (setLoadingArticles false)).

Definition handleSave : PanelM unit :=
  st <- elift (read editorState) ;;
  currentProject <- elift (read (fun w => currentProject (projectStore w))) ;;
  articleId <- gets currentArticleId ;;
  if String.eqb (trim (title st)) "" || falsy (getHTML st) then
    showNotification "Please enter a title and content" "error"
  else if falsy currentProject then
    showNotification "No project selected" "error"
  else if falsy (canEdit st) then
    showNotification "You do not have permission to edit this project" "error"
  else
    modify (setIsSaving true) ;;
    etry_finally
      (etry_catch
         (let content := getHTML st in
          (if truthy articleId then
             r <- elift (Firebase.updateArticle articleId
                           (obj [("title", VStr (trim (title st)));
                                 ("content", content)])) ;;
             error <- elift (get r "error") ;;
             if truthy error then elift (throw error)
             else showNotification "Article updated successfully!" "success"
           else
             id <- elift (get currentProject "id") ;;
             r <- elift (Firebase.createArticle id (VStr (trim (title st))) content) ;;
             data <- elift (get r "data") ;;
             error <- elift (get r "error") ;;
             if truthy error then elift (throw error)
             else
               (if truthy data then
                  data_id <- elift (get data "id") ;;
                  modify (setCurrentArticleId data_id)
                else eret tt) ;;
               showNotification "Article saved successfully!" "success") ;;
          (* Reload articles list *)
          loadArticles)
         (fun error =>
            elift (console_error "Save article error:" error) ;;
            showNotification "Failed to save article. Please try again." "error"))
      (modify (setIsSaving false)).

End Component.
End ArticlesList.

(** *** What [loadArticles] and [handleSave] are specified against *)

Section PanelSpec.
Context `{Platform}.

(** The panel and the notifications after [loadArticles] got [r] from
    [getProjectArticles]. *)
Definition articles_loaded (r : Value) (p : ArticlesPanel) (w : World)
           (p' : ArticlesPanel) (w' : World) : Prop :=
  loadingArticles p' = false
  /\ isSaving p' = isSaving p
  /\ currentArticleId p' = currentArticleId p
  /\ if truthy (opt_prop "error" r)
     then articleList p' = articleList p
          /\ notifications (editorState w')
             = notifications (editorState w) ++ [("Failed to load articles", "error")]
     else articleList p' = or_else (opt_prop "data" r) (VArr [])
          /\ notifications (editorState w') = notifications (editorState w).

(** The guards of [handleSave], in their order, with their messages. *)
Definition save_barred (w : World) : option string :=
  let st := editorState w in
  if String.eqb (trim (title st)) "" || falsy (ArticlesList.getHTML st)
  then Some "Please enter a title and content"
  else if falsy (currentProject (projectStore w))
  then Some "No project selected"
  else if falsy (canEdit st)
  then Some "You do not have permission to edit this project"
  else None.

(** The write of [handleSave]: an update of the current article, or the
    creation of one in the current project. *)
Definition save_write (p : ArticlesPanel) (w : World) : M Value :=
  let st := editorState w in
  if truthy (currentArticleId p) then
    Firebase.updateArticle (currentArticleId p)
      (obj [("title", VStr (trim (title st))); ("content", ArticlesList.getHTML st)])
  else
    Firebase.createArticle (opt_prop "id" (currentProject (projectStore w)))
      (VStr (trim (title st))) (ArticlesList.getHTML st).

Definition save_failed : string * string :=
  ("Failed to save article. Please try again.", "error").

Definition save_succeeded (p : ArticlesPanel) : string * string :=
  (if truthy (currentArticleId p) then "Article updated successfully!"
   else "Article saved successfully!", "success").

End PanelSpec.

(** The panel of a freshly mounted editor (the [useState] defaults). *)
Definition fresh_panel : ArticlesPanel :=
  {| isSaving := false; currentArticleId := VNull;
     articleList := VArr []; loadingArticles := false |}.

(** [Q] holds of the completion, the panel and the world after [m]. *)
Definition ewp `{Platform} {A} (m : PanelM A)
           (Q : Completion A -> ArticlesPanel -> World -> Prop)
           (p : ArticlesPanel) (w : World) : Prop :=
  Q (fst (fst (m p w))) (snd (fst (m p w))) (snd (m p w)).

(* ===================================================================== *)
(** * Properties                                                          *)
(* ===================================================================== *)

(** ** Rules of composition *)

Section Rules.
Context `{Platform}.

Lemma drop_app {A} (xs ys : list A) : drop (List.length xs) (xs ++ ys) = ys.
Proof. induction xs as [|x xs IH]; [destruct ys|]; simpl; auto. Qed.

Lemma total_cost_app (c : Req -> nat) (xs ys : list Req) :
  total_cost c (xs ++ ys) = (total_cost c xs + total_cost c ys)%nat.
Proof. induction xs as [|x xs IH]; simpl; [reflexivity|rewrite IH; lia]. Qed.

Lemma emitting_lawful (c : Req -> nat) (P : Req -> bool) : Lawful (emitting c P).
Proof.
  constructor; simpl.
  - intro w. exists []. rewrite app_nil_r. simpl. auto.
  - intros n m a b d (x & Hx & Px & Lx) (y & Hy & Py & Ly).
    exists (x ++ y). rewrite Hy, Hx, app_assoc, forallb_app, Px, Py, total_cost_app.
    repeat split; auto; lia.
  - intros n m a b Hle (x & Hx & Px & Lx). exists x. repeat split; auto; lia.
  - intros r w Hr. unfold await. destruct (respond r (platform w)) as [k b]. simpl.
    exists [r]. simpl. rewrite Hr. repeat split; auto; lia.
  - intros ms w Hr. exists [setTimeout ms]. simpl. rewrite Hr. repeat split; auto; lia.
  - intros msg e w. exists []. simpl. rewrite app_nil_r. auto.
  - intro w. unfold Math_random_toString36.
    destruct (random36 (platform w)) as [s b]. simpl.
    exists []. rewrite app_nil_r. simpl. auto.
  - intros _ f w. exists []. simpl. rewrite app_nil_r. auto.
  - intros _ f w. exists []. simpl. rewrite app_nil_r. auto.
  - intros _ f w. exists []. simpl. rewrite app_nil_r. auto.
Qed.

Lemma only_lawful (P : Req -> bool) : Lawful (only P).
Proof.
  constructor; simpl.
  - intro w. exists []. rewrite app_nil_r. auto.
  - intros _ _ a b c (x & Hx & Px) (y & Hy & Py).
    exists (x ++ y). rewrite Hy, Hx, app_assoc, forallb_app, Px, Py. auto.
  - auto.
  - intros r w Hr. unfold await. destruct (respond r (platform w)) as [c b]. simpl.
    exists [r]. simpl. rewrite Hr. auto.
  - intros ms w Hr. exists [setTimeout ms]. simpl. rewrite Hr. auto.
  - intros msg e w. exists []. simpl. rewrite app_nil_r. auto.
  - intro w. unfold Math_random_toString36.
    destruct (random36 (platform w)) as [s b]. simpl.
    exists []. rewrite app_nil_r. auto.
  - intros _ f w. exists []. simpl. rewrite app_nil_r. auto.
  - intros _ f w. exists []. simpl. rewrite app_nil_r. auto.
  - intros _ f w. exists []. simpl. rewrite app_nil_r. auto.
Qed.

Lemma only_flat (P : Req -> bool) : flat (only P).
Proof. intros n m a b Hw. exact Hw. Qed.

Lemma framing_flat : flat framing.
Proof. intros n m a b Hw. exact Hw. Qed.

Lemma framing_lawful : Lawful framing.
Proof.
  constructor; simpl; try discriminate; auto.
  - intros _ _ a b c (A1 & A2 & A3) (B1 & B2 & B3).
    rewrite B1, B2, B3. auto.
  - intros r w _. unfold await. destruct (respond r (platform w)); simpl. auto.
  - intro w. unfold Math_random_toString36.
    destruct (random36 (platform w)); simpl. auto.
Qed.

Section Obeys.
Variable D : Discipline.
Hypothesis law : Lawful D.

Lemma obeys_le {A} (n m : nat) (c : M A) :
  obeys D n c -> (n <= m)%nat -> obeys D m c.
Proof. intros Hc Hle w. eapply within_more; eauto. Qed.

Lemma obeys_ret {A} (a : A) : obeys D 0 (ret a).
Proof. intro w. apply (within_here D law). Qed.

Lemma obeys_throw {A} (e : Value) : obeys D 0 (@throw _ A e).
Proof. intro w. apply (within_here D law). Qed.

Lemma obeys_lift {A} (c : Completion A) : obeys D 0 (lift c).
Proof. intro w. apply (within_here D law). Qed.

Lemma obeys_get (v : Value) (k : string) : obeys D 0 (get v k).
Proof. apply obeys_lift. Qed.

Lemma obeys_read {A} (f : World -> A) : obeys D 0 (read f).
Proof. intro w. apply (within_here D law). Qed.

Lemma obeys_Date_now : obeys D 0 Date_now.
Proof. intro w. apply (within_here D law). Qed.

Lemma obeys_random : obeys D 0 Math_random_toString36.
Proof. intro w. apply (within_random D law). Qed.

Lemma obeys_console (msg : string) (e : Value) : obeys D 0 (console_log msg e).
Proof. intro w. apply (within_console D law). Qed.

Lemma obeys_await (r : Req) : permits D r = true -> obeys D (cost D r) (await r).
Proof. intros Hr w. apply (within_await D law); auto. Qed.

Lemma obeys_sleep (ms : Z) :
  permits D (setTimeout ms) = true -> obeys D (cost D (setTimeout ms)) (sleep ms).
Proof. intros Hr w. apply (within_sleep D law); auto. Qed.

Lemma obeys_set_auth f : stores D = true -> obeys D 0 (set_auth f).
Proof. intros Hs w. apply (within_set_auth D law); auto. Qed.

Lemma obeys_set_project f : stores D = true -> obeys D 0 (set_project f).
Proof. intros Hs w. apply (within_set_project D law); auto. Qed.

Lemma obeys_set_editor f : stores D = true -> obeys D 0 (set_editor f).
Proof. intros Hs w. apply (within_set_editor D law); auto. Qed.

Lemma obeys_bind {A B} (n1 n2 : nat) (m : M A) (k : A -> M B) :
  obeys D n1 m -> (forall a, obeys D n2 (k a)) -> obeys D (n1 + n2) (bind m k).
Proof.
  intros Hm Hk w. unfold bind. specialize (Hm w).
  destruct (m w) as [[a|e] w1]; simpl in *.
  - eapply within_then; eauto. apply Hk.
  - eapply within_more; [exact law| |exact Hm]. lia.
Qed.

Lemma obeys_try_catch {A} (n1 n2 : nat) (body : M A) (handler : Value -> M A) :
  obeys D n1 body -> (forall e, obeys D n2 (handler e)) ->
  obeys D (n1 + n2) (try_catch body handler).
Proof.
  intros Hm Hk w. unfold try_catch. specialize (Hm w).
  destruct (body w) as [[a|e] w1]; simpl in *.
  - eapply within_more; [exact law| |exact Hm]. lia.
  - eapply within_then; eauto. apply Hk.
Qed.

Lemma obeys_try_finally {A} (n1 n2 : nat) (body : M A) (cleanup : M unit) :
  obeys D n1 body -> obeys D n2 cleanup ->
  obeys D (n1 + n2) (try_finally body cleanup).
Proof.
  intros Hm Hk w. unfold try_finally. specialize (Hm w).
  destruct (body w) as [c w1]. specialize (Hk w1).
  destruct (cleanup w1) as [[u|e] w2]; simpl in *;
    eapply within_then; eauto.
Qed.

Lemma obeys_if {A} (n1 n2 : nat) (c : bool) (a b : M A) :
  obeys D n1 a -> obeys D n2 b -> obeys D (Nat.max n1 n2) (if c then a else b).
Proof.
  intros Ha Hb. destruct c; [eapply obeys_le; [exact Ha|]|eapply obeys_le; [exact Hb|]]; lia.
Qed.

Lemma obeys_when (n : nat) (c : bool) (m : M unit) :
  obeys D n m -> obeys D n (when c m).
Proof.
  intro Hm. destruct c; simpl; auto.
  eapply obeys_le; [apply obeys_ret|lia].
Qed.

Lemma obeys_option {A B} (n1 n2 : nat) (o : option B) (a : B -> M A) (b : M A) :
  (forall x, obeys D n1 (a x)) -> obeys D n2 b ->
  obeys D (Nat.max n1 n2) (match o with Some x => a x | None => b end).
Proof.
  intros Ha Hb. destruct o; [eapply obeys_le; [apply Ha|]|eapply obeys_le; [exact Hb|]]; lia.
Qed.

Lemma obeys_mapM {A B} (f : A -> M B) (xs : list A) :
  (forall x, obeys D 0 (f x)) -> obeys D 0 (mapM f xs).
Proof.
  intro Hf. induction xs as [|x xs IH]; simpl.
  - apply obeys_ret.
  - change 0%nat with (0 + (0 + 0))%nat.
    apply obeys_bind; [apply Hf|]. intro y.
    apply obeys_bind; [exact IH|]. intro ys. apply obeys_ret.
Qed.

Lemma obeys_settle_all {A B} (n : nat) (f : A -> M B) (xs : list A) :
  (forall x, obeys D n (f x)) -> obeys D (n * List.length xs) (settle_all f xs).
Proof.
  intro Hf. induction xs as [|x xs IH]; simpl.
  - rewrite Nat.mul_0_r. apply obeys_ret.
  - intro w. specialize (Hf x w). destruct (f x w) as [c w1]. simpl in Hf.
    replace (n * S (List.length xs))%nat with (n + (n * List.length xs + 0))%nat by lia.
    eapply within_then; [exact law|exact Hf|].
    apply (obeys_bind _ _ (settle_all f xs) (fun cs => ret (c :: cs))); auto.
    intro cs. apply obeys_ret.
Qed.

Lemma obeys_Promise_all_map {A B} (n : nat) (f : A -> M B) (xs : list A) :
  (forall x, obeys D n (f x)) -> obeys D (n * List.length xs) (Promise_all_map f xs).
Proof.
  intro Hf. unfold Promise_all_map.
  replace (n * List.length xs)%nat with (n * List.length xs + 0)%nat by lia.
  apply obeys_bind; [apply obeys_settle_all; auto|]. intro cs. apply obeys_lift.
Qed.

Lemma obeys_as_array (v : Value) : obeys D 0 (as_array v).
Proof. destruct v; simpl; try apply obeys_ret; try apply obeys_throw; apply obeys_lift. Qed.

Lemma obeys_toDate_opt (t : Value) : obeys D 0 (Firebase.toDate_opt t).
Proof. destruct t; simpl; try apply obeys_ret; apply obeys_throw. Qed.

Lemma obeys_spread_items (v : Value) : obeys D 0 (ProjectStore.spread_items v).
Proof. destruct v; simpl; try apply obeys_ret; apply obeys_throw. Qed.

Lemma obeys_flat {A} (n m : nat) (c : M A) : flat D -> obeys D n c -> obeys D m c.
Proof. intros Hf Hc w. eapply Hf. apply Hc. Qed.

Lemma obeys_Promise_all_map_free {A B} (f : A -> M B) (xs : list A) :
  (forall x, obeys D 0 (f x)) -> obeys D 0 (Promise_all_map f xs).
Proof.
  intro Hx. eapply obeys_le; [apply (obeys_Promise_all_map 0); exact Hx|]. lia.
Qed.

Lemma obeys_Promise_all_map_flat {A B} (n : nat) (f : A -> M B) (xs : list A) :
  flat D -> (forall x, obeys D n (f x)) -> obeys D 0 (Promise_all_map f xs).
Proof.
  intros Hf Hx. eapply obeys_flat; [exact Hf|].
  apply obeys_Promise_all_map. exact Hx.
Qed.

End Obeys.

(** ** Rules for results *)

Lemma returns_ret {A} (Q : A -> Prop) (a : A) : Q a -> returns Q (ret a).
Proof. intros Hq w a' w' E. inversion E. subst. exact Hq. Qed.

Lemma returns_throw {A} (Q : A -> Prop) (e : Value) : returns Q (@throw _ A e).
Proof. intros w a' w' E. discriminate. Qed.

Lemma returns_bind {A B} (Q : B -> Prop) (m : M A) (k : A -> M B) :
  (forall a, returns Q (k a)) -> returns Q (bind m k).
Proof.
  intros Hk w b w' E. unfold bind in E.
  destruct (m w) as [[a|e] w1]; [eapply Hk; eauto|discriminate].
Qed.

Lemma returns_try_catch {A} (Q : A -> Prop) (body : M A) (handler : Value -> M A) :
  returns Q body -> (forall e, returns Q (handler e)) ->
  returns Q (try_catch body handler).
Proof.
  intros Hb Hh w a w' E. unfold try_catch in E.
  destruct (body w) as [[a1|e] w1] eqn:Eb.
  - inversion E. subst. eapply Hb; eauto.
  - eapply Hh; eauto.
Qed.

Lemma returns_if {A} (Q : A -> Prop) (c : bool) (a b : M A) :
  returns Q a -> returns Q b -> returns Q (if c then a else b).
Proof. destruct c; auto. Qed.

Lemma settles_ret {A} (Q : A -> Prop) (a : A) : Q a -> settles Q (ret a).
Proof. intros Hq w. exists a, w. auto. Qed.

Lemma settles_bind {A B} (Q1 : A -> Prop) (Q : B -> Prop) (m : M A) (k : A -> M B) :
  settles Q1 m -> (forall a, Q1 a -> settles Q (k a)) -> settles Q (bind m k).
Proof.
  intros Hm Hk w. destruct (Hm w) as (a & w1 & E & Ha).
  destruct (Hk a Ha w1) as (b & w2 & E2 & Hb).
  exists b, w2. unfold bind. rewrite E. auto.
Qed.

Lemma settles_try_catch {A} (Q : A -> Prop) (body : M A) (handler : Value -> M A) :
  returns Q body -> (forall e, settles Q (handler e)) ->
  settles Q (try_catch body handler).
Proof.
  intros Hb Hh w. unfold try_catch.
  destruct (body w) as [[a|e] w1] eqn:Eb.
  - exists a, w1. split; auto. eapply Hb; eauto.
  - apply Hh.
Qed.

Lemma settles_console_log (Q : unit -> Prop) (msg : string) (e : Value) :
  Q tt -> settles Q (console_log msg e).
Proof. intros Hq w. eexists. eexists. split; [reflexivity|exact Hq]. Qed.

Lemma settles_console {A} (Q : A -> Prop) (msg : string) (e : Value) (k : M A) :
  settles Q k -> settles Q (bind (console_log msg e) (fun _ => k)).
Proof.
  intros Hk w. unfold bind, console_log.
  match goal with |- context [k ?w1] => destruct (Hk w1) as (a & w2 & E & Ha) end.
  exists a, w2. auto.
Qed.

End Rules.

(** Syntax-directed search for [obeys]: the rules of composition, the
    primitives, and unfolding of the client's own functions. *)
Ltac head_of t :=
  lazymatch t with
  | ?f _ => head_of f
  | _ => t
  end.

Ltac obey law :=
  cbv zeta;
  lazymatch goal with
  | |- obeys _ _ (bind _ _) =>
      eapply (obeys_bind _ law); [obey law | intro; obey law]
  | |- obeys _ _ (try_catch _ _) =>
      eapply (obeys_try_catch _ law); [obey law | intro; obey law]
  | |- obeys _ _ (try_finally _ _) =>
      eapply (obeys_try_finally _ law); [obey law | obey law]
  | |- obeys _ _ (if _ then _ else _) =>
      eapply (obeys_if _ law); [obey law | obey law]
  | |- obeys _ _ (match _ with Some _ => _ | None => _ end) =>
      eapply (obeys_option _ law); [intro; obey law | obey law]
  | |- obeys _ _ (when _ _) => eapply (obeys_when _ law); obey law
  | |- obeys _ _ (ret _) => apply (obeys_ret _ law)
  | |- obeys _ _ (throw _) => apply (obeys_throw _ law)
  | |- obeys _ _ (get _ _) => apply (obeys_get _ law)
  | |- obeys _ _ (lift _) => apply (obeys_lift _ law)
  | |- obeys _ _ (read _) => apply (obeys_read _ law)
  | |- obeys _ _ Date_now => apply (obeys_Date_now _ law)
  | |- obeys _ _ Math_random_toString36 => apply (obeys_random _ law)
  | |- obeys _ _ (console_log _ _) => apply (obeys_console _ law)
  | |- obeys _ _ (console_error _ _) => apply (obeys_console _ law)
  | |- obeys _ _ (console_warn _ _) => apply (obeys_console _ law)
  | |- obeys ?D _ (await ?r) =>
      let c := eval cbv in (cost D r) in
      apply (obeys_le D law c);
      [exact (obeys_await D law r eq_refl) | apply Nat.le_refl]
  | |- obeys ?D _ (sleep ?ms) =>
      let c := eval cbv in (cost D (setTimeout ms)) in
      apply (obeys_le D law c);
      [exact (obeys_sleep D law ms eq_refl) | apply Nat.le_refl]
  | |- obeys _ _ (set_auth _) => apply (obeys_set_auth _ law); reflexivity
  | |- obeys _ _ (set_project _) => apply (obeys_set_project _ law); reflexivity
  | |- obeys _ _ (set_editor _) => apply (obeys_set_editor _ law); reflexivity
  | |- obeys _ _ (as_array _) => apply (obeys_as_array _ law)
  | |- obeys _ _ (Firebase.toDate_opt _) => apply (obeys_toDate_opt _ law)
  | |- obeys _ _ (ProjectStore.spread_items _) => apply (obeys_spread_items _ law)
  | |- obeys _ _ (mapM _ _) =>
      apply (obeys_mapM _ law); intro;
      eapply (obeys_le _ law); [obey law | simpl; lia]
  | |- obeys _ _ (Promise_all_map _ _) =>
      first [ apply (obeys_Promise_all_map_free _ law); intro;
              eapply (obeys_le _ law); [obey law | simpl; lia]
            | eapply (obeys_Promise_all_map_flat _ law);
              [ solve [ apply only_flat | apply framing_flat ] | intro; obey law ]
            | eapply (obeys_Promise_all_map _ law); intro; obey law ]
  | |- obeys _ _ ?m =>
      let h := head_of m in progress unfold h; obey law
  end.

Ltac obey_upto law := eapply (obeys_le _ law); [obey law | cbn; lia].


(* ===================================================================== *)
(** ** The hash router (App.tsx)                                          *)
(* ===================================================================== *)

(** C7. The router is a total function of the hash string: the view is
    that of the first prefix, in the fixed order of the routing table,
    that the hash starts with, and [landing] for every other hash, the
    empty one included; nothing else of the component changes. *)
Theorem handleHashChange_first_matching_prefix (hash : string) (st : App.AppState) :
  App.currentView (App.handleHashChange hash st) = App.first_matching_route hash
  /\ App.showAuthModal (App.handleHashChange hash st) = App.showAuthModal st
  /\ App.authMode (App.handleHashChange hash st) = App.authMode st
  /\ App.first_matching_route "" = App.landing.
Proof.
  unfold App.handleHashChange, App.first_matching_route, App.route_table, App.startsWith.
  cbn [find fst snd].
  repeat match goal with
         | |- context [String.prefix ?p hash] => destruct (String.prefix p hash)
         end; cbn; auto.
Qed.

Example route_project : forall st,
  App.currentView (App.handleHashChange "#/project/42" st) = App.editor_view.
Proof. reflexivity. Qed.

Example route_team_with_id : forall st,
  App.currentView (App.handleHashChange "#/team/p1" st) = App.team.
Proof. reflexivity. Qed.

Example route_unknown : forall st,
  App.currentView (App.handleHashChange "#/nowhere" st) = App.landing.
Proof. reflexivity. Qed.

(* ===================================================================== *)
(** ** What an invocation sends                                           *)
(* ===================================================================== *)

Section Emitted.
Context `{Platform}.

Lemma emitted_spec {A} (c : Req -> nat) (P : Req -> bool) (n : nat) (m : M A) (w : World) :
  obeys (emitting c P) n m ->
  calls (snd (m w)) = calls w ++ emitted m w
  /\ forallb P (emitted m w) = true
  /\ (total_cost c (emitted m w) <= n)%nat.
Proof.
  intro Hm. destruct (Hm w) as (new & Hc & Hp & Hl).
  unfold emitted. rewrite Hc, drop_app. auto.
Qed.

Lemma emitted_only {A} (P : Req -> bool) (m : M A) (w : World) :
  obeys (only P) 0 m -> forallb P (emitted m w) = true.
Proof.
  intro Hm. destruct (Hm w) as (new & Hc & Hp).
  unfold emitted. rewrite Hc, drop_app. auto.
Qed.

Lemma emitted_from {A} (m : M A) (w : World) (new : list Req) :
  calls (snd (m w)) = calls w ++ new -> emitted m w = new.
Proof. intro E. unfold emitted. rewrite E. apply drop_app. Qed.

Lemma total_unit_cost (rs : list Req) : total_cost unit_cost rs = List.length rs.
Proof. induction rs as [|r rs IH]; simpl; auto. Qed.

Lemma total_timer_cost (rs : list Req) :
  total_cost timer_cost rs = List.length (filter is_timer rs).
Proof.
  induction rs as [|r rs IH]; simpl; auto.
  unfold timer_cost at 1. destruct (is_timer r); simpl; auto.
Qed.

(** Call sites: every operation that is not a listing wrapper sends at
    most as many requests as it has call sites. *)
Lemma operation_within_call_sites (op : Op) :
  listing op = false -> obeys (emitting unit_cost any_request) (call_sites op) (run op).
Proof.
  destruct op; simpl; intro Hl; try discriminate; unfold run, void;
    obey_upto (emitting_lawful unit_cost any_request).
Qed.

(** Timers: an operation waits at most once, and only for its own delay. *)
Lemma operation_timers (op : Op) :
  obeys (emitting timer_cost (waits_only (delay op)))
        (match delay op with Some _ => 1 | None => 0 end) (run op).
Proof.
  destruct op; simpl; unfold run, void;
    match goal with
    | |- obeys (emitting ?c ?P) _ _ => obey_upto (emitting_lawful c P)
    end.
Qed.

Lemma timers_at_most_one (d : option Z) (rs : list Req) :
  forallb (waits_only d) rs = true ->
  (List.length (filter is_timer rs) <= match d with Some _ => 1 | None => 0 end)%nat ->
  filter is_timer rs = []
  \/ exists ms, d = Some ms /\ filter is_timer rs = [setTimeout ms].
Proof.
  intros Hall Hlen.
  destruct (filter is_timer rs) as [|t ts] eqn:E; [left; reflexivity|right].
  assert (Hin : In t (filter is_timer rs)) by (rewrite E; left; reflexivity).
  apply filter_In in Hin. destruct Hin as [Hin Ht].
  rewrite forallb_forall in Hall. specialize (Hall t Hin).
  destruct t; try discriminate.
  destruct d as [ms'|]; simpl in Hall; [|discriminate].
  apply Z.eqb_eq in Hall. subst ms'.
  exists ms. split; [reflexivity|].
  destruct ts; [reflexivity|]. simpl in Hlen. lia.
Qed.




End Emitted.

(** Syntax-directed search for [returns] and [settles] on a wrapper of
    the shape [try { ...; return r } catch (e) { ...; return r' }]. *)
Ltac shape_result :=
  first [ left; eexists; eexists; reflexivity
        | right; eexists; reflexivity ].

Ltac returning :=
  cbv zeta;
  lazymatch goal with
  | |- returns _ (bind _ _) => apply returns_bind; intro; returning
  | |- returns _ (try_catch _ _) =>
      apply returns_try_catch; [returning | intro; returning]
  | |- returns _ (if _ then _ else _) => apply returns_if; returning
  | |- returns _ (ret _) => apply returns_ret; shape_result
  | |- returns _ (throw _) => apply returns_throw
  | |- returns _ ?m => let h := head_of m in progress unfold h; returning
  end.

Ltac settling :=
  cbv zeta;
  lazymatch goal with
  | |- settles _ (try_catch _ _) =>
      apply settles_try_catch; [returning | intro; settling]
  | |- settles _ (bind (console_error _ _) _) => apply settles_console; settling
  | |- settles _ (ret _) => apply settles_ret; shape_result
  | |- settles _ ?m => let h := head_of m in progress unfold h; settling
  end.

(* ===================================================================== *)
(** ** Wrappers return, and the one that does not                         *)
(* ===================================================================== *)

Section Results.
Context `{Platform}.

(** Every wrapper of the [{ data, error }] family other than the signOut
    of supabase.ts completes normally, with such an object, whatever the
    platform answers or throws. *)
Lemma wrappers_settle_with_a_result (op : Op) :
  returns_result_object op = true ->
  is_supabase_signOut op = false ->
  settles is_result (run op).
Proof.
  destruct op; intros Hf Hs; try discriminate Hf; try discriminate Hs;
    unfold run; settling.
Qed.

(** The signOut of supabase.ts has no [try]: what the SDK throws, it
    throws. *)
Lemma supabase_signOut_throws_what_the_sdk_throws (w : World) (e : Value) (b : backend) :
  respond auth_signOut (platform w) = (Throw e, b) ->
  fst (Supabase.signOut w) = Throw e.
Proof.
  intro Hr. unfold Supabase.signOut, bind, await. rewrite Hr. reflexivity.
Qed.

Lemma firebase_signOut_catches (w : World) (e : Value) (b : backend) :
  respond firebaseSignOut (platform w) = (Throw e, b) ->
  fst (Firebase.signOut w) = Normal (obj [("error", e)]).
Proof.
  intro Hr. unfold Firebase.signOut, try_catch, bind, await. rewrite Hr. reflexivity.
Qed.

End Results.

(* ===================================================================== *)
(** ** Symbolic execution                                                 *)
(* ===================================================================== *)

Section Wp.
Context `{Platform}.

Lemma prop_data_of_result (d e : Value) :
  prop "data" (obj [("data", d); ("error", e)]) = Normal d.
Proof. reflexivity. Qed.

Lemma prop_error_of_result (d e : Value) :
  prop "error" (obj [("data", d); ("error", e)]) = Normal e.
Proof. reflexivity. Qed.

Lemma prop_error_of_error (e : Value) :
  prop "error" (obj [("error", e)]) = Normal e.
Proof. reflexivity. Qed.

Lemma prop_truthy (k : string) (v : Value) :
  truthy v = true -> prop k v = Normal (opt_prop k v).
Proof. destruct v; try discriminate; intros _; reflexivity. Qed.

Lemma wp_ret {A} (a : A) Q w : Q (Normal a) w -> wp (ret a) Q w.
Proof. auto. Qed.

Lemma wp_throw {A} e (Q : Completion A -> World -> Prop) w :
  Q (Throw e) w -> wp (throw e) Q w.
Proof. auto. Qed.

Lemma wp_lift {A} (c : Completion A) Q w : Q c w -> wp (lift c) Q w.
Proof. auto. Qed.

Lemma wp_get v k Q w : Q (prop k v) w -> wp (get v k) Q w.
Proof. auto. Qed.

Lemma wp_read {A} (f : World -> A) Q w : Q (Normal (f w)) w -> wp (read f) Q w.
Proof. auto. Qed.

Lemma wp_Date_now Q w : Q (Normal (clock (platform w))) w -> wp Date_now Q w.
Proof. auto. Qed.

Lemma wp_bind {A B} (m : M A) (k : A -> M B) Q w :
  wp m (fun c w1 => match c with
                    | Normal a => wp (k a) Q w1
                    | Throw e => Q (Throw e) w1
                    end) w ->
  wp (bind m k) Q w.
Proof. unfold wp, bind. destruct (m w) as [[a|e] w1]; auto. Qed.

Lemma wp_try_catch {A} (body : M A) handler Q w :
  wp body (fun c w1 => match c with
                       | Normal a => Q (Normal a) w1
                       | Throw e => wp (handler e) Q w1
                       end) w ->
  wp (try_catch body handler) Q w.
Proof. unfold wp, try_catch. destruct (body w) as [[a|e] w1]; auto. Qed.

Lemma wp_try_finally {A} (body : M A) cleanup Q w :
  wp body (fun c w1 => wp cleanup (fun c' w2 => match c' with
                                                | Normal _ => Q c w2
                                                | Throw e => Q (Throw e) w2
                                                end) w1) w ->
  wp (try_finally body cleanup) Q w.
Proof.
  unfold wp, try_finally. destruct (body w) as [c w1]. simpl.
  destruct (cleanup w1) as [[u|e] w2]; auto.
Qed.

Lemma wp_await r Q w :
  Q (fst (respond r (platform w))) (logged r (snd (respond r (platform w))) w) ->
  wp (await r) Q w.
Proof. unfold wp, await. destruct (respond r (platform w)); auto. Qed.

Lemma wp_sleep ms Q w :
  Q (Normal tt) (logged (setTimeout ms) (elapse ms (platform w)) w) -> wp (sleep ms) Q w.
Proof. auto. Qed.

Lemma wp_console msg e Q w : Q (Normal tt) (noted msg e w) -> wp (console_log msg e) Q w.
Proof. auto. Qed.

Lemma wp_set_auth f Q w :
  Q (Normal tt) (snd (set_auth f w)) -> wp (set_auth f) Q w.
Proof. auto. Qed.

Lemma wp_set_project f Q w :
  Q (Normal tt) (snd (set_project f w)) -> wp (set_project f) Q w.
Proof. auto. Qed.

Lemma wp_set_editor f Q w :
  Q (Normal tt) (snd (set_editor f w)) -> wp (set_editor f) Q w.
Proof. auto. Qed.

Lemma wp_eq {A} (m : M A) (x : Completion A * World) (w : World) :
  wp m (fun c w' => (c, w') = x) w -> m w = x.
Proof. unfold wp. destruct (m w). simpl. auto. Qed.

Lemma wp_when (c : bool) m Q w :
  (if c then wp m Q w else Q (Normal tt) w) -> wp (when c m) Q w.
Proof. destruct c; auto. Qed.

(** A run in which [m] is known to obey a discipline. *)
Lemma wp_obeys {A} D n (m : M A) (Q : Completion A -> World -> Prop) w :
  obeys D n m ->
  (forall c w', within D n w w' -> Q c w') ->
  wp m Q w.
Proof. intros Hm HQ. apply HQ. apply Hm. Qed.

Lemma wp_settles {A} (P : A -> Prop) (m : M A) (Q : Completion A -> World -> Prop) w :
  settles P m ->
  (forall a w', P a -> m w = (Normal a, w') -> Q (Normal a) w') ->
  wp m Q w.
Proof.
  intros Hm HQ. destruct (Hm w) as (a & w' & E & Pa).
  unfold wp. rewrite E. simpl. apply HQ; auto.
Qed.

End Wp.

Ltac wp_step :=
  cbv zeta;
  lazymatch goal with
  | |- wp (bind _ _) _ _ => apply wp_bind
  | |- wp (try_catch _ _) _ _ => apply wp_try_catch
  | |- wp (try_finally _ _) _ _ => apply wp_try_finally
  | |- wp (ret _) _ _ => apply wp_ret
  | |- wp (throw _) _ _ => apply wp_throw
  | |- wp (get _ _) _ _ => apply wp_get
  | |- wp (lift _) _ _ => apply wp_lift
  | |- wp (read _) _ _ => apply wp_read
  | |- wp Date_now _ _ => apply wp_Date_now
  | |- wp (await _) _ _ => apply wp_await
  | |- wp (sleep _) _ _ => apply wp_sleep
  | |- wp (console_log _ _) _ _ => apply wp_console
  | |- wp (console_error _ _) _ _ => apply wp_console
  | |- wp (console_warn _ _) _ _ => apply wp_console
  | |- wp (set_auth _) _ _ => apply wp_set_auth
  | |- wp (set_project _) _ _ => apply wp_set_project
  | |- wp (set_editor _) _ _ => apply wp_set_editor
  | |- wp (when _ _) _ _ => apply wp_when
  | |- wp (if _ then _ else _) _ _ => fail
  | |- wp (match _ with _ => _ end) _ _ => fail
  | Hs : settles _ ?m |- wp ?m _ _ =>
      apply (wp_settles _ _ _ _ Hs); intros ? ? ? ?
  | |- wp ?m _ _ => let h := head_of m in progress unfold h
  end.

(** Use what is known of an answer, a property or a test. *)
Ltac wp_known :=
  match goal with
  | E : respond ?r ?b = _ |- context [respond ?r ?b] => rewrite E; cbn [fst snd]
  | E : prop ?k ?v = _ |- context [prop ?k ?v] => rewrite E
  | E : truthy ?v = _ |- context [truthy ?v] => rewrite E
  | E : falsy ?v = _ |- context [falsy ?v] => rewrite E
  | E : strict_eq ?a ?b = _ |- context [strict_eq ?a ?b] => rewrite E
  | E : String.eqb ?a ?b = _ |- context [String.eqb ?a ?b] => rewrite E
  | E : ArticleEditor.ge ?a ?b = _ |- context [ArticleEditor.ge ?a ?b] => rewrite E
  end.

(** Split on an answer, a property or a test that is not known. *)
Ltac wp_case :=
  lazymatch goal with
  | |- context [match fst (respond ?r ?b) with _ => _ end] =>
      let c := fresh "c" in
      let b' := fresh "b" in
      let E := fresh "E" in
      destruct (respond r b) as [c b'] eqn:E; cbn [fst snd] in *; destruct c
  | |- context [match prop ?k ?v with _ => _ end] =>
      let E := fresh "E" in destruct (prop k v) eqn:E
  | |- wp (if ?c then _ else _) _ _ => let E := fresh "E" in destruct c eqn:E
  | |- context [if ?c then _ else _] => let E := fresh "E" in destruct c eqn:E
  end.

Ltac wp_simpl :=
  cbn beta iota;
  cbn [platform calls console authStore projectStore editorState logged noted
       set_auth set_project set_editor fst snd negb andb orb];
  unfold Supabase.result, Firebase.result;
  rewrite ?prop_data_of_result, ?prop_error_of_result, ?prop_error_of_error.

Ltac wp_run := repeat (first [wp_step | wp_known]; wp_simpl).
Ltac wp_all := repeat (first [wp_step | wp_known | wp_case]; wp_simpl).

(* ===================================================================== *)
(** ** Permission gating                                                  *)
(* ===================================================================== *)

Section Permissions.
Context `{Platform}.

Lemma includes_value_In (roles : list string) (s : string) :
  includes_value roles (VStr s) = true <-> In s roles.
Proof.
  simpl. rewrite existsb_exists. split.
  - intros (x & Hin & Heq). apply String.eqb_eq in Heq. subst. exact Hin.
  - intro Hin. exists s. split; [exact Hin|apply String.eqb_refl].
Qed.

(** [role && roles.includes(role)] is truthy exactly for a role of the list. *)
Lemma role_check_truthy (roles : list string) (role : Value) :
  ~ In "" roles ->
  truthy (and_then role (VBool (includes_value roles role))) = true
  <-> exists s, role = VStr s /\ In s roles.
Proof.
  intro Hne. unfold and_then. split.
  - destruct (truthy role) eqn:Et.
    + simpl. intro Hi. destruct role; try discriminate Hi.
      exists s. split; [reflexivity|]. apply includes_value_In. exact Hi.
    + rewrite Et. discriminate.
  - intros (s & -> & Hin).
    assert (Hs : truthy (VStr s) = true).
    { simpl. destruct (String.eqb s "") eqn:E; [|reflexivity].
      apply String.eqb_eq in E. subst. contradiction. }
    rewrite Hs. simpl. apply includes_value_In in Hin. exact Hin.
Qed.

Lemma supabase_role_sound (w : World) (pid : Value) :
  wp (Supabase.getUserProjectRole pid)
     (fun c _ => exists role, c = Normal role
                 /\ (truthy role = true -> supabase_reports_role w pid role)) w.
Proof.
  wp_all.
  all: try (eexists; split; [reflexivity|discriminate]).
  eexists. split; [reflexivity|]. unfold or_else.
  destruct (truthy (opt_prop "role" a4)) eqn:Er; [intros _|discriminate].
  unfold falsy in E2. apply negb_false_iff in E2.
  exists a1, a2, b, a3, b0, a4, a5. repeat split; auto.
  exists a, a0. repeat split; auto.
Qed.

Lemma supabase_role_complete (w : World) (pid role : Value) :
  supabase_reports_role w pid role ->
  fst (Supabase.getUserProjectRole pid w) = Normal (or_else role VNull).
Proof.
  intros (u & uid & b1 & answer & b2 & row & error & Hu & Hr & Hd & He & Hf & Hrole).
  destruct Hu as (a & d & Ha & Hd0 & Hu & Ht & Hid).
  assert (Hfalsy : falsy u = false) by (unfold falsy; rewrite Ht; reflexivity).
  change (wp (Supabase.getUserProjectRole pid)
             (fun c _ => c = Normal (or_else role VNull)) w).
  unfold supabase_role_lookup in Hr.
  wp_run. subst role. reflexivity.
Qed.

Lemma firebase_role_sound (w : World) (pid : Value) :
  wp (Firebase.getUserProjectRole pid)
     (fun c _ => exists role, c = Normal role
                 /\ (truthy role = true -> firebase_reports_role w pid role)) w.
Proof.
  wp_all.
  all: try (eexists; split; [reflexivity|discriminate]).
  eexists. split; [reflexivity|intros _].
  unfold falsy in E. apply negb_false_iff in E.
  destruct a1 as [| | | | | | |[|first rest]| | | |]; try discriminate E3.
  exists a, a0, b, first, rest, a2. repeat split; auto.
Qed.

Lemma firebase_role_complete (w : World) (pid role : Value) :
  firebase_reports_role w pid role ->
  fst (Firebase.getUserProjectRole pid w) = Normal role.
Proof.
  intros (uid & snap & b & first & rest & data & Ht & Hid & Hr & Hd & Hf & Hrole).
  assert (Hfalsy : falsy (current_user (platform w)) = false)
    by (unfold falsy; rewrite Ht; reflexivity).
  unfold firebase_role_lookup in Hr.
  change (wp (Firebase.getUserProjectRole pid) (fun c _ => c = Normal role) w).
  wp_run. cbn [index0]. wp_run. reflexivity.
Qed.

(** The check [role && roles.includes(role)] after either lookup. *)
Lemma permission_iff (roles : list string) (w : World) (pid : Value)
      (lookup : Value -> M Value) (reports : World -> Value -> Value -> Prop) :
  ~ In "" roles ->
  wp (lookup pid)
     (fun c _ => exists role, c = Normal role
                 /\ (truthy role = true -> reports w pid role)) w ->
  (forall role, reports w pid role ->
                exists r, fst (lookup pid w) = Normal r
                          /\ (truthy role = true -> r = role)) ->
  exists v,
    fst (bind (lookup pid)
           (fun role => ret (and_then role (VBool (includes_value roles role)))) w)
    = Normal v
    /\ (truthy v = true
        <-> exists s, In s roles /\ reports w pid (VStr s)).
Proof.
  intros Hne Hsound Hcomplete.
  unfold wp in Hsound. destruct Hsound as (role & Hrole & Hrep).
  unfold bind. destruct (lookup pid w) as [c w1] eqn:El. simpl in Hrole. subst c.
  eexists. split; [reflexivity|].
  rewrite (role_check_truthy roles role Hne). split.
  - intros (s & -> & Hin). exists s. split; [exact Hin|].
    apply Hrep. simpl. destruct (String.eqb s "") eqn:E; [|reflexivity].
    apply String.eqb_eq in E. subst. contradiction.
  - intros (s & Hin & Hs). destruct (Hcomplete _ Hs) as (r & Hr & Heq).
    simpl in Hr. inversion Hr. subst r.
    exists s. split; [|exact Hin]. apply Heq.
    simpl. destruct (String.eqb s "") eqn:E; [|reflexivity].
    apply String.eqb_eq in E. subst. contradiction.
Qed.

Lemma no_empty_role_edit : ~ In "" ["owner"; "admin"; "editor"].
Proof. simpl. intuition discriminate. Qed.

Lemma no_empty_role_manage : ~ In "" ["owner"; "admin"].
Proof. simpl. intuition discriminate. Qed.

(** C2. Permission gating is decided by the active team-member role:
    [canUserEditProject] returns a truthy value if and only if the
    platform reports, for the current user and the given project, an
    active team-member row whose role is owner, admin or editor, and
    [canUserManageTeam] if and only if that role is owner or admin; so
    with no current user, with no active membership reported, or with a
    failed lookup, both return a falsy value.  Both implementations. *)
Theorem permission_is_decided_by_the_reported_active_role (w : World) (pid : Value) :
  (exists v, fst (Supabase.canUserEditProject pid w) = Normal v
             /\ (truthy v = true
                 <-> exists s, In s ["owner"; "admin"; "editor"]
                               /\ supabase_reports_role w pid (VStr s)))
  /\ (exists v, fst (Supabase.canUserManageTeam pid w) = Normal v
                /\ (truthy v = true
                    <-> exists s, In s ["owner"; "admin"]
                                  /\ supabase_reports_role w pid (VStr s)))
  /\ (exists v, fst (Firebase.canUserEditProject pid w) = Normal v
                /\ (truthy v = true
                    <-> exists s, In s ["owner"; "admin"; "editor"]
                                  /\ firebase_reports_role w pid (VStr s)))
  /\ (exists v, fst (Firebase.canUserManageTeam pid w) = Normal v
                /\ (truthy v = true
                    <-> exists s, In s ["owner"; "admin"]
                                  /\ firebase_reports_role w pid (VStr s))).
Proof.
  repeat split.
  - apply (permission_iff _ w pid Supabase.getUserProjectRole supabase_reports_role
             no_empty_role_edit (supabase_role_sound w pid)).
    intros role Hr. eexists. split; [apply supabase_role_complete; exact Hr|].
    unfold or_else. intros ->. reflexivity.
  - apply (permission_iff _ w pid Supabase.getUserProjectRole supabase_reports_role
             no_empty_role_manage (supabase_role_sound w pid)).
    intros role Hr. eexists. split; [apply supabase_role_complete; exact Hr|].
    unfold or_else. intros ->. reflexivity.
  - apply (permission_iff _ w pid Firebase.getUserProjectRole firebase_reports_role
             no_empty_role_edit (firebase_role_sound w pid)).
    intros role Hr. eexists. split; [apply firebase_role_complete; exact Hr|auto].
  - apply (permission_iff _ w pid Firebase.getUserProjectRole firebase_reports_role
             no_empty_role_manage (firebase_role_sound w pid)).
    intros role Hr. eexists. split; [apply firebase_role_complete; exact Hr|auto].
Qed.
End Permissions.

(* ===================================================================== *)
(** ** Invitations                                                        *)
(* ===================================================================== *)

Section Invitations.
Context `{Platform}.


Lemma supabase_user_eq (w : World) (u uid : Value) (b1 : backend) :
  supabase_reports_user w u uid b1 ->
  Supabase.getCurrentUser w = (Normal u, logged auth_getUser b1 w).
Proof.
  intros (a & d & Ha & Hd & Hu & _ & _).
  apply wp_eq. wp_run. reflexivity.
Qed.

(** C9. The pre-existing-member check of [inviteTeamMember] in
    supabase.ts looks up the team-member row of the calling user (filter
    [user_id = caller's id]; the invited email does not occur in it):
    whenever that lookup reports a row, the function returns
    [{ error: { message: 'User is already a team member' } }] and sends
    nothing else, so no invitation is inserted, whatever email and role
    were given. *)
Theorem inviteTeamMember_checks_the_caller_not_the_invitee
        (w : World) (pid email role u uid : Value) (b1 b2 : backend)
        (answer existing : Value) :
  supabase_reports_user w u uid b1 ->
  respond (caller_membership_lookup pid uid) b1 = (Normal answer, b2) ->
  prop "data" answer = Normal existing ->
  truthy existing = true ->
  Supabase.inviteTeamMember pid email role w
  = (Normal already_a_team_member,
     logged (caller_membership_lookup pid uid) b2 (logged auth_getUser b1 w))
  /\ emitted (Supabase.inviteTeamMember pid email role) w
     = [auth_getUser; caller_membership_lookup pid uid].
Proof.
  intros Hu Hr Hd Ht.
  assert (E : Supabase.inviteTeamMember pid email role w
              = (Normal already_a_team_member,
                 logged (caller_membership_lookup pid uid) b2 (logged auth_getUser b1 w))).
  { pose proof Hu as (a & d & Ha & Hd0 & Hu0 & Htu & Hid).
    assert (Hfalsy : falsy u = false) by (unfold falsy; rewrite Htu; reflexivity).
    unfold caller_membership_lookup in *.
    apply wp_eq. wp_run. reflexivity. }
  split; [exact E|].
  unfold emitted. rewrite E. cbn [snd calls logged].
  rewrite <- app_assoc. apply drop_app.
Qed.


(** C4. [acceptInvitation] has no compensating transaction: in every run
    in which the insert into team_members succeeds and the update that
    marks the invitation accepted fails (an error is returned, or the call
    is rejected), the function returns that error, the failed update is
    the last request it sends (nothing deletes or undoes the inserted
    row), and the platform is left in the state the update left it in. *)
Theorem acceptInvitation_keeps_the_member_when_the_update_fails
        (w : World) (token u uid : Value) (b1 b2 b3 b4 : backend)
        (found invitation lookup_error inserted member insert_error update_error : Value)
        (c : Completion Value) :
  supabase_reports_user w u uid b1 ->
  respond (invitation_lookup token (clock b1)) b1 = (Normal found, b2) ->
  prop "data" found = Normal invitation ->
  prop "error" found = Normal lookup_error ->
  truthy lookup_error = false ->
  truthy invitation = true ->
  strict_eq (opt_prop "email" u) (opt_prop "email" invitation) = true ->
  respond (membership_insert uid invitation) b2 = (Normal inserted, b3) ->
  prop "data" inserted = Normal member ->
  prop "error" inserted = Normal insert_error ->
  truthy insert_error = false ->
  respond (mark_accepted invitation (clock b3)) b3 = (c, b4) ->
  failed_with c update_error ->
  exists v w',
    Supabase.acceptInvitation token w = (Normal v, w')
    /\ prop "error" v = Normal update_error
    /\ platform w' = b4
    /\ emitted (Supabase.acceptInvitation token) w
       = [auth_getUser; invitation_lookup token (clock b1);
          membership_insert uid invitation;
          mark_accepted invitation (clock b3)]
    /\ authStore w' = authStore w
    /\ projectStore w' = projectStore w
    /\ editorState w' = editorState w.
Proof.
  intros Hu Hlook Hinv Hle Hlf Hit Hmail Hins Hmem Hie Hif Hupd Hfail.
  pose proof Hu as (a & d & Ha & Hd0 & Hu0 & Htu & Hid).
  assert (Hfalsy : falsy u = false) by (unfold falsy; rewrite Htu; reflexivity).
  assert (Hfalsy' : falsy invitation = false) by (unfold falsy; rewrite Hit; reflexivity).
  pose proof (prop_truthy "email" u Htu) as Pue.
  pose proof (prop_truthy "email" invitation Hit) as Pie.
  pose proof (prop_truthy "project_id" invitation Hit) as Ppid.
  pose proof (prop_truthy "role" invitation Hit) as Prole.
  pose proof (prop_truthy "invited_by" invitation Hit) as Pby.
  pose proof (prop_truthy "id" invitation Hit) as Pid.
  set (w4 := logged (mark_accepted invitation (clock b3)) b4
               (logged (membership_insert uid invitation) b3
                  (logged (invitation_lookup token (clock b1)) b2
                     (logged auth_getUser b1 w)))).
  assert (Hcalls : calls w4 = calls w ++ [auth_getUser; invitation_lookup token (clock b1);
                                          membership_insert uid invitation;
                                          mark_accepted invitation (clock b3)]).
  { unfold w4. cbn [calls logged]. rewrite <- !app_assoc. reflexivity. }
  unfold invitation_lookup, membership_insert, mark_accepted in *.
  destruct Hfail as [(answer & -> & Hue & Hut) | ->].
  - assert (E : Supabase.acceptInvitation token w
                = (Normal (obj [("error", update_error)]), w4))
      by (apply wp_eq; wp_run; reflexivity).
    exists (obj [("error", update_error)]), w4.
    split; [exact E|]. repeat split; try reflexivity.
    apply emitted_from. rewrite E. exact Hcalls.
  - assert (E : Supabase.acceptInvitation token w
                = (Normal (Supabase.result VNull update_error),
                   noted "Accept invitation error:" update_error w4))
      by (apply wp_eq; wp_run; reflexivity).
    exists (Supabase.result VNull update_error),
           (noted "Accept invitation error:" update_error w4).
    split; [exact E|]. repeat split; try reflexivity.
    apply emitted_from. rewrite E. exact Hcalls.
Qed.
End Invitations.

(* ===================================================================== *)
(** ** AI generation and the usage counter                                *)
(* ===================================================================== *)

Section Generation.
Context `{Platform}.

(** Refusal. *)
Lemma handleGenerateContent_refuses (w : World) :
  generation_barred w ->
  exists message,
    ArticleEditor.handleGenerateContent w
    = (Normal tt, snd (ArticleEditor.showNotification message "error" w)).
Proof.
  intros Hbar.
  destruct (String.eqb (trim (title (editorState w))) "") eqn:Et.
  { eexists. apply wp_eq. wp_run. reflexivity. }
  destruct (falsy (canEdit (editorState w))) eqn:Ec.
  { eexists. apply wp_eq. wp_run. reflexivity. }
  destruct (falsy (userProfile (authStore w))) eqn:Ep.
  { eexists. apply wp_eq. wp_run. reflexivity. }
  destruct Hbar as [Hb | [Hb | [Hb | (c & l & Hc & Hl & Hle)]]].
  - rewrite Hb in Et. discriminate.
  - unfold falsy in Ec. rewrite Hb in Ec. discriminate.
  - unfold falsy in Ep. rewrite Hb in Ep. discriminate.
  - assert (Hge : ArticleEditor.ge (VNum c) (VNum l) = true)
      by (simpl; apply Z.leb_le; exact Hle).
    eexists. apply wp_eq. wp_run. reflexivity.
Qed.

Lemma total_counter_cost (rs : list Req) :
  total_cost counter_cost rs = List.length (filter updates_usage_counter rs).
Proof.
  induction rs as [|r rs IH]; simpl; auto.
  unfold counter_cost at 1. destruct (updates_usage_counter r); simpl; auto.
Qed.

Lemma usage_increment_shape (r : Req) :
  is_usage_increment r = true -> exists uid, r = usage_increment uid.
Proof.
  destruct r as [| | | | |[t v ms]| | | | | | | | | | | | |]; try discriminate.
  simpl. intro Hr. apply andb_true_iff in Hr. destruct Hr as [Ht Hr].
  apply String.eqb_eq in Ht. subst t.
  destruct v as [| |changes|]; try discriminate.
  destruct changes as [| | | | | | | |fs| | |]; try discriminate.
  destruct fs as [|[k v] fs']; try discriminate.
  destruct v; try discriminate.
  destruct fs'; try discriminate.
  destruct ms as [|m1 [|m2 [|m3 [|? ?]]]]; try discriminate;
    destruct m1; try discriminate; destruct m2; try discriminate;
    destruct m3; try discriminate.
  repeat (apply andb_true_iff in Hr; destruct Hr as [Hr ?]).
  repeat match goal with
         | E : String.eqb _ _ = true |- _ => apply String.eqb_eq in E; subst
         end.
  exists v. reflexivity.
Qed.

Lemma generation_counts_once :
  obeys (emitting counter_cost counts_by_one) 1 ArticleEditor.handleGenerateContent.
Proof. obey_upto (emitting_lawful counter_cost counts_by_one). Qed.

Lemma at_most_one_increment (w : World) :
  filter updates_usage_counter (emitted ArticleEditor.handleGenerateContent w) = []
  \/ exists uid,
      filter updates_usage_counter (emitted ArticleEditor.handleGenerateContent w)
      = [usage_increment uid].
Proof.
  destruct (emitted_spec _ _ _ _ w generation_counts_once) as (_ & Hall & Hcost).
  rewrite total_counter_cost in Hcost.
  destruct (filter updates_usage_counter
              (emitted ArticleEditor.handleGenerateContent w)) as [|r rs] eqn:E;
    [left; reflexivity|right].
  assert (Hin : In r (filter updates_usage_counter
                        (emitted ArticleEditor.handleGenerateContent w)))
    by (rewrite E; left; reflexivity).
  apply filter_In in Hin. destruct Hin as [Hin Hr].
  rewrite forallb_forall in Hall. specialize (Hall r Hin).
  unfold counts_by_one in Hall. rewrite Hr in Hall.
  destruct (usage_increment_shape r Hall) as (uid & ->).
  exists uid. destruct rs; [reflexivity|]. simpl in Hcost. lia.
Qed.


Lemma incrementUsage_settles : settles (fun _ => True) AuthStore.incrementUsage.
Proof.
  unfold AuthStore.incrementUsage. apply settles_try_catch.
  - intros w a w' _. exact I.
  - intro e. apply settles_console_log. exact I.
Qed.

(** Only after a generation that succeeded. *)
Lemma generation_first (w : World) :
  wp ArticleEditor.handleGenerateContent
     (fun _ w' =>
        (exists content b,
            respond (generation_request (editorState w)) (platform w)
            = (Normal content, b))
        \/ calls w' = calls w
        \/ calls w' = calls w ++ [generation_request (editorState w)]) w.
Proof.
  unfold generation_request.
  wp_run.
  destruct (String.eqb (trim (title (editorState w))) "") eqn:Et; wp_run;
    [right; left; reflexivity|].
  destruct (falsy (canEdit (editorState w))) eqn:Ec; wp_run;
    [right; left; reflexivity|].
  destruct (falsy (userProfile (authStore w))) eqn:Ep; wp_run;
    [right; left; reflexivity|].
  wp_case; wp_run; [|right; left; reflexivity].
  wp_case; wp_run; [|right; left; reflexivity].
  wp_case; wp_run; [right; left; reflexivity|].
  pose proof incrementUsage_settles as Hs.
  wp_case.
  - wp_run. left; eauto.
  - wp_run.
    destruct (error_message e) as [message|]; wp_run.
    + destruct (str_includes "rate limit" message); wp_run;
        [right; right; reflexivity|].
      destruct (str_includes "API key" message); wp_run; right; right; reflexivity.
    + right; right; reflexivity.
Qed.

Lemma increment_only_after_generation (w : World) :
  filter updates_usage_counter (emitted ArticleEditor.handleGenerateContent w) <> [] ->
  exists content b,
    respond (generation_request (editorState w)) (platform w) = (Normal content, b).
Proof.
  intro Hne. destruct (generation_first w) as [Hg | [Hc | Hc]]; [exact Hg| |]; exfalso; apply Hne.
  - assert (Hc' : calls (snd (ArticleEditor.handleGenerateContent w)) = calls w ++ [])
      by (rewrite app_nil_r; exact Hc).
    rewrite (emitted_from _ _ _ Hc'). reflexivity.
  - rewrite (emitted_from _ _ _ Hc). reflexivity.
Qed.


End Generation.

(* ===================================================================== *)
(** ** The project store                                                  *)
(* ===================================================================== *)

Section Store.
Context `{Platform}.

Lemma firebase_wrappers_frame (op : Op) :
  match op with
  | F_getUserProjects | F_createProject _ _ | F_getProjectArticles _ => True
  | _ => False
  end ->
  obeys framing 0 (run op).
Proof.
  destruct op; intro Hop; try contradiction; unfold run;
    (eapply obeys_flat; [apply framing_flat | obey framing_lawful]).
Qed.

Lemma result_fields (r : Value) :
  is_result r ->
  exists data error, prop "data" r = Normal data /\ prop "error" r = Normal error
                     /\ opt_prop "error" r = error /\ opt_prop "data" r = data.
Proof.
  intros [(d & e & ->) | (e & ->)]; eexists; eexists; repeat split; reflexivity.
Qed.

Lemma fetchProjects_spec (w : World) :
  exists r w1 w2,
    Firebase.getUserProjects (loading_on w) = (Normal r, w1)
    /\ ProjectStore.fetchProjects w = (Normal tt, w2)
    /\ loading (projectStore w2) = false
    /\ currentProject (projectStore w2) = currentProject (projectStore w)
    /\ articles (projectStore w2) = articles (projectStore w)
    /\ (truthy (opt_prop "error" r) = true ->
        projects (projectStore w2) = projects (projectStore w)).
Proof.
  pose proof (wrappers_settle_with_a_result F_getUserProjects eq_refl eq_refl) as Hs.
  simpl run in Hs.
  destruct (Hs (loading_on w)) as (r & w1 & Er & Pr).
  pose proof (firebase_wrappers_frame F_getUserProjects I (loading_on w)) as Hf.
  simpl run in Hf. rewrite Er in Hf. simpl in Hf. destruct Hf as (Ha & Hp & He).
  destruct (result_fields r Pr) as (data & error & Hd & Herr & Hoe & Hod).
  exists r, w1.
  assert (Hwp : wp ProjectStore.fetchProjects
    (fun c w2 => c = Normal tt
       /\ loading (projectStore w2) = false
       /\ currentProject (projectStore w2) = currentProject (projectStore w)
       /\ articles (projectStore w2) = articles (projectStore w)
       /\ (truthy (opt_prop "error" r) = true ->
             projects (projectStore w2) = projects (projectStore w))) w).
  { unfold ProjectStore.fetchProjects. apply wp_bind. apply wp_set_project. cbn beta iota.
    apply wp_bind. unfold wp at 1. fold (loading_on w). rewrite Er. cbn [fst snd].
    wp_run. rewrite Hoe.
    destruct (falsy error && truthy data) eqn:Ec; wp_run; rewrite Hp; simpl;
      repeat split; auto.
    intro Ht. unfold falsy in Ec. rewrite Ht in Ec. discriminate. }
  unfold wp in Hwp. destruct (ProjectStore.fetchProjects w) as [c w2]. simpl in Hwp.
  destruct Hwp as (-> & Hrest). exists w2. split; [exact Er|]. split; [reflexivity|exact Hrest].
Qed.

Lemma fetchArticles_spec (w : World) (projectId : Value) :
  exists r w1 w2,
    Firebase.getProjectArticles projectId (loading_on w) = (Normal r, w1)
    /\ ProjectStore.fetchArticles projectId w = (Normal tt, w2)
    /\ loading (projectStore w2) = false
    /\ currentProject (projectStore w2) = currentProject (projectStore w)
    /\ projects (projectStore w2) = projects (projectStore w)
    /\ (truthy (opt_prop "error" r) = true ->
        articles (projectStore w2) = articles (projectStore w)).
Proof.
  pose proof (wrappers_settle_with_a_result (F_getProjectArticles projectId)
                eq_refl eq_refl) as Hs.
  simpl run in Hs.
  destruct (Hs (loading_on w)) as (r & w1 & Er & Pr).
  pose proof (firebase_wrappers_frame (F_getProjectArticles projectId) I (loading_on w))
    as Hf.
  simpl run in Hf. rewrite Er in Hf. simpl in Hf. destruct Hf as (Ha & Hp & He).
  destruct (result_fields r Pr) as (data & error & Hd & Herr & Hoe & Hod).
  exists r, w1.
  assert (Hwp : wp (ProjectStore.fetchArticles projectId)
    (fun c w2 => c = Normal tt
       /\ loading (projectStore w2) = false
       /\ currentProject (projectStore w2) = currentProject (projectStore w)
       /\ projects (projectStore w2) = projects (projectStore w)
       /\ (truthy (opt_prop "error" r) = true ->
             articles (projectStore w2) = articles (projectStore w))) w).
  { unfold ProjectStore.fetchArticles. apply wp_bind. apply wp_set_project. cbn beta iota.
    apply wp_bind. unfold wp at 1. fold (loading_on w). rewrite Er. cbn [fst snd].
    wp_run. rewrite Hoe.
    destruct (falsy error && truthy data) eqn:Ec; wp_run; rewrite Hp; simpl;
      repeat split; auto.
    intro Ht. unfold falsy in Ec. rewrite Ht in Ec. discriminate. }
  unfold wp in Hwp. destruct (ProjectStore.fetchArticles projectId w) as [c w2].
  simpl in Hwp. destruct Hwp as (-> & Hrest).
  exists w2. split; [exact Er|]. split; [reflexivity|exact Hrest].
Qed.

Lemma createProject_spec (w : World) (title description : Value) (ps : list Value) :
  projects (projectStore w) = VArr ps ->
  exists r w1 w2,
    Firebase.createProject title description (loading_on w) = (Normal r, w1)
    /\ ProjectStore.createProject title description w
       = (Normal (obj [("error", opt_prop "error" r)]), w2)
    /\ loading (projectStore w2) = false
    /\ currentProject (projectStore w2) = currentProject (projectStore w)
    /\ articles (projectStore w2) = articles (projectStore w)
    /\ (truthy (opt_prop "error" r) = true ->
        projects (projectStore w2) = projects (projectStore w))
    /\ (truthy (opt_prop "error" r) = false -> truthy (opt_prop "data" r) = true ->
        projects (projectStore w2) = VArr (opt_prop "data" r :: ps)).
Proof.
  intro Hps.
  pose proof (wrappers_settle_with_a_result (F_createProject title description)
                eq_refl eq_refl) as Hs.
  simpl run in Hs.
  destruct (Hs (loading_on w)) as (r & w1 & Er & Pr).
  pose proof (firebase_wrappers_frame (F_createProject title description) I (loading_on w))
    as Hf.
  simpl run in Hf. rewrite Er in Hf. simpl in Hf. destruct Hf as (Ha & Hp & He).
  destruct (result_fields r Pr) as (data & error & Hd & Herr & Hoe & Hod).
  exists r, w1.
  assert (Hwp : wp (ProjectStore.createProject title description)
    (fun c w2 => c = Normal (obj [("error", opt_prop "error" r)])
       /\ loading (projectStore w2) = false
       /\ currentProject (projectStore w2) = currentProject (projectStore w)
       /\ articles (projectStore w2) = articles (projectStore w)
       /\ (truthy (opt_prop "error" r) = true ->
             projects (projectStore w2) = projects (projectStore w))
       /\ (truthy (opt_prop "error" r) = false -> truthy (opt_prop "data" r) = true ->
             projects (projectStore w2) = VArr (opt_prop "data" r :: ps))) w).
  { unfold ProjectStore.createProject. apply wp_bind. apply wp_set_project. cbn beta iota.
    apply wp_bind. unfold wp at 1. fold (loading_on w). rewrite Er. cbn [fst snd].
    wp_run. rewrite Hoe, Hod.
    destruct (falsy error && truthy data) eqn:Ec; wp_run.
    - rewrite Hp. cbn [projects projectStore loading_on snd set_project ProjectStore.set_loading].
      rewrite Hps. unfold ProjectStore.spread_items. wp_run.
      simpl. apply andb_true_iff in Ec. destruct Ec as [Ee Et].
      unfold falsy in Ee. apply negb_true_iff in Ee.
      repeat split; auto; try (rewrite Hp; reflexivity).
      intro Hx. rewrite Hx in Ee. discriminate.
    - rewrite Hp. simpl. repeat split; auto.
      intros Hf Ht. unfold falsy in Ec. rewrite Hf, Ht in Ec. discriminate. }
  unfold wp in Hwp.
  destruct (ProjectStore.createProject title description w) as [c w2].
  simpl in Hwp. destruct Hwp as (-> & Hrest).
  exists w2. split; [exact Er|]. split; [reflexivity|exact Hrest].
Qed.

(** C10. The project store is atomic on error and always releases its
    loading flag: [fetchProjects], [createProject] and [fetchArticles]
    always complete, with [loading] false afterwards; if the API call they
    make returned an error, [projects] and [articles] are exactly as they
    were before the call; and a successful [createProject] puts the new
    project at the head of [projects], in front of the existing ones in
    their order.  ([projects] holds an array, as its type says.) *)
Theorem project_store_releases_loading_and_keeps_lists_on_error
        (w : World) (ps : list Value) (title description projectId : Value) :
  projects (projectStore w) = VArr ps ->
  (exists r w1 w2,
      Firebase.getUserProjects (loading_on w) = (Normal r, w1)
      /\ ProjectStore.fetchProjects w = (Normal tt, w2)
      /\ loading (projectStore w2) = false
      /\ articles (projectStore w2) = articles (projectStore w)
      /\ (truthy (opt_prop "error" r) = true ->
          projects (projectStore w2) = projects (projectStore w)))
  /\ (exists r w1 w2,
        Firebase.createProject title description (loading_on w) = (Normal r, w1)
        /\ ProjectStore.createProject title description w
           = (Normal (obj [("error", opt_prop "error" r)]), w2)
        /\ loading (projectStore w2) = false
        /\ articles (projectStore w2) = articles (projectStore w)
        /\ (truthy (opt_prop "error" r) = true ->
            projects (projectStore w2) = projects (projectStore w))
        /\ (truthy (opt_prop "error" r) = false ->
            truthy (opt_prop "data" r) = true ->
            projects (projectStore w2) = VArr (opt_prop "data" r :: ps)))
  /\ (exists r w1 w2,
        Firebase.getProjectArticles projectId (loading_on w) = (Normal r, w1)
        /\ ProjectStore.fetchArticles projectId w = (Normal tt, w2)
        /\ loading (projectStore w2) = false
        /\ projects (projectStore w2) = projects (projectStore w)
        /\ (truthy (opt_prop "error" r) = true ->
            articles (projectStore w2) = articles (projectStore w))).
Proof.
  intro Hps. repeat split.
  - destruct (fetchProjects_spec w) as (r & w1 & w2 & H1 & H2 & H3 & H4 & H5 & H6).
    exists r, w1, w2. auto.
  - destruct (createProject_spec w title description ps Hps)
      as (r & w1 & w2 & H1 & H2 & H3 & H4 & H5 & H6 & H7).
    exists r, w1, w2. auto 10.
  - destruct (fetchArticles_spec w projectId) as (r & w1 & w2 & H1 & H2 & H3 & H4 & H5 & H6).
    exists r, w1, w2. auto.
Qed.
End Store.

(* ===================================================================== *)
(** ** Runs on the reference platform                                     *)
(* ===================================================================== *)

Section Runs.
Import Reference Demo.

(** *** Where the sentences of the specification fail *)




(** [initialize] asks for the signed-in user at two call sites: its own,
    and the one of [getUserProfile]. *)
Example authStore_initialize_asks_for_the_user_twice :
  filter is_baas_call (emitted (run A_initialize) (boot (signed_in ann [])))
  = [auth_getUser; auth_getUser;
     postgrest (from_ "users" (select "*") [eq "id" (VStr "u-ann")]);
     auth_onAuthStateChange].
Proof. reflexivity. Qed.

(** C3 does not hold of the code: when the SDK rejects the sign-out
    request, [signOut] of supabase.ts, which has no [try], throws to its
    caller, and so does [signOut] of the auth store, which awaits the
    SDK call without one; [signOut] of firebase.ts returns [{ error }]. *)
Theorem supabase_signOut_rejects_when_the_sdk_rejects :
  fst (run S_signOut offline) = Throw network_error
  /\ fst (run A_signOut offline) = Throw network_error
  /\ fst (run F_signOut offline) = Normal (obj [("error", network_error)]).
Proof. repeat split; reflexivity. Qed.

(** *** The theorems at work *)




(** Ann owns [p1]: supabase.ts lets her edit.  The Firestore of this
    deployment holds no membership, so firebase.ts does not let her
    manage the team. *)
Lemma ann_may_edit_her_project :
  (exists v, fst (Supabase.canUserEditProject (VStr "p1") (boot (signed_in ann [])))
             = Normal v /\ truthy v = true)
  /\ (exists v, fst (Firebase.canUserManageTeam (VStr "p1") (boot (signed_in ann [])))
                = Normal v /\ truthy v = false).
Proof.
  destruct (permission_is_decided_by_the_reported_active_role
              (boot (signed_in ann [])) (VStr "p1"))
    as ((v & E & Hiff) & _ & _ & (v' & E' & Hiff')).
  split.
  - exists v. split; [exact E|]. apply Hiff.
    exists "owner". split; [left; reflexivity|].
    exists ann, (VStr "u-ann").
    do 5 eexists. split; [do 2 eexists|]; repeat split; reflexivity.
  - exists v'. split; [exact E'|].
    vm_compute in E'. injection E' as <-. reflexivity.
Defined.

(** Ann, a member of [p1], invites Carol, who is none: refused. *)
Lemma inviteTeamMember_by_a_member_is_refused_for_any_email :
  fst (Supabase.inviteTeamMember (VStr "p1") (VStr "carol@x.io") (VStr "viewer")
                                 (boot (signed_in ann [])))
  = Normal already_a_team_member
  /\ emitted (Supabase.inviteTeamMember (VStr "p1") (VStr "carol@x.io") (VStr "viewer"))
             (boot (signed_in ann []))
     = [auth_getUser; caller_membership_lookup (VStr "p1") (VStr "u-ann")].
Proof.
  edestruct (inviteTeamMember_checks_the_caller_not_the_invitee
               (boot (signed_in ann [])) (VStr "p1") (VStr "carol@x.io") (VStr "viewer")
               ann (VStr "u-ann"))
    as (E & Hsent).
  - do 2 eexists. repeat split; reflexivity.
  - reflexivity.
  - reflexivity.
  - reflexivity.
  - split; [rewrite E; reflexivity | exact Hsent].
Defined.

(** Bob accepts his invitation while the update fails: he gets the error
    and is a member of [p1] all the same. *)
Lemma acceptInvitation_leaves_bob_a_member :
  exists v w',
    Supabase.acceptInvitation (VStr "t-bob") flaky = (Normal v, w')
    /\ prop "error" v = Normal network_error
    /\ In (VStr "u-bob") (map (column "user_id") (rows "team_members" (platform w'))).
Proof.
  edestruct (acceptInvitation_keeps_the_member_when_the_update_fails
               flaky (VStr "t-bob") bob (VStr "u-bob"))
    as (v & w' & E & Herr & Hplat & Hrest).
  - eexists. eexists. repeat split; reflexivity.
  - reflexivity.
  - reflexivity.
  - reflexivity.
  - reflexivity.
  - reflexivity.
  - reflexivity.
  - reflexivity.
  - reflexivity.
  - reflexivity.
  - reflexivity.
  - reflexivity.
  - left. eexists. repeat split; reflexivity.
  - exists v, w'. split; [exact E|]. split; [exact Herr|].
    rewrite Hplat. vm_compute. right. left. reflexivity.
Defined.


(** With three of ten used, the generator is called and the counter of
    the platform goes from 3 to 4. *)
Example generation_below_the_limit_counts_one :
  emitted ArticleEditor.handleGenerateContent (at_the_editor ann_profile "Rust")
  = [generateContent (VStr "Rust (800-1200 words)") (VStr "article");
     auth_getUser;
     usage_increment (VStr "u-ann")]
  /\ map (column "usage_count")
       (rows "users"
          (platform (snd (ArticleEditor.handleGenerateContent
                            (at_the_editor ann_profile "Rust")))))
     = [VNum 4].
Proof. split; reflexivity. Qed.

(** [fetchProjects] while the request is rejected: completes, releases
    [loading], and leaves the list as it was. *)
Lemma fetchProjects_offline_keeps_the_list :
  exists w2,
    ProjectStore.fetchProjects offline = (Normal tt, w2)
    /\ loading (projectStore w2) = false
    /\ projects (projectStore w2) = VArr [].
Proof.
  destruct (project_store_releases_loading_and_keeps_lists_on_error
              offline [] VUndef VUndef VUndef eq_refl)
    as ((r & w1 & w2 & Hr & E & Hl & _ & Hp) & _).
  exists w2. split; [exact E|]. split; [exact Hl|].
  rewrite Hp; [reflexivity|].
  apply (f_equal (fun p => match fst p with
                           | Normal v => truthy (opt_prop "error" v)
                           | Throw _ => false
                           end)) in Hr.
  cbv beta iota delta [fst] in Hr. rewrite <- Hr. reflexivity.
Defined.

End Runs.


(* ===================================================================== *)
(** * Further properties                                                  *)
(* ===================================================================== *)

(** ** Across the operations *)

Section Across.
Context `{Platform}.

Lemma wrappers_frame (op : Op) : lib_wrapper op = true -> obeys framing 0 (run op).
Proof.
  intros Hl. destruct op; try discriminate Hl; unfold run;
    (eapply obeys_flat; [apply framing_flat | obey framing_lawful]).
Qed.

(** X1. A wrapper of supabase.ts or firebase.ts never touches the client
    state: the auth store, the project store and the editor state are the
    same after it as before, whatever the platform answers. *)
Theorem lib_wrappers_leave_the_stores_alone (op : Op) (w : World) :
  lib_wrapper op = true ->
  authStore (snd (run op w)) = authStore w
  /\ projectStore (snd (run op w)) = projectStore w
  /\ editorState (snd (run op w)) = editorState w.
Proof. intros Hl. exact (wrappers_frame op Hl w). Qed.

(** X2. An operation that fetches or checks sends only reads:
    [auth.getUser], [select] queries, [getDoc] and [getDocs]. *)
Theorem read_only_operations_only_read (op : Op) (w : World) :
  reads_only op = true ->
  forallb is_read (emitted (run op) w) = true.
Proof.
  intros Hr. apply emitted_only.
  destruct op; try discriminate Hr; unfold run, void;
    (eapply obeys_flat; [apply only_flat | obey (only_lawful is_read)]).
Qed.

(** X3. Rows and documents are deleted by [cancelInvitation] and
    [deleteComment] only; in particular [removeTeamMember] deletes
    nothing (it sets the member's status). *)
Theorem only_cancelInvitation_and_deleteComment_delete (op : Op) (w : World) :
  deletes op = false ->
  forallb (fun r => negb (is_delete r)) (emitted (run op) w) = true.
Proof.
  intros Hd. apply emitted_only.
  destruct op; try discriminate Hd; unfold run, void;
    (eapply obeys_flat;
     [apply only_flat | obey (only_lawful (fun r => negb (is_delete r)))]).
Qed.

(** X4. Every wrapper of the [{ data, error }] family other than the
    [signOut] of supabase.ts completes normally and returns such an
    object, whatever the platform answers or throws. *)
Theorem wrappers_return_a_result_object (op : Op) (w : World) :
  returns_result_object op = true ->
  is_supabase_signOut op = false ->
  exists v w', run op w = (Normal v, w') /\ is_result v.
Proof.
  intros Hr Hs. exact (wrappers_settle_with_a_result op Hr Hs w).
Qed.

Lemma returns_anything {A} (m : M A) : returns anything m.
Proof. intros w a w' _. exact I. Qed.

Lemma settles_get_truthy (v : Value) (k : string) :
  truthy v = true -> settles anything (get v k).
Proof.
  intros Hv w. exists (opt_prop k v), w. split; [|exact I].
  unfold get, lift. rewrite (prop_truthy k v Hv). reflexivity.
Qed.

Lemma settles_get_present (v : Value) (k : string) :
  truthy (opt_prop k v) = true -> settles anything (get v k).
Proof.
  intros Hv w. exists (opt_prop k v), w. split; [|exact I].
  unfold get, lift, opt_prop in *. destruct (prop k v); [reflexivity|discriminate Hv].
Qed.

Lemma is_result_truthy (v : Value) : is_result v -> truthy v = true.
Proof. intros [(d & e & ->) | (e & ->)]; reflexivity. Qed.

Lemma settles_set_auth f : settles anything (set_auth f).
Proof. intro w. eexists. eexists. split; [reflexivity|exact I]. Qed.

Lemma settles_set_project f : settles anything (set_project f).
Proof. intro w. eexists. eexists. split; [reflexivity|exact I]. Qed.

Lemma settles_set_editor f : settles anything (set_editor f).
Proof. intro w. eexists. eexists. split; [reflexivity|exact I]. Qed.

Lemma settles_read {A} (f : World -> A) : settles anything (read f).
Proof. intro w. eexists. eexists. split; [reflexivity|exact I]. Qed.

Lemma settles_sleep ms : settles anything (sleep ms).
Proof. intro w. eexists. eexists. split; [reflexivity|exact I]. Qed.

Lemma settles_try_finally {A} (Q : A -> Prop) (body : M A) (cleanup : M unit) :
  settles Q body -> settles anything cleanup -> settles Q (try_finally body cleanup).
Proof.
  intros Hb Hc w. destruct (Hb w) as (a & w1 & E & Qa).
  destruct (Hc w1) as (u & w2 & E2 & _).
  exists a, w2. unfold try_finally. rewrite E, E2. auto.
Qed.

Lemma truthy_or_list (data : Value) : truthy (or_else data (VArr [])) = true.
Proof. unfold or_else. destruct (truthy data) eqn:E; [exact E|reflexivity]. Qed.

End Across.

(** Syntax-directed search for "completes normally": a [try] whose
    handler completes, a call of a wrapper that returns a result object,
    a property read of a value known not to be [null]. *)
Ltac finish :=
  cbv zeta;
  lazymatch goal with
  | |- settles _ (try_catch _ _) =>
      apply settles_try_catch; [apply returns_anything | intro; finish]
  | |- settles _ (try_finally _ _) =>
      apply settles_try_finally; [finish | finish]
  | |- settles _ (bind _ _) =>
      first [ eapply settles_bind; [known_call | intros ? ?; finish]
            | apply (settles_bind anything); [finish_call | intros ? _; finish] ]
  | |- settles _ (ret _) => apply settles_ret; exact I
  | |- settles _ (when ?c _) => unfold when; destruct c; finish
  | |- settles _ (if ?c then _ else _) => destruct c eqn:?; finish
  | |- settles _ (match ?c with Some _ => _ | None => _ end) => destruct c; finish
  | |- settles _ (set_auth _) => apply settles_set_auth
  | |- settles _ (set_project _) => apply settles_set_project
  | |- settles _ (set_editor _) => apply settles_set_editor
  | |- settles _ (console_log _ _) => apply settles_console_log; exact I
  | |- settles _ (console_error _ _) => apply settles_console_log; exact I
  | |- settles _ (console_warn _ _) => apply settles_console_log; exact I
  | |- settles _ (read _) => apply settles_read
  | |- settles _ (sleep _) => apply settles_sleep
  | |- settles _ ?m => let h := head_of m in progress unfold h; finish
  end
with known_call :=
  lazymatch goal with
  | |- settles _ (Supabase.getUserProfile) =>
      exact (wrappers_settle_with_a_result S_getUserProfile eq_refl eq_refl)
  | |- settles _ (Supabase.incrementUsageCount) =>
      exact (wrappers_settle_with_a_result S_incrementUsageCount eq_refl eq_refl)
  | |- settles _ (Supabase.signIn ?e ?p) =>
      exact (wrappers_settle_with_a_result (S_signIn e p) eq_refl eq_refl)
  | |- settles _ (Supabase.signUp ?e ?p ?n) =>
      exact (wrappers_settle_with_a_result (S_signUp e p n) eq_refl eq_refl)
  | |- settles _ (Firebase.getUserProjects) =>
      exact (wrappers_settle_with_a_result F_getUserProjects eq_refl eq_refl)
  | |- settles _ (Firebase.getProjectArticles ?p) =>
      exact (wrappers_settle_with_a_result (F_getProjectArticles p) eq_refl eq_refl)
  end
with finish_call :=
  lazymatch goal with
  | Hr : is_result ?v |- settles _ (get ?v _) =>
      apply settles_get_truthy, is_result_truthy, Hr
  | Ht : truthy (opt_prop ?k ?v) = true |- settles _ (get ?v ?k) =>
      apply settles_get_present, Ht
  | Ht : truthy ?v = true |- settles _ (get ?v _) =>
      apply settles_get_truthy, Ht
  | Ht : falsy ?v = false |- settles _ (get ?v _) =>
      apply settles_get_truthy; unfold falsy in Ht;
      destruct (truthy v); [reflexivity | discriminate Ht]
  | |- _ => finish
  end.

(** [returning] and [settling] with the shape of the result as a
    parameter. *)
Ltac returning_with fin :=
  cbv zeta;
  lazymatch goal with
  | |- returns _ (bind _ _) => apply returns_bind; intro; returning_with fin
  | |- returns _ (try_catch _ _) =>
      apply returns_try_catch; [returning_with fin | intro; returning_with fin]
  | |- returns _ (if _ then _ else _) => apply returns_if; returning_with fin
  | |- returns _ (ret _) => apply returns_ret; fin
  | |- returns _ (throw _) => apply returns_throw
  | |- returns _ ?m => let h := head_of m in progress unfold h; returning_with fin
  end.

Ltac settling_with fin :=
  cbv zeta;
  lazymatch goal with
  | |- settles _ (try_catch _ _) =>
      apply settles_try_catch; [returning_with fin | intro; settling_with fin]
  | |- settles _ (bind (console_error _ _) _) => apply settles_console; settling_with fin
  | |- settles _ (ret _) => apply settles_ret; fin
  | |- settles _ ?m => let h := head_of m in progress unfold h; settling_with fin
  end.

Section Completeness.
Context `{Platform}.

(** X5. The getters, the actions of the two stores other than [signOut]
    and [createProject], and the two handlers of the editor always
    complete normally: none of them lets an exception of the SDK
    escape. *)
Theorem getters_and_actions_complete (op : Op) (w : World) :
  never_rejects op = true ->
  exists v w', run op w = (Normal v, w').
Proof.
  intro Hn.
  assert (Hs : settles anything (run op)).
  { destruct op; try discriminate Hn; unfold run, void; finish. }
  destruct (Hs w) as (v & w' & E & _). eauto.
Qed.

Lemma list_wrappers_settle (op : Op) :
  lists op = true ->
  settles (has_list (negb (supabase_op op))) (run op).
Proof.
  destruct op; intro Hl; try discriminate Hl; unfold run;
    settling_with ltac:(eexists; eexists; split; [reflexivity|];
                        split; [first [reflexivity | apply truthy_or_list]
                               | intro Hs; first [discriminate Hs | eexists; reflexivity]]).
Qed.

(** X6. A wrapper that returns a list never returns [null] for it: [data]
    is [data || []] in supabase.ts and an array in firebase.ts, and [[]]
    when the call failed. *)
Theorem list_wrappers_always_return_a_list (op : Op) (w : World) :
  lists op = true ->
  exists data error w',
    run op w = (Normal (obj [("data", data); ("error", error)]), w')
    /\ truthy data = true
    /\ (supabase_op op = false -> exists items, data = VArr items).
Proof.
  intro Hl.
  destruct (list_wrappers_settle op Hl w) as (v & w' & E & d & e & -> & Ht & Hs).
  exists d, e, w'. repeat split; auto.
  intro Hf. apply Hs. rewrite Hf. reflexivity.
Qed.

End Completeness.


(** ** supabase.ts *)

Section SupabaseWrappers.
Context `{Platform}.

Lemma falsy_of_truthy (v : Value) : truthy v = false -> falsy v = true.
Proof. unfold falsy. intros ->. reflexivity. Qed.

Lemma truthy_not_falsy (v : Value) : truthy v = true -> falsy v = false.
Proof. unfold falsy. intros ->. reflexivity. Qed.

Lemma opt_prop_of (k : string) (v x : Value) : prop k v = Normal x -> opt_prop k v = x.
Proof. unfold opt_prop. intros ->. reflexivity. Qed.

Lemma supabase_getCurrentUser_run (w : World) :
  exists w1,
    Supabase.getCurrentUser w
    = (Normal (match reported_user w with Some x => x | None => VNull end), w1)
    /\ calls w1 = calls w ++ [auth_getUser]
    /\ platform w1 = snd (respond auth_getUser (platform w))
    /\ authStore w1 = authStore w
    /\ projectStore w1 = projectStore w
    /\ editorState w1 = editorState w
    /\ (reported_user w <> None -> console w1 = console w).
Proof.
  unfold reported_user.
  destruct (respond auth_getUser (platform w)) as [c b] eqn:E. cbn [fst snd].
  destruct c as [answer|e].
  - destruct (prop "data" answer) as [data|e] eqn:Ed.
    + destruct (prop "user" data) as [x|e] eqn:Eu.
      * eexists. split; [apply wp_eq; wp_run; reflexivity|]. cbn. auto 10.
      * eexists. split; [apply wp_eq; wp_run; reflexivity|]. cbn.
        repeat split; auto. intro Hn. contradiction.
    + eexists. split; [apply wp_eq; wp_run; reflexivity|]. cbn.
      repeat split; auto. intro Hn. contradiction.
  - eexists. split; [apply wp_eq; wp_run; reflexivity|]. cbn.
    repeat split; auto. intro Hn. contradiction.
Qed.

(** X7. [getCurrentUser] of supabase.ts never throws: it sends
    [auth.getUser()] once and returns [data.user] of the answer, or
    [null] whenever the call is rejected or the answer has no [data];
    only in the second case does it write to the console. *)
Theorem supabase_getCurrentUser_returns_the_user_or_null (w : World) :
  exists w1,
    Supabase.getCurrentUser w
    = (Normal (match reported_user w with Some x => x | None => VNull end), w1)
    /\ emitted Supabase.getCurrentUser w = [auth_getUser]
    /\ (reported_user w <> None -> console w1 = console w).
Proof.
  destruct (supabase_getCurrentUser_run w) as (w1 & E & Hc & _ & _ & _ & _ & Hcon).
  exists w1. split; [exact E|]. split; [|exact Hcon].
  apply emitted_from. rewrite E. exact Hc.
Qed.

Lemma supabase_require_user_none (w : World) :
  (exists u w1, Supabase.getCurrentUser w = (Normal u, w1) /\ falsy u = true) ->
  exists w1,
    Supabase.require_user w = (Throw not_authenticated, w1)
    /\ calls w1 = calls w ++ [auth_getUser]
    /\ authStore w1 = authStore w
    /\ projectStore w1 = projectStore w
    /\ editorState w1 = editorState w.
Proof.
  intros (u & w1 & E & Hf).
  destruct (supabase_getCurrentUser_run w) as (w1' & E' & Hc & _ & Ha & Hp & He & _).
  rewrite E in E'. injection E' as Hu Hw. subst w1'.
  exists w1. split; [|auto].
  unfold Supabase.require_user, bind. rewrite E, Hf. reflexivity.
Qed.

Lemma guarded {A} (k : Value -> M A) (handler : Value -> M A) (w w1 : World) (e : Value) :
  Supabase.require_user w = (Throw e, w1) ->
  try_catch (bind Supabase.require_user k) handler w = handler e w1.
Proof. intro E. unfold try_catch, bind. rewrite E. reflexivity. Qed.

(** X8. No wrapper of supabase.ts that asks for the signed-in user goes
    on without one: when [getCurrentUser] returns a falsy value, the
    wrapper has sent [auth.getUser] and nothing else, and returns
    [{ data: null, error: Error('User not authenticated') }]
    ([data: []] for [getUserProjects]). *)
Theorem supabase_wrappers_stop_without_a_user (op : Op) (w : World) :
  needs_user op = true -> supabase_op op = true ->
  (exists u w1, Supabase.getCurrentUser w = (Normal u, w1) /\ falsy u = true) ->
  fst (run op w) = Normal (Supabase.result (data_on_failure op) not_authenticated)
  /\ emitted (run op) w = [auth_getUser]
  /\ authStore (snd (run op w)) = authStore w
  /\ projectStore (snd (run op w)) = projectStore w
  /\ editorState (snd (run op w)) = editorState w.
Proof.
  intros Hn Hs Hu.
  destruct (supabase_require_user_none w Hu) as (w1 & E & Hc & Ha & Hp & He).
  destruct op; try discriminate Hn; try discriminate Hs; unfold run;
    match goal with
    | |- context [fst (?f w)] =>
        let h := head_of f in unfold h
    end;
    unfold emitted;
    rewrite (guarded _ _ w w1 _ E);
    unfold bind, console_error, console_log, ret;
    cbn [fst snd calls authStore projectStore editorState];
    rewrite Hc, drop_app; auto.
Qed.

(** X9. Nor does a wrapper of firebase.ts: with no [auth.currentUser] it
    sends nothing at all, writes one line to the console and returns
    the same error. *)
Theorem firebase_wrappers_stop_without_a_user (op : Op) (w : World) :
  needs_user op = true -> supabase_op op = false ->
  truthy (current_user (platform w)) = false ->
  exists msg,
    run op w
    = (Normal (Firebase.result (data_on_failure op) not_authenticated),
       noted msg not_authenticated w).
Proof.
  intros Hn Hs Hu.
  assert (Hf : falsy (current_user (platform w)) = true)
    by (unfold falsy; rewrite Hu; reflexivity).
  destruct op; try discriminate Hn; try discriminate Hs; unfold run;
    eexists; apply wp_eq; wp_run; reflexivity.
Qed.

(** X10. A wrapper of supabase.ts that writes without asking for the
    user sends its one query and returns exactly the [{ data, error }]
    the query was answered with; [createArticle], [updateArticle],
    [removeTeamMember] and [updateTeamMemberRole] then call
    [log_activity] if and only if a row came back without an error, and
    nothing the log call does changes the result.  When the query is
    rejected the wrapper returns [{ data: null, error }]. *)
Theorem supabase_writes_pass_the_answer_through (op : Op) (w : World) (q : Req) :
  write_query op (clock (platform w)) = Some q ->
  (forall answer b data error,
      respond q (platform w) = (Normal answer, b) ->
      prop "data" answer = Normal data ->
      prop "error" answer = Normal error ->
      fst (run op w) = Normal (Supabase.result data error)
      /\ if logs op && (truthy data && falsy error)
         then exists args, emitted (run op) w = [q; rpc "log_activity" args]
         else emitted (run op) w = [q])
  /\ (forall e b,
         respond q (platform w) = (Throw e, b) ->
         fst (run op w) = Normal (Supabase.result VNull e)
         /\ emitted (run op) w = [q]).
Proof.
  intros Hq. split.
  - intros answer b data error Hr Hd He.
    assert (Hwp : wp (run op)
                     (fun c w' =>
                        c = Normal (Supabase.result data error)
                        /\ if logs op && (truthy data && falsy error)
                           then exists args,
                               calls w' = calls w ++ [q; rpc "log_activity" args]
                           else calls w' = calls w ++ [q])
                     w).
    { destruct op; try discriminate Hq; injection Hq as <-; unfold run; cbn [logs andb];
        wp_run;
        try (split; reflexivity);
        destruct (truthy data) eqn:Et; cbn [andb];
        try (wp_simpl; split; reflexivity);
        destruct (falsy error) eqn:Ef; cbn [andb];
        try (wp_simpl; split; reflexivity);
        pose proof (prop_truthy "id" data Et);
        pose proof (prop_truthy "project_id" data Et);
        pose proof (prop_truthy "title" data Et);
        wp_all;
        (split; [reflexivity | eexists; rewrite <- app_assoc; reflexivity]). }
    unfold wp in Hwp. destruct Hwp as (Hc & Hcalls). split; [exact Hc|].
    destruct (logs op && (truthy data && falsy error)).
    + destruct Hcalls as (args & Hcalls). exists args. apply emitted_from. exact Hcalls.
    + apply emitted_from. exact Hcalls.
  - intros e b Hr.
    assert (Hwp : wp (run op)
                     (fun c w' => c = Normal (Supabase.result VNull e)
                                  /\ calls w' = calls w ++ [q]) w).
    { destruct op; try discriminate Hq; injection Hq as <-; unfold run;
        wp_run; split; reflexivity. }
    unfold wp in Hwp. destruct Hwp as (Hc & Hcalls). split; [exact Hc|].
    apply emitted_from. exact Hcalls.
Qed.

End SupabaseWrappers.

Ltac calls_only :=
  cbn [calls logged noted]; rewrite <- ?app_assoc; reflexivity.

Section SupabaseInvitations.
Context `{Platform}.

(** X11. [inviteTeamMember] of supabase.ts, called by a user for whom the
    membership lookup reports no row: if the lookup of a pending
    invitation reports one, it returns 'Invitation already sent to this
    email' and inserts nothing; otherwise it inserts
    [{ project_id, email, role, invited_by: <the caller> }], returns what
    the insert was answered with, and logs the activity only if a row
    came back without an error.  The [error] of the two lookups is not
    looked at: a failed lookup counts as "no row". *)
Theorem inviteTeamMember_inserts_after_two_empty_lookups
        (w : World) (pid email role u uid : Value) (b1 b2 b3 : backend)
        (answer1 existing answer2 pending : Value) :
  supabase_reports_user w u uid b1 ->
  respond (caller_membership_lookup pid uid) b1 = (Normal answer1, b2) ->
  prop "data" answer1 = Normal existing ->
  truthy existing = false ->
  respond (pending_invitation_lookup pid email (clock b2)) b2 = (Normal answer2, b3) ->
  prop "data" answer2 = Normal pending ->
  (truthy pending = true ->
   fst (Supabase.inviteTeamMember pid email role w) = Normal already_invited
   /\ emitted (Supabase.inviteTeamMember pid email role) w
      = [auth_getUser; caller_membership_lookup pid uid;
         pending_invitation_lookup pid email (clock b2)])
  /\ (truthy pending = false ->
      forall inserted b4 data error,
        respond (invitation_insert pid email role uid) b3 = (Normal inserted, b4) ->
        prop "data" inserted = Normal data ->
        prop "error" inserted = Normal error ->
        fst (Supabase.inviteTeamMember pid email role w) = Normal (Supabase.result data error)
        /\ emitted (Supabase.inviteTeamMember pid email role) w
           = [auth_getUser; caller_membership_lookup pid uid;
              pending_invitation_lookup pid email (clock b2);
              invitation_insert pid email role uid]
             ++ (if truthy data && falsy error then [invited_log pid email role] else [])).
Proof.
  intros Hu Hl1 Hd1 Hex Hl2 Hd2.
  pose proof Hu as (a & d & Ha & Hd0 & Hu0 & Htu & Hid).
  assert (Hfalsy : falsy u = false) by (apply truthy_not_falsy; exact Htu).
  unfold caller_membership_lookup, pending_invitation_lookup, invitation_insert,
    invited_log in *.
  split.
  - intros Hp.
    assert (Hwp : wp (Supabase.inviteTeamMember pid email role)
                     (fun c w' => c = Normal already_invited
                                  /\ calls w' = calls w ++ [auth_getUser;
                                       postgrest (from_ "team_members" (select "id")
                                         [eq "project_id" pid; eq "user_id" uid; single]);
                                       postgrest (from_ "project_invitations" (select "id")
                                         [eq "project_id" pid; eq "email" email;
                                          is_ "accepted_at" VNull;
                                          gt "expires_at" (VDate (clock b2)); single])]) w).
    { wp_run. split; [reflexivity|calls_only]. }
    destruct Hwp as (Hc & Hcalls). split; [exact Hc|apply emitted_from; exact Hcalls].
  - intros Hp inserted b4 data error Hins Hdata Herr.
    assert (Hwp : wp (Supabase.inviteTeamMember pid email role)
                     (fun c w' => c = Normal (Supabase.result data error)
                                  /\ calls w' = calls w ++ [auth_getUser;
                                       postgrest (from_ "team_members" (select "id")
                                         [eq "project_id" pid; eq "user_id" uid; single]);
                                       postgrest (from_ "project_invitations" (select "id")
                                         [eq "project_id" pid; eq "email" email;
                                          is_ "accepted_at" VNull;
                                          gt "expires_at" (VDate (clock b2)); single]);
                                       postgrest (from_ "project_invitations"
                                         (insert [obj [("project_id", pid); ("email", email);
                                                       ("role", role); ("invited_by", uid)]])
                                         [returning "*"; single])]
                                      ++ (if truthy data && falsy error
                                          then [rpc "log_activity"
                                                  (obj [("p_project_id", pid);
                                                        ("p_action", VStr "invited");
                                                        ("p_resource_type", VStr "team_member");
                                                        ("p_metadata",
                                                         obj [("email", email); ("role", role)])])]
                                          else [])) w).
    { wp_run.
      destruct (truthy data && falsy error); wp_all;
        (split; [reflexivity|calls_only]). }
    destruct Hwp as (Hc & Hcalls). split; [exact Hc|apply emitted_from; exact Hcalls].
Qed.

(** X12. [acceptInvitation] refuses before it writes: with an invitation
    lookup that returned an error or no row it answers 'Invalid or
    expired invitation'; with an invitation whose email is not the
    caller's, 'Invitation email does not match your account'; in both
    cases it has sent the two lookups and nothing else.  And when the
    insert of the membership is answered with an error it returns that
    error and does not mark the invitation accepted. *)
Theorem acceptInvitation_refuses_before_it_writes
        (w : World) (token u uid : Value) (b1 b2 : backend)
        (found invitation lookup_error : Value) :
  supabase_reports_user w u uid b1 ->
  respond (invitation_lookup token (clock b1)) b1 = (Normal found, b2) ->
  prop "data" found = Normal invitation ->
  prop "error" found = Normal lookup_error ->
  (truthy lookup_error = true \/ truthy invitation = false ->
   fst (Supabase.acceptInvitation token w) = Normal invalid_or_expired
   /\ emitted (Supabase.acceptInvitation token) w
      = [auth_getUser; invitation_lookup token (clock b1)])
  /\ (truthy lookup_error = false -> truthy invitation = true ->
      strict_eq (opt_prop "email" u) (opt_prop "email" invitation) = false ->
      fst (Supabase.acceptInvitation token w) = Normal email_mismatch
      /\ emitted (Supabase.acceptInvitation token) w
         = [auth_getUser; invitation_lookup token (clock b1)])
  /\ (truthy lookup_error = false -> truthy invitation = true ->
      strict_eq (opt_prop "email" u) (opt_prop "email" invitation) = true ->
      forall inserted b3 member insert_error,
        respond (membership_insert uid invitation) b2 = (Normal inserted, b3) ->
        prop "data" inserted = Normal member ->
        prop "error" inserted = Normal insert_error ->
        truthy insert_error = true ->
        fst (Supabase.acceptInvitation token w) = Normal (obj [("error", insert_error)])
        /\ emitted (Supabase.acceptInvitation token) w
           = [auth_getUser; invitation_lookup token (clock b1);
              membership_insert uid invitation]).
Proof.
  intros Hu Hlook Hinv Hle.
  pose proof Hu as (a & d & Ha & Hd0 & Hu0 & Htu & Hid).
  assert (Hfalsy : falsy u = false) by (apply truthy_not_falsy; exact Htu).
  pose proof (prop_truthy "email" u Htu) as Pue.
  unfold invitation_lookup, membership_insert in *.
  split; [|split].
  - intros Hbad.
    assert (Hwp : wp (Supabase.acceptInvitation token)
                     (fun c w' => c = Normal invalid_or_expired
                                  /\ calls w' = calls w ++ [auth_getUser;
                                       postgrest (from_ "project_invitations" (select "*")
                                         [eq "token" token; is_ "accepted_at" VNull;
                                          gt "expires_at" (VDate (clock b1)); single])]) w).
    { wp_run.
      destruct Hbad as [Hbad | Hbad].
      - rewrite Hbad. cbn [orb]. wp_run. split; [reflexivity|calls_only].
      - rewrite (falsy_of_truthy _ Hbad), orb_true_r. wp_run.
        split; [reflexivity|calls_only]. }
    destruct Hwp as (Hc & Hcalls). split; [exact Hc|apply emitted_from; exact Hcalls].
  - intros Hlf Hit Hmail.
    assert (Hfalsy' : falsy invitation = false) by (apply truthy_not_falsy; exact Hit).
    pose proof (prop_truthy "email" invitation Hit) as Pie.
    assert (Hwp : wp (Supabase.acceptInvitation token)
                     (fun c w' => c = Normal email_mismatch
                                  /\ calls w' = calls w ++ [auth_getUser;
                                       postgrest (from_ "project_invitations" (select "*")
                                         [eq "token" token; is_ "accepted_at" VNull;
                                          gt "expires_at" (VDate (clock b1)); single])]) w).
    { wp_run. split; [reflexivity|calls_only]. }
    destruct Hwp as (Hc & Hcalls). split; [exact Hc|apply emitted_from; exact Hcalls].
  - intros Hlf Hit Hmail inserted b3 member insert_error Hins Hmem Hie Hif.
    assert (Hfalsy' : falsy invitation = false) by (apply truthy_not_falsy; exact Hit).
    pose proof (prop_truthy "email" invitation Hit) as Pie.
    pose proof (prop_truthy "project_id" invitation Hit) as Ppid.
    pose proof (prop_truthy "role" invitation Hit) as Prole.
    pose proof (prop_truthy "invited_by" invitation Hit) as Pby.
    assert (Hwp : wp (Supabase.acceptInvitation token)
                     (fun c w' => c = Normal (obj [("error", insert_error)])
                                  /\ calls w' = calls w ++ [auth_getUser;
                                       postgrest (from_ "project_invitations" (select "*")
                                         [eq "token" token; is_ "accepted_at" VNull;
                                          gt "expires_at" (VDate (clock b1)); single]);
                                       postgrest (from_ "team_members"
                                         (insert [obj [("user_id", uid);
                                            ("project_id", opt_prop "project_id" invitation);
                                            ("role", opt_prop "role" invitation);
                                            ("invited_by", opt_prop "invited_by" invitation);
                                            ("status", VStr "active")]])
                                         [returning "*"; single])]) w).
    { wp_run. split; [reflexivity|calls_only]. }
    destruct Hwp as (Hc & Hcalls). split; [exact Hc|apply emitted_from; exact Hcalls].
Qed.

End SupabaseInvitations.


(** ** firebase.ts *)

Section FirebaseWrappers.
Context `{Platform}.

(** X13. [createProject] of firebase.ts has no rollback: when the project
    document was added and adding the owner's membership is rejected, it
    returns [{ data: null, error }] and the project stays, without a
    member, as no request follows.  When the membership was added it
    returns the project with its new id, whatever the activity log
    does. *)
Theorem firebase_createProject_has_no_rollback
        (w : World) (title description uid docRef project_id : Value) (b1 : backend) :
  signed_in_as w uid ->
  respond (project_doc uid title description) (platform w) = (Normal docRef, b1) ->
  prop "id" docRef = Normal project_id ->
  (forall e b2,
      respond (owner_membership_doc uid project_id) b1 = (Throw e, b2) ->
      Firebase.createProject title description w
      = (Normal (Firebase.result VNull e),
         noted "Create project error:" e
           (logged (owner_membership_doc uid project_id) b2
              (logged (project_doc uid title description) b1 w))))
  /\ (forall m b2,
         respond (owner_membership_doc uid project_id) b1 = (Normal m, b2) ->
         fst (Firebase.createProject title description w)
         = Normal (Firebase.result
                     (obj (literal (("id", project_id)
                                      :: projectData uid title description)))
                     VNull)).
Proof.
  intros (Hu & Huid) Hp Hid.
  pose proof (truthy_not_falsy _ Hu) as Hf.
  unfold project_doc, owner_membership_doc, projectData in *.
  split.
  - intros e b2 Hm. apply wp_eq. wp_run. reflexivity.
  - intros m b2 Hm.
    assert (Hwp : wp (Firebase.createProject title description)
                     (fun c _ =>
                        c = Normal (Firebase.result
                                      (obj (literal
                                              (("id", project_id)
                                                 :: [("user_id", uid); ("owner_id", uid);
                                                     ("title", title);
                                                     ("description",
                                                      or_else description (VStr ""));
                                                     ("created_at", Firebase.serverTimestamp);
                                                     ("updated_at", Firebase.serverTimestamp)])))
                                      VNull)) w).
    { wp_run. wp_all; reflexivity. }
    exact Hwp.
Qed.

(** X14. [getUserProjects] of firebase.ts, for a user without an active
    membership, returns [{ data: [], error: null }] after the one query
    of the memberships: the query of the projects, whose [in] filter
    would be empty, is not sent. *)
Theorem firebase_getUserProjects_without_memberships
        (w : World) (uid snapshot : Value) (b1 : backend) :
  signed_in_as w uid ->
  respond (active_memberships uid) (platform w) = (Normal snapshot, b1) ->
  prop "docs" snapshot = Normal (VArr []) ->
  Firebase.getUserProjects w
  = (Normal (Firebase.result (VArr []) VNull), logged (active_memberships uid) b1 w).
Proof.
  intros (Hu & Huid) Hs Hd.
  pose proof (truthy_not_falsy _ Hu) as Hf.
  unfold active_memberships in *.
  apply wp_eq. wp_run. reflexivity.
Qed.

(** X15. [removeTeamMember] and [updateTeamMemberRole] of firebase.ts
    look the member up first.  With no matching document they return
    [{ data: null, error: { message: 'Team member not found' } }] and
    write nothing; otherwise they update the first matching document
    only (status ['inactive'], or the new role), return its id, and send
    nothing after the update but the activity log. *)
Theorem firebase_member_changes_touch_the_first_match_only
        (op : Op) (w : World) (projectId userId : Value) (change : list (string * Value))
        (snapshot docs : Value) (b1 : backend) :
  member_change op = Some (projectId, userId, change) ->
  respond (member_lookup projectId userId) (platform w) = (Normal snapshot, b1) ->
  prop "docs" snapshot = Normal docs ->
  (forall first rest ref id b2 r,
      docs = VArr (first :: rest) ->
      prop "ref" first = Normal ref ->
      prop "id" first = Normal id ->
      respond (updateDoc ref (obj change)) b1 = (Normal r, b2) ->
      fst (run op w) = Normal (Firebase.result (obj [("id", id)]) VNull)
      /\ exists log,
           emitted (run op) w
           = [member_lookup projectId userId; updateDoc ref (obj change)] ++ log
           /\ forallb writes_activity_log log = true)
  /\ ((forall first rest, docs <> VArr (first :: rest)) ->
      run op w = (Normal team_member_not_found, logged (member_lookup projectId userId) b1 w)).
Proof.
  intros Hop Hl Hd. unfold member_lookup in *.
  split.
  - intros first rest ref id b2 r -> Href Hid Hup.
    assert (Hwp : wp (run op)
                     (fun c w' =>
                        c = Normal (Firebase.result (obj [("id", id)]) VNull)
                        /\ exists log,
                             calls w'
                             = calls w
                               ++ [getDocs "team_members"
                                     [where_ "project_id" "==" projectId;
                                      where_ "user_id" "==" userId];
                                   updateDoc ref (obj change)] ++ log
                             /\ forallb writes_activity_log log = true) w).
    { destruct op; try discriminate Hop; injection Hop as <- <- <-; unfold run;
        wp_run; cbn [index0]; wp_run; wp_all;
        (split; [reflexivity|]);
        first [ exists []; split; [rewrite <- ?app_assoc; reflexivity | reflexivity]
              | eexists [_]; split; [rewrite <- ?app_assoc; reflexivity | reflexivity] ]. }
    destruct Hwp as (Hc & log & Hcalls & Hlog). split; [exact Hc|].
    exists log. split; [apply emitted_from; exact Hcalls | exact Hlog].
  - intros Hnone.
    destruct op; try discriminate Hop; injection Hop as <- <- <-; unfold run;
      apply wp_eq; wp_run;
      (destruct docs as [| | | | | | |xs| | | |]; try (wp_run; reflexivity);
       destruct xs as [|first rest]; [wp_run; reflexivity|];
       exfalso; apply (Hnone first rest); reflexivity).
Qed.

Lemma substring_length_le (n m : nat) (s : string) :
  (String.length (String.substring n m s) <= m)%nat.
Proof.
  revert n m. induction s as [|c s IH]; intros n m.
  - destruct n, m; simpl; lia.
  - destruct n as [|n]; destruct m as [|m]; simpl; try lia;
      first [apply IH | specialize (IH 0%nat m); lia].
Qed.

Lemma append_length (s t : string) :
  String.length (s ++ t) = (String.length s + String.length t)%nat.
Proof. induction s as [|c s IH]; simpl; auto. Qed.

(** X16. [generateInviteToken] always returns a string, of at most 26
    characters (two draws of [Math.random().toString(36)], each cut to
    [substring(2, 15)]); it sends no request and changes no store. *)
Theorem generateInviteToken_is_short (w : World) :
  exists token w',
    Firebase.generateInviteToken w = (Normal (VStr token), w')
    /\ (String.length token <= 26)%nat
    /\ calls w' = calls w
    /\ authStore w' = authStore w
    /\ projectStore w' = projectStore w
    /\ editorState w' = editorState w.
Proof.
  unfold Firebase.generateInviteToken, bind, Math_random_toString36, ret.
  destruct (random36 (platform w)) as [a b1] eqn:E1. cbn [platform with_platform].
  destruct (random36 b1) as [c b2] eqn:E2.
  eexists. eexists. split; [reflexivity|].
  split.
  - rewrite append_length.
    pose proof (substring_length_le 2 13 a). pose proof (substring_length_le 2 13 c). lia.
  - cbn. auto.
Qed.

(** X17. [signUp] of firebase.ts writes the profile after the account and
    does not undo the account: if creating the account is rejected,
    nothing else is sent; once it is created, the profile document
    [users/<uid>] is written with the free tier and 0 of 10 generations
    used, and if that write is rejected the function returns
    [{ data: null, error }] although the account exists. *)
Theorem firebase_signUp_writes_the_profile_after_the_account
        (w : World) (email password fullName : Value) :
  (forall e b1,
      respond (createUserWithEmailAndPassword email password) (platform w) = (Throw e, b1) ->
      Firebase.signUp email password fullName w
      = (Normal (Firebase.result VNull e),
         noted "Signup error:" e
           (logged (createUserWithEmailAndPassword email password) b1 w)))
  /\ (forall credential user uid user_email b1 c b2,
         respond (createUserWithEmailAndPassword email password) (platform w)
         = (Normal credential, b1) ->
         prop "user" credential = Normal user ->
         prop "uid" user = Normal uid ->
         prop "email" user = Normal user_email ->
         respond (profile_doc uid user_email fullName) b1 = (c, b2) ->
         emitted (Firebase.signUp email password fullName) w
         = [createUserWithEmailAndPassword email password;
            profile_doc uid user_email fullName]
         /\ fst (Firebase.signUp email password fullName w)
            = Normal (match c with
                      | Normal _ => Firebase.result (obj [("user", user)]) VNull
                      | Throw e => Firebase.result VNull e
                      end)).
Proof.
  split.
  - intros e b1 Hr. apply wp_eq. wp_run. reflexivity.
  - intros credential user uid user_email b1 c b2 Hr Hu Huid Hm Hp.
    unfold profile_doc in *.
    assert (Hwp : wp (Firebase.signUp email password fullName)
                     (fun c' w' =>
                        calls w' = calls w ++ [createUserWithEmailAndPassword email password;
                                               setDoc (doc "users" uid)
                                                 (obj [("id", uid); ("email", user_email);
                                                       ("full_name", or_else fullName (VStr ""));
                                                       ("subscription_tier", VStr "free");
                                                       ("usage_count", VNum 0);
                                                       ("usage_limit", VNum 10);
                                                       ("created_at", Firebase.serverTimestamp);
                                                       ("updated_at", Firebase.serverTimestamp)])]
                        /\ c' = Normal (match c with
                                        | Normal _ => Firebase.result (obj [("user", user)]) VNull
                                        | Throw e => Firebase.result VNull e
                                        end)) w).
    { wp_run. destruct c; wp_run; (split; [calls_only | reflexivity]). }
    destruct Hwp as (Hcalls & Hc). split; [apply emitted_from; exact Hcalls | exact Hc].
Qed.

End FirebaseWrappers.

(** ** authStore.ts *)

Section AuthStoreActions.
Context `{Platform}.

(** A call of a wrapper from a store: it returns a result object and
    leaves the stores as they are. *)
Lemma wrapper_call (op : Op) (w : World) :
  returns_result_object op = true -> is_supabase_signOut op = false ->
  lib_wrapper op = true ->
  exists r w1 data error,
    run op w = (Normal r, w1)
    /\ prop "data" r = Normal data /\ prop "error" r = Normal error
    /\ authStore w1 = authStore w
    /\ projectStore w1 = projectStore w
    /\ editorState w1 = editorState w.
Proof.
  intros Hr Hs Hl.
  destruct (wrappers_settle_with_a_result op Hr Hs w) as (r & w1 & E & Pr).
  destruct (result_fields r Pr) as (data & error & Hd & He & _).
  pose proof (wrappers_frame op Hl w) as Hf. rewrite E in Hf. cbn in Hf.
  exists r, w1, data, error. tauto.
Qed.

Lemma wp_call (op : Op) (Q : Completion Value -> World -> Prop) (w : World) :
  returns_result_object op = true -> is_supabase_signOut op = false ->
  lib_wrapper op = true ->
  (forall r w1 data error,
      run op w = (Normal r, w1) ->
      prop "data" r = Normal data -> prop "error" r = Normal error ->
      authStore w1 = authStore w -> projectStore w1 = projectStore w ->
      editorState w1 = editorState w ->
      Q (Normal r) w1) ->
  wp (run op) Q w.
Proof.
  intros Hr Hs Hl HQ.
  destruct (wrapper_call op w Hr Hs Hl) as (r & w1 & data & error & E & Hd & He & Ha & Hp & Hed).
  unfold wp. rewrite E. cbn. eapply HQ; eauto.
Qed.

End AuthStoreActions.

Ltac step_profile :=
  lazymatch goal with
  | |- wp Supabase.getUserProfile _ ?w =>
      apply (wp_call S_getUserProfile _ w eq_refl eq_refl eq_refl);
      intros ? ? ? ? ? ? ? ? ? ?
  end.

Ltac wp_with_profile :=
  repeat (first [step_profile | wp_step | wp_known | wp_case]; wp_simpl).

Ltac stores_known :=
  repeat first
    [ match goal with
      | Hx : authStore ?x = _ |- context [authStore ?x] => rewrite Hx
      end
    | progress cbn [authStore AuthStore.set_loading AuthStore.set_session
                    AuthStore.set_userProfile AuthStore.set_initialized
                    auth_loading initialized user userProfile logged noted
                    set_auth snd] ].

(** [signIn] and [signUp] of the auth store, after the call of the
    library has returned [r] in [w1]. *)
Ltac sign_in_or_up w0 E He :=
  apply wp_bind; apply wp_set_auth; cbn beta iota; fold w0;
  apply wp_try_catch; apply wp_bind; unfold wp at 1; rewrite E; cbn [fst snd];
  rewrite (opt_prop_of _ _ _ He);
  wp_run; unfold AuthStore.signed_in;
  match goal with
  | |- context [falsy ?error] =>
      let Ef := fresh "Ef" in
      destruct (falsy error) eqn:Ef; wp_with_profile;
      (eexists; split; [reflexivity|]);
      cbn [authStore auth_loading initialized user userProfile calls
           AuthStore.set_loading AuthStore.set_session logged noted];
      stores_known;
      (split; [reflexivity|]); (split; [reflexivity|]);
      let Ht := fresh "Ht" in
      intro Ht;
      first [ unfold falsy in Ef; rewrite Ht in Ef; discriminate Ef
            | repeat split; reflexivity ]
  end.

Section AuthStoreTheorems.
Context `{Platform}.

(** X18. [signIn] and [signUp] of the auth store always complete with
    [loading] false, [initialized] untouched.  If the library call
    returned an error they return [{ error }] with it, leave [user] and
    [userProfile] as they were and send nothing more (no wait, no
    profile request). *)
Theorem authStore_signIn_and_signUp_release_loading
        (w : World) (email password fullName : Value) :
  (exists r w1 v w2,
      Supabase.signIn email password (snd (set_auth (AuthStore.set_loading true) w))
      = (Normal r, w1)
      /\ AuthStore.signIn email password w = (Normal v, w2)
      /\ auth_loading (authStore w2) = false
      /\ initialized (authStore w2) = initialized (authStore w)
      /\ (truthy (opt_prop "error" r) = true ->
          v = obj [("error", opt_prop "error" r)]
          /\ user (authStore w2) = user (authStore w)
          /\ userProfile (authStore w2) = userProfile (authStore w)
          /\ calls w2 = calls w1))
  /\ (exists r w1 v w2,
         Supabase.signUp email password fullName
                         (snd (set_auth (AuthStore.set_loading true) w))
         = (Normal r, w1)
         /\ AuthStore.signUp email password fullName w = (Normal v, w2)
         /\ auth_loading (authStore w2) = false
         /\ initialized (authStore w2) = initialized (authStore w)
         /\ (truthy (opt_prop "error" r) = true ->
             v = obj [("error", opt_prop "error" r)]
             /\ user (authStore w2) = user (authStore w)
             /\ userProfile (authStore w2) = userProfile (authStore w)
             /\ calls w2 = calls w1)).
Proof.
  set (w0 := snd (set_auth (AuthStore.set_loading true) w)).
  split.
  - destruct (wrapper_call (S_signIn email password) w0 eq_refl eq_refl eq_refl)
      as (r & w1 & data & error & E & Hd & He & Ha & Hp & Hed).
    cbn [run] in E. exists r, w1.
    assert (Hfr : authStore w1 = AuthStore.set_loading true (authStore w)) by exact Ha.
    clear Ha.
    assert (Hwp : wp (AuthStore.signIn email password)
                     (fun c w2 =>
                        exists v, c = Normal v
                        /\ auth_loading (authStore w2) = false
                        /\ initialized (authStore w2) = initialized (authStore w)
                        /\ (truthy (opt_prop "error" r) = true ->
                            v = obj [("error", opt_prop "error" r)]
                            /\ user (authStore w2) = user (authStore w)
                            /\ userProfile (authStore w2) = userProfile (authStore w)
                            /\ calls w2 = calls w1)) w).
    { unfold AuthStore.signIn. sign_in_or_up w0 E He. }
    unfold wp in Hwp. destruct (AuthStore.signIn email password w) as [c w2].
    cbn [fst snd] in Hwp. destruct Hwp as (v & -> & Hrest).
    exists v, w2. split; [exact E|]. split; [reflexivity|exact Hrest].
  - destruct (wrapper_call (S_signUp email password fullName) w0 eq_refl eq_refl eq_refl)
      as (r & w1 & data & error & E & Hd & He & Ha & Hp & Hed).
    cbn [run] in E. exists r, w1.
    assert (Hfr : authStore w1 = AuthStore.set_loading true (authStore w)) by exact Ha.
    clear Ha.
    assert (Hwp : wp (AuthStore.signUp email password fullName)
                     (fun c w2 =>
                        exists v, c = Normal v
                        /\ auth_loading (authStore w2) = false
                        /\ initialized (authStore w2) = initialized (authStore w)
                        /\ (truthy (opt_prop "error" r) = true ->
                            v = obj [("error", opt_prop "error" r)]
                            /\ user (authStore w2) = user (authStore w)
                            /\ userProfile (authStore w2) = userProfile (authStore w)
                            /\ calls w2 = calls w1)) w).
    { unfold AuthStore.signUp. sign_in_or_up w0 E He. }
    unfold wp in Hwp. destruct (AuthStore.signUp email password fullName w) as [c w2].
    cbn [fst snd] in Hwp. destruct Hwp as (v & -> & Hrest).
    exists v, w2. split; [exact E|]. split; [reflexivity|exact Hrest].
Qed.

(** X19. [signOut] of the auth store: when the SDK call resolves, [user]
    and [userProfile] are [null] and [loading] is false; when it is
    rejected the action throws, the user stays signed in and [loading]
    stays true, and [handleSignOut] of the dashboard, which awaits it,
    throws too and shows no notification. *)
Theorem authStore_signOut_clears_or_hangs (w : World) (c : Completion Value) (b : backend) :
  respond auth_signOut (platform w) = (c, b) ->
  match c with
  | Normal _ =>
      exists w', AuthStore.signOut w = (Normal tt, w')
                 /\ user (authStore w') = VNull
                 /\ userProfile (authStore w') = VNull
                 /\ auth_loading (authStore w') = false
  | Throw e =>
      exists w', AuthStore.signOut w = (Throw e, w')
                 /\ user (authStore w') = user (authStore w)
                 /\ userProfile (authStore w') = userProfile (authStore w)
                 /\ auth_loading (authStore w') = true
                 /\ Dashboard.handleSignOut w = (Throw e, w')
                 /\ notifications (editorState w') = notifications (editorState w)
  end.
Proof.
  intro Hr. destruct c as [v|e].
  - eexists. split; [apply wp_eq; wp_run; reflexivity|]. cbn. auto.
  - eexists. split; [apply wp_eq; wp_run; reflexivity|]. cbn.
    repeat split; auto.
    apply wp_eq. wp_run. reflexivity.
Qed.

(** X20. [initialize] always completes with [initialized] true, whether
    the session lookup, the profile request or the registration of the
    listener succeed or fail; [loading] is untouched. *)
Theorem authStore_initialize_always_marks_initialized (w : World) :
  exists w',
    AuthStore.initialize w = (Normal tt, w')
    /\ initialized (authStore w') = true
    /\ auth_loading (authStore w') = auth_loading (authStore w).
Proof.
  assert (Hwp : wp AuthStore.initialize
                   (fun c w' => c = Normal tt
                                /\ initialized (authStore w') = true
                                /\ auth_loading (authStore w') = auth_loading (authStore w)) w).
  { unfold AuthStore.initialize. wp_with_profile; stores_known; auto. }
  unfold wp in Hwp. destruct (AuthStore.initialize w) as [c w'].
  cbn [fst snd] in Hwp. destruct Hwp as (-> & Hrest). exists w'. auto.
Qed.

Lemma getUserProfile_failure_has_no_data :
  returns (fun v => exists data error,
               v = Supabase.result data error
               /\ (truthy error = true -> data = VNull))
          Supabase.getUserProfile.
Proof.
  returning_with ltac:(eexists; eexists; split;
                       [reflexivity | first [reflexivity | intro Hx; discriminate Hx]]).
Qed.

(** X21. [refreshProfile] stores whatever [getUserProfile] returned as
    [data], so a failed request sets [userProfile] to [null];
    [incrementUsage] replaces the profile only when the update returned
    a row, and keeps it otherwise.  Neither throws, neither touches
    [user]. *)
Theorem authStore_profile_updates (w : World) :
  (exists r w1 w2,
      Supabase.getUserProfile w = (Normal r, w1)
      /\ AuthStore.refreshProfile w = (Normal tt, w2)
      /\ userProfile (authStore w2) = opt_prop "data" r
      /\ (truthy (opt_prop "error" r) = true -> userProfile (authStore w2) = VNull)
      /\ user (authStore w2) = user (authStore w)
      /\ calls w2 = calls w1)
  /\ (exists r w1 w2,
         Supabase.incrementUsageCount w = (Normal r, w1)
         /\ AuthStore.incrementUsage w = (Normal tt, w2)
         /\ userProfile (authStore w2)
            = (if truthy (opt_prop "data" r) then opt_prop "data" r
               else userProfile (authStore w))
         /\ user (authStore w2) = user (authStore w)
         /\ calls w2 = calls w1).
Proof.
  split.
  - destruct (wrapper_call S_getUserProfile w eq_refl eq_refl eq_refl)
      as (r & w1 & data & error & E & Hd & He & Ha & Hp & Hed).
    cbn [run] in E. exists r, w1.
    destruct (getUserProfile_failure_has_no_data w r w1 E) as (d' & e' & Hre & Hnull).
    assert (Hwp : wp AuthStore.refreshProfile
                     (fun c w2 => c = Normal tt
                                  /\ userProfile (authStore w2) = opt_prop "data" r
                                  /\ user (authStore w2) = user (authStore w)
                                  /\ calls w2 = calls w1) w).
    { unfold AuthStore.refreshProfile. apply wp_try_catch. apply wp_bind.
      unfold wp at 1. rewrite E. cbn [fst snd]. rewrite (opt_prop_of _ _ _ Hd).
      wp_run. stores_known. auto. }
    unfold wp in Hwp. destruct (AuthStore.refreshProfile w) as [c w2].
    cbn [fst snd] in Hwp. destruct Hwp as (-> & Hprof & Hrest). exists w2.
    split; [exact E|]. split; [reflexivity|]. split; [exact Hprof|].
    split; [|exact Hrest].
    intro Ht. rewrite Hprof. subst r. cbn in Ht |- *. apply Hnull. exact Ht.
  - destruct (wrapper_call S_incrementUsageCount w eq_refl eq_refl eq_refl)
      as (r & w1 & data & error & E & Hd & He & Ha & Hp & Hed).
    cbn [run] in E. exists r, w1.
    assert (Hwp : wp AuthStore.incrementUsage
                     (fun c w2 => c = Normal tt
                                  /\ userProfile (authStore w2)
                                     = (if truthy (opt_prop "data" r) then opt_prop "data" r
                                        else userProfile (authStore w))
                                  /\ user (authStore w2) = user (authStore w)
                                  /\ calls w2 = calls w1) w).
    { unfold AuthStore.incrementUsage. apply wp_try_catch. apply wp_bind.
      unfold wp at 1. rewrite E. cbn [fst snd]. rewrite (opt_prop_of _ _ _ Hd).
      wp_run. destruct (truthy data); wp_run; stores_known; auto. }
    unfold wp in Hwp. destruct (AuthStore.incrementUsage w) as [c w2].
    cbn [fst snd] in Hwp. destruct Hwp as (-> & Hrest). exists w2. auto.
Qed.

(** X22. The auth listener follows the session: an event without a
    session user clears [user] and [userProfile] and sends nothing; an
    event with one sets [user] to it and [userProfile] to the [data] of
    one profile request. *)
Theorem authStore_listener_follows_the_session (w : World) (event session : Value) :
  (truthy (opt_prop "user" session) = false ->
   exists w',
     AuthStore.onAuthStateChange_listener event session w = (Normal tt, w')
     /\ user (authStore w') = VNull
     /\ userProfile (authStore w') = VNull
     /\ calls w' = calls w)
  /\ (truthy (opt_prop "user" session) = true ->
      exists r w1 w',
        Supabase.getUserProfile w = (Normal r, w1)
        /\ AuthStore.onAuthStateChange_listener event session w = (Normal tt, w')
        /\ user (authStore w') = opt_prop "user" session
        /\ userProfile (authStore w') = opt_prop "data" r
        /\ calls w' = calls w1).
Proof.
  split.
  - intro Hs. eexists. split.
    + apply wp_eq. unfold AuthStore.onAuthStateChange_listener. cbv zeta. rewrite Hs.
      wp_run. reflexivity.
    + cbn. auto.
  - intro Hs.
    destruct (wrapper_call S_getUserProfile w eq_refl eq_refl eq_refl)
      as (r & w1 & data & error & E & Hd & He & Ha & Hp & Hed).
    cbn [run] in E. exists r, w1.
    assert (Hu : prop "user" session = Normal (opt_prop "user" session)).
    { unfold opt_prop in *. destruct (prop "user" session); [reflexivity|discriminate Hs]. }
    assert (Hwp : wp (AuthStore.onAuthStateChange_listener event session)
                     (fun c w' => c = Normal tt
                                  /\ user (authStore w') = opt_prop "user" session
                                  /\ userProfile (authStore w') = opt_prop "data" r
                                  /\ calls w' = calls w1) w).
    { unfold AuthStore.onAuthStateChange_listener. cbv zeta. rewrite Hs.
      apply wp_bind. unfold wp at 1. rewrite E. cbn [fst snd].
      rewrite (opt_prop_of _ _ _ Hd). wp_run. stores_known. auto. }
    unfold wp in Hwp.
    destruct (AuthStore.onAuthStateChange_listener event session w) as [c w'].
    cbn [fst snd] in Hwp. destruct Hwp as (-> & Hrest). exists w'. auto.
Qed.

End AuthStoreTheorems.


(** ** App.tsx and the navigation handlers *)

Section Routing.
Context `{Platform}.

Lemma prefix_comparable (p q h : string) :
  String.prefix p h = true -> String.prefix q h = true ->
  String.prefix p q = true \/ String.prefix q p = true.
Proof.
  revert p q. induction h as [|c h IH]; intros p q Hp Hq.
  - destruct p; [left; destruct q; reflexivity|discriminate Hp].
  - destruct p as [|a p]; [left; destruct q; reflexivity|].
    destruct q as [|b q]; [right; reflexivity|].
    simpl in Hp, Hq.
    destruct (ascii_dec a c) as [->|]; [|discriminate Hp].
    destruct (ascii_dec b c) as [->|]; [|discriminate Hq].
    destruct (IH p q Hp Hq) as [Hpq|Hqp]; [left|right]; simpl;
      (destruct (ascii_dec c c); [assumption|contradiction]).
Qed.

Lemma prefix_app (p s : string) : String.prefix p (p ++ s)%string = true.
Proof.
  induction p as [|a p IH]; [destruct s; reflexivity|]. simpl.
  destruct (ascii_dec a a); [exact IH|contradiction].
Qed.

(** A test [hash.startsWith(q)] that comes before the one that is known
    to succeed, for a [q] that is not comparable with it, fails. *)
Ltac earlier_tests Hp :=
  repeat match goal with
         | |- context [String.prefix ?q ?hash] =>
             let E := fresh "E" in
             destruct (String.prefix q hash) eqn:E;
             [ first [ reflexivity
                     | exfalso;
                       destruct (prefix_comparable _ _ _ E Hp) as [Hc|Hc];
                       discriminate Hc ]
             | ]
         end.

Lemma route_unique (hash p : string) (v : App.View) :
  In (p, v) App.route_table ->
  String.prefix p hash = true ->
  App.first_matching_route hash = v.
Proof.
  intros Hin Hp. unfold App.first_matching_route, App.route_table in *.
  cbn [find fst snd]. simpl in Hin.
  repeat (destruct Hin as [Hin|Hin];
          [ injection Hin as <- <-; rewrite ?Hp; earlier_tests Hp;
            try reflexivity; try congruence
          | ]).
  contradiction.
Qed.

Lemma router_view (hash : string) (st : App.AppState) :
  App.currentView (App.handleHashChange hash st) = App.first_matching_route hash.
Proof.
  unfold App.handleHashChange, App.first_matching_route, App.route_table, App.startsWith.
  cbn [find fst snd].
  repeat match goal with
         | |- context [String.prefix ?q hash] => destruct (String.prefix q hash)
         end; reflexivity.
Qed.

(** X23. No prefix of the routing table is a prefix of another, so a
    hash matches at most one route and the order of the tests in
    [handleHashChange] is immaterial: whenever the hash starts with the
    prefix of a route, the router sets the view of that route. *)
Theorem router_is_decided_by_any_matching_prefix
        (hash p : string) (v : App.View) (st : App.AppState) :
  In (p, v) App.route_table ->
  App.startsWith hash p = true ->
  App.currentView (App.handleHashChange hash st) = v.
Proof.
  intros Hin Hp. rewrite router_view. exact (route_unique hash p v Hin Hp).
Qed.

Lemma route_not_public (hash : string) :
  String.prefix "#/pricing" hash = false ->
  String.prefix "#/support" hash = false ->
  App.first_matching_route hash <> App.pricing
  /\ App.first_matching_route hash <> App.support.
Proof.
  intros Hp Hs. unfold App.first_matching_route, App.route_table.
  cbn [find fst snd]. rewrite Hp, Hs.
  repeat match goal with
         | |- context [String.prefix ?q hash] => destruct (String.prefix q hash)
         end; split; discriminate.
Qed.

(** X24. What [App] shows.  Until the auth store is initialized, the
    spinner.  To a visitor who is not signed in, for every hash: the
    pricing page if the hash starts with [#/pricing], the support page
    if it starts with [#/support], and the landing page otherwise, so
    never the dashboard, the editor, the brief generator, the team page
    or the settings.  To a signed-in user, never the landing page. *)
Theorem app_shows_protected_screens_to_signed_in_users_only :
  (forall user view, Shell.render false user view = Shell.LoadingSpinner_screen)
  /\ (forall user hash st,
         truthy user = false ->
         Shell.render true user (App.currentView (App.handleHashChange hash st))
         = if String.prefix "#/pricing" hash then Shell.PricingPage_screen
           else if String.prefix "#/support" hash then Shell.SupportFAQ_screen
           else Shell.Landing_screen)
  /\ (forall user view,
         truthy user = true ->
         Shell.render true user view <> Shell.Landing_screen
         /\ Shell.render true user view <> Shell.LoadingSpinner_screen).
Proof.
  split; [reflexivity|]. split.
  - intros user hash st Hu. rewrite router_view. unfold Shell.render. cbn [negb]. rewrite Hu.
    destruct (String.prefix "#/pricing" hash) eqn:Ep.
    + rewrite (route_unique hash "#/pricing" App.pricing); [reflexivity| |exact Ep].
      simpl. auto 10.
    + destruct (String.prefix "#/support" hash) eqn:Es.
      * rewrite (route_unique hash "#/support" App.support); [reflexivity| |exact Es].
        simpl. auto 10.
      * destruct (route_not_public hash Ep Es) as [Hnp Hns].
        destruct (App.first_matching_route hash); try reflexivity; contradiction.
  - intros user view Hu. unfold Shell.render. cbn [negb]. rewrite Hu.
    destruct view; split; discriminate.
Qed.

(** X25. Navigation reaches the intended view.  Opening a project card
    selects the project, empties the article list of the store (so the
    articles of the project shown before are not shown under the new
    one), sends nothing, and assigns a hash that the router sends to the
    editor, whatever the id is; "manage team" on a card or in the editor
    leads to the team page; the quick actions and the settings button of
    the dashboard lead to the brief generator, the team page, the
    pricing page and the settings; "back" in the editor leads to the
    dashboard. *)
Theorem navigation_reaches_the_intended_view (template : Value -> string) :
  (forall project id w,
      prop "id" project = Normal id ->
      exists hash w',
        ProjectCard.handleOpenProject template project w = (Normal hash, w')
        /\ (forall st, App.currentView (App.handleHashChange hash st) = App.editor_view)
        /\ currentProject (projectStore w') = project
        /\ articles (projectStore w') = VArr []
        /\ projects (projectStore w') = projects (projectStore w)
        /\ calls w' = calls w)
  /\ (forall project id w,
         prop "id" project = Normal id ->
         exists hash,
           ProjectCard.handleManageTeam template project w = (Normal hash, w)
           /\ forall st, App.currentView (App.handleHashChange hash st) = App.team)
  /\ (forall w,
         match fst (EditorNavigation.handleManageTeam template w) with
         | Normal (Some hash) =>
             forall st, App.currentView (App.handleHashChange hash st) = App.team
         | Normal None => truthy (currentProject (projectStore w)) = false
         | Throw _ => False
         end)
  /\ (forall st,
         map (fun path => App.currentView
                            (App.handleHashChange (Dashboard.handleNavigation path) st))
             Dashboard.destinations
         = [App.brief_generator; App.team; App.pricing; App.settings])
  /\ (forall st,
         App.currentView (App.handleHashChange EditorNavigation.handleBack st)
         = App.dashboard).
Proof.
  split; [|split; [|split; [|split]]].
  - intros project id w Hid.
    exists ("#/project/" ++ template id)%string, (snd (ProjectStore.setCurrentProject project w)).
    split; [apply wp_eq; wp_run; reflexivity|].
    split.
    + intro st. rewrite router_view.
      apply (route_unique _ "#/project/"); [simpl; auto 10|apply prefix_app].
    + cbn. auto.
  - intros project id w Hid. exists ("#/team/" ++ template id)%string.
    split; [apply wp_eq; wp_run; reflexivity|].
    intro st. rewrite router_view.
    apply (route_unique _ "#/team"); [simpl; auto 10|].
    change ("#/team/" ++ template id)%string
      with ("#/team" ++ ("/" ++ template id))%string.
    apply prefix_app.
  - intro w. unfold EditorNavigation.handleManageTeam, bind, read, get, lift, ret.
    cbn [fst snd].
    destruct (truthy (currentProject (projectStore w))) eqn:Et; [|reflexivity].
    rewrite (prop_truthy "id" _ Et). cbn [fst].
    intro st. rewrite router_view.
    apply (route_unique _ "#/team"); [simpl; auto 10|].
    match goal with
    | |- context [("#/team/" ++ ?s)%string] =>
        change ("#/team/" ++ s)%string with ("#/team" ++ ("/" ++ s))%string
    end.
    apply prefix_app.
  - intro st. reflexivity.
  - intro st. reflexivity.
Qed.

End Routing.


(** ** ArticleEditor.tsx: the article list and saving *)

Section PanelLogic.
Context `{Platform}.

Lemma ewp_ret {A} (a : A) Q p w : Q (Normal a) p w -> ewp (eret a) Q p w.
Proof. auto. Qed.

Lemma ewp_bind {A B} (m : PanelM A) (k : A -> PanelM B) Q p w :
  ewp m (fun c p1 w1 => match c with
                        | Normal a => ewp (k a) Q p1 w1
                        | Throw e => Q (Throw e) p1 w1
                        end) p w ->
  ewp (ebind m k) Q p w.
Proof. unfold ewp, ebind. destruct (m p w) as [[[a|e] p1] w1]; auto. Qed.

Lemma ewp_try_catch {A} (body : PanelM A) handler Q p w :
  ewp body (fun c p1 w1 => match c with
                           | Normal a => Q (Normal a) p1 w1
                           | Throw e => ewp (handler e) Q p1 w1
                           end) p w ->
  ewp (etry_catch body handler) Q p w.
Proof. unfold ewp, etry_catch. destruct (body p w) as [[[a|e] p1] w1]; auto. Qed.

Lemma ewp_try_finally {A} (body : PanelM A) cleanup Q p w :
  ewp body (fun c p1 w1 =>
              ewp cleanup (fun c' p2 w2 => match c' with
                                           | Normal _ => Q c p2 w2
                                           | Throw e => Q (Throw e) p2 w2
                                           end) p1 w1) p w ->
  ewp (etry_finally body cleanup) Q p w.
Proof.
  unfold ewp, etry_finally. destruct (body p w) as [[c p1] w1]. cbn [fst snd].
  destruct (cleanup p1 w1) as [[[u|e] p2] w2]; auto.
Qed.

Lemma ewp_lift {A} (m : M A) Q p w :
  wp m (fun c w1 => Q c p w1) w -> ewp (elift m) Q p w.
Proof. unfold ewp, elift, wp. destruct (m w); auto. Qed.

Lemma ewp_modify f Q p w : Q (Normal tt) (f p) w -> ewp (modify f) Q p w.
Proof. auto. Qed.

Lemma ewp_gets {A} (f : ArticlesPanel -> A) Q p w :
  Q (Normal (f p)) p w -> ewp (gets f) Q p w.
Proof. auto. Qed.

Lemma ewp_weaken {A} (m : PanelM A) (Q Q' : Completion A -> ArticlesPanel -> World -> Prop)
      p w :
  ewp m Q p w -> (forall c p' w', Q c p' w' -> Q' c p' w') -> ewp m Q' p w.
Proof. unfold ewp. auto. Qed.

End PanelLogic.

Ltac ewp_step :=
  cbv zeta;
  lazymatch goal with
  | |- ewp (ebind _ _) _ _ _ => apply ewp_bind
  | |- ewp (etry_catch _ _) _ _ _ => apply ewp_try_catch
  | |- ewp (etry_finally _ _) _ _ _ => apply ewp_try_finally
  | |- ewp (eret _) _ _ _ => apply ewp_ret
  | |- ewp (modify _) _ _ _ => apply ewp_modify
  | |- ewp (gets _) _ _ _ => apply ewp_gets
  | |- ewp (ArticlesList.showNotification _ _) _ _ _ =>
      unfold ArticlesList.showNotification; apply ewp_lift
  | |- ewp (elift (Firebase.getProjectArticles ?i)) _ _ ?w =>
      apply ewp_lift;
      apply (wp_call (F_getProjectArticles i) _ w eq_refl eq_refl eq_refl);
      intros ? ? ? ? ? ? ? ? ? ?
  | |- ewp (elift (Firebase.updateArticle ?a ?u)) _ _ ?w =>
      apply ewp_lift;
      apply (wp_call (F_updateArticle a u) _ w eq_refl eq_refl eq_refl);
      intros ? ? ? ? ? ? ? ? ? ?
  | |- ewp (elift (Firebase.createArticle ?i ?t ?c)) _ _ ?w =>
      apply ewp_lift;
      apply (wp_call (F_createArticle i t c) _ w eq_refl eq_refl eq_refl);
      intros ? ? ? ? ? ? ? ? ? ?
  | |- ewp (elift _) _ _ _ => apply ewp_lift
  | |- ewp (if _ then _ else _) _ _ _ => fail
  end.

Ltac ewp_run := repeat (first [ewp_step | wp_step | wp_known]; wp_simpl).

Section Panel.
Context `{Platform}.

Lemma loadArticles_run (p : ArticlesPanel) (w : World) :
  truthy (currentProject (projectStore w)) = true ->
  ewp ArticlesList.loadArticles
      (fun c p' w' =>
         exists r w1,
           Firebase.getProjectArticles
             (opt_prop "id" (currentProject (projectStore w))) w = (Normal r, w1)
           /\ c = Normal tt
           /\ articles_loaded r p w p' w'
           /\ calls w' = calls w1
           /\ projectStore w' = projectStore w) p w.
Proof.
  intro Hcp.
  pose proof (truthy_not_falsy _ Hcp) as Hf.
  pose proof (prop_truthy "id" _ Hcp) as Hid.
  unfold ArticlesList.loadArticles, articles_loaded.
  ewp_run.
  match goal with
  | Hrun : run (F_getProjectArticles _) w = (Normal ?r, ?w1),
    Hd : prop "data" ?r = Normal ?data,
    He : prop "error" ?r = Normal ?error |- _ =>
      cbn [run] in Hrun;
      destruct (truthy error) eqn:Ee; ewp_run;
      exists r, w1; (split; [exact Hrun|]);
      rewrite (opt_prop_of _ _ _ Hd), (opt_prop_of _ _ _ He), Ee
  end; cbn;
    repeat match goal with
           | Hx : editorState ?x = _ |- context [editorState ?x] => rewrite Hx
           | Hx : projectStore ?x = _ |- context [projectStore ?x] => rewrite Hx
           end; auto 10.
Qed.

(** X26. [loadArticles] does nothing without a current project.  With
    one it asks for the articles of that project and always completes
    with [loadingArticles] false: when the request returned an error it
    keeps the list and shows 'Failed to load articles', otherwise it
    replaces the list by [data || []] and shows nothing.  It touches
    nothing else of the panel. *)
Theorem loadArticles_releases_loading (p : ArticlesPanel) (w : World) :
  (truthy (currentProject (projectStore w)) = false ->
   ArticlesList.loadArticles p w = ((Normal tt, p), w))
  /\ (truthy (currentProject (projectStore w)) = true ->
      exists r w1 p' w',
        Firebase.getProjectArticles (opt_prop "id" (currentProject (projectStore w))) w
        = (Normal r, w1)
        /\ ArticlesList.loadArticles p w = ((Normal tt, p'), w')
        /\ articles_loaded r p w p' w'
        /\ calls w' = calls w1).
Proof.
  split.
  - intro Hcp. unfold ArticlesList.loadArticles, ebind, elift, read, eret.
    cbn. unfold falsy. rewrite Hcp. reflexivity.
  - intro Hcp. pose proof (loadArticles_run p w Hcp) as Hr. unfold ewp in Hr.
    destruct (ArticlesList.loadArticles p w) as [[c p'] w']. cbn [fst snd] in Hr.
    destruct Hr as (r & w1 & E & -> & Hl & Hc & _). exists r, w1, p', w'. auto.
Qed.


Lemma handleSave_run (p : ArticlesPanel) (w : World) :
  save_barred w = None ->
  ewp ArticlesList.handleSave
      (fun c p' w' =>
         exists r w1,
           save_write p w w = (Normal r, w1)
           /\ c = Normal tt
           /\ isSaving p' = false
           /\ if truthy (opt_prop "error" r)
              then notifications (editorState w')
                   = notifications (editorState w) ++ [save_failed]
                   /\ calls w' = calls w1
                   /\ currentArticleId p' = currentArticleId p
                   /\ articleList p' = articleList p
                   /\ loadingArticles p' = loadingArticles p
              else (exists rest,
                       notifications (editorState w')
                       = notifications (editorState w) ++ save_succeeded p :: rest)
                   /\ loadingArticles p' = false
                   /\ currentArticleId p'
                      = (if truthy (currentArticleId p) then currentArticleId p
                         else if truthy (opt_prop "data" r)
                              then opt_prop "id" (opt_prop "data" r)
                              else currentArticleId p)) p w.
Proof.
  unfold save_barred. cbv zeta. intro Hb.
  destruct (String.eqb (trim (title (editorState w))) "" ||
            falsy (ArticlesList.getHTML (editorState w))) eqn:E1; [discriminate Hb|].
  destruct (falsy (currentProject (projectStore w))) eqn:E2; [discriminate Hb|].
  destruct (falsy (canEdit (editorState w))) eqn:E3; [discriminate Hb|]. clear Hb.
  assert (Hcp : truthy (currentProject (projectStore w)) = true).
  { unfold falsy in E2. destruct (truthy (currentProject (projectStore w)));
      [reflexivity|discriminate E2]. }
  pose proof (prop_truthy "id" _ Hcp) as Hid.
  unfold ArticlesList.handleSave, save_write, save_succeeded, save_failed. cbv zeta.
  ewp_run. rewrite E1. cbn beta iota. rewrite ?E2, ?E3.
  ewp_run.
  destruct (truthy (currentArticleId p)) eqn:Ea; ewp_run;
    match goal with
    | Hrun : run _ w = (Normal ?r, ?w1),
      Hd : prop "data" ?r = Normal ?data,
      He : prop "error" ?r = Normal ?error,
      Hes : editorState ?w1 = editorState w,
      Hps : projectStore ?w1 = projectStore w |- _ =>
        cbn [run] in Hrun;
        destruct (truthy error) eqn:Ee; ewp_run;
        [ exists r, w1; (split; [exact Hrun|]);
          rewrite (opt_prop_of _ _ _ He), Ee; cbn; rewrite ?Hes; auto 10
        | try (destruct (truthy data) eqn:Edata;
               [ pose proof (prop_truthy "id" data Edata) | ]);
          ewp_run;
          (eapply ewp_weaken;
           [ apply loadArticles_run; cbn; rewrite ?Hps; exact Hcp
           | intros c p' w' (r' & w1' & Eg & -> & Hl & Hc & Hp');
             ewp_run;
             exists r, w1; (split; [exact Hrun|]);
             rewrite (opt_prop_of _ _ _ He), Ee, ?(opt_prop_of _ _ _ Hd), ?Edata;
             destruct Hl as (Hl1 & Hl2 & Hl3 & Hl4);
             cbn in Hl2, Hl3, Hl4 |- *; rewrite ?Hes in Hl4;
             (split; [reflexivity|]); (split; [reflexivity|]);
             (split; [|split; [exact Hl1|exact Hl3]]);
             destruct (truthy (opt_prop "error" r'));
             destruct Hl4 as (_ & ->);
             [ eexists [_] | exists [] ];
             rewrite <- ?app_assoc; reflexivity ]) ]
    end.
Qed.

Lemma ewp_eq {A} (m : PanelM A) x p w :
  ewp m (fun c p' w' => ((c, p'), w') = x) p w -> m p w = x.
Proof. unfold ewp. destruct (m p w) as [[c p'] w']. auto. Qed.


End Panel.

(* ===================================================================== *)
(** ** Runs of the further properties                                     *)
(* ===================================================================== *)

Section Scenarios.
Import Reference Demo.

(** [getUserProjects] while the network is down: the stores are untouched. *)
Lemma getUserProjects_offline_leaves_the_stores :
  authStore (snd (run S_getUserProjects offline)) = authStore offline
  /\ projectStore (snd (run S_getUserProjects offline)) = projectStore offline
  /\ editorState (snd (run S_getUserProjects offline)) = editorState offline.
Proof. apply (lib_wrappers_leave_the_stores_alone S_getUserProjects offline). reflexivity. Defined.

(** Checking whether Ann may edit [p1] sends reads, and only reads. *)
Lemma canUserEditProject_only_reads :
  forallb is_read (emitted (run (S_canUserEditProject (VStr "p1"))) (boot (signed_in ann [])))
  = true
  /\ emitted (run (S_canUserEditProject (VStr "p1"))) (boot (signed_in ann [])) <> [].
Proof.
  split.
  - apply (read_only_operations_only_read (S_canUserEditProject (VStr "p1"))). reflexivity.
  - discriminate.
Defined.

(** Removing Ann from [p1] through supabase.ts deletes no row: her row
    stays, with status ['inactive']. *)
Lemma removeTeamMember_deletes_nothing :
  forallb (fun r => negb (is_delete r))
          (emitted (run (S_removeTeamMember (VStr "p1") (VStr "u-ann")))
                   (boot (signed_in ann []))) = true
  /\ map (column "status") (rows "team_members"
        (platform (snd (run (S_removeTeamMember (VStr "p1") (VStr "u-ann"))
                            (boot (signed_in ann []))))))
     = [VStr "inactive"].
Proof.
  split.
  - apply (only_cancelInvitation_and_deleteComment_delete
             (S_removeTeamMember (VStr "p1") (VStr "u-ann"))). reflexivity.
  - reflexivity.
Defined.

(** [getProjectArticles] while the request is rejected returns a result
    object. *)
Lemma getProjectArticles_offline_returns_a_result :
  exists v w', run (S_getProjectArticles (VStr "p1")) offline = (Normal v, w') /\ is_result v.
Proof.
  apply (wrappers_return_a_result_object (S_getProjectArticles (VStr "p1")) offline);
    reflexivity.
Defined.

(** [fetchArticles] of the project store completes while the request is
    rejected. *)
Lemma fetchArticles_offline_completes :
  exists v w', run (P_fetchArticles (VStr "p1")) offline = (Normal v, w').
Proof. apply (getters_and_actions_complete (P_fetchArticles (VStr "p1")) offline). reflexivity. Defined.

(** [getProjectInvitations] of firebase.ts while the request is rejected:
    [data] is an array. *)
Lemma getProjectInvitations_offline_returns_a_list :
  exists data error w',
    run (F_getProjectInvitations (VStr "p1")) offline
    = (Normal (obj [("data", data); ("error", error)]), w')
    /\ truthy data = true
    /\ (supabase_op (F_getProjectInvitations (VStr "p1")) = false
        -> exists items, data = VArr items).
Proof.
  apply (list_wrappers_always_return_a_list (F_getProjectInvitations (VStr "p1")) offline).
  reflexivity.
Defined.

(** [createProject] of supabase.ts with nobody signed in: refused after
    [auth.getUser], and no project is stored. *)
Lemma createProject_signed_out_is_refused :
  fst (run (S_createProject (VStr "Blog") VNull) signed_out)
  = Normal (Supabase.result VNull not_authenticated)
  /\ emitted (run (S_createProject (VStr "Blog") VNull)) signed_out = [auth_getUser]
  /\ rows "projects" (platform (snd (run (S_createProject (VStr "Blog") VNull) signed_out)))
     = rows "projects" deployment.
Proof.
  destruct (supabase_wrappers_stop_without_a_user
              (S_createProject (VStr "Blog") VNull) signed_out eq_refl eq_refl)
    as (E & Hs & _).
  - eexists. eexists. split; reflexivity.
  - split; [exact E|]. split; [exact Hs|]. reflexivity.
Defined.

(** [createProject] of firebase.ts with nobody signed in. *)
Lemma firebase_createProject_signed_out_is_refused :
  exists msg,
    run (F_createProject (VStr "Blog") VNull) signed_out
    = (Normal (Firebase.result VNull not_authenticated),
       noted msg not_authenticated signed_out).
Proof.
  apply (firebase_wrappers_stop_without_a_user
           (F_createProject (VStr "Blog") VNull) signed_out); reflexivity.
Defined.


(** [removeTeamMember] of supabase.ts returns the row the update returned
    and logs the activity. *)
Lemma removeTeamMember_returns_the_updated_row :
  exists data args,
    fst (run (S_removeTeamMember (VStr "p1") (VStr "u-ann")) (boot (signed_in ann [])))
    = Normal (Supabase.result data VNull)
    /\ column "status" data = VStr "inactive"
    /\ emitted (run (S_removeTeamMember (VStr "p1") (VStr "u-ann"))) (boot (signed_in ann []))
       = [postgrest (from_ "team_members" (update (obj [("status", VStr "inactive")]))
                      [eq "project_id" (VStr "p1"); eq "user_id" (VStr "u-ann");
                       returning "*"; single]);
          rpc "log_activity" args].
Proof.
  destruct (supabase_writes_pass_the_answer_through
              (S_removeTeamMember (VStr "p1") (VStr "u-ann")) (boot (signed_in ann []))
              _ eq_refl) as (Hok & _).
  epose proof (Hok _ _ _ _ eq_refl eq_refl eq_refl) as (E & Hsent).
  lazy beta iota delta [logs andb truthy falsy negb] in Hsent.
  destruct Hsent as (args & Hsent).
  eexists. exists args. split; [exact E|]. split; [reflexivity | exact Hsent].
Defined.

(** Bob, who has no membership and sent no invitation to Carol, invites
    her: the insert names him as the inviter. *)
Lemma bob_invites_carol :
  exists data,
    fst (Supabase.inviteTeamMember (VStr "p1") (VStr "carol@x.io") (VStr "viewer")
                                   (boot (signed_in bob [])))
    = Normal (Supabase.result data VNull)
    /\ column "invited_by" data = VStr "u-bob"
    /\ emitted (Supabase.inviteTeamMember (VStr "p1") (VStr "carol@x.io") (VStr "viewer"))
               (boot (signed_in bob []))
       = [auth_getUser;
          caller_membership_lookup (VStr "p1") (VStr "u-bob");
          pending_invitation_lookup (VStr "p1") (VStr "carol@x.io") 1000;
          invitation_insert (VStr "p1") (VStr "carol@x.io") (VStr "viewer") (VStr "u-bob");
          invited_log (VStr "p1") (VStr "carol@x.io") (VStr "viewer")].
Proof.
  edestruct (inviteTeamMember_inserts_after_two_empty_lookups
               (boot (signed_in bob [])) (VStr "p1") (VStr "carol@x.io") (VStr "viewer")
               bob (VStr "u-bob"))
    as (_ & Hins).
  - do 2 eexists. repeat split; reflexivity.
  - reflexivity.
  - reflexivity.
  - reflexivity.
  - reflexivity.
  - reflexivity.
  - edestruct Hins as (E & Hsent); [reflexivity | reflexivity | reflexivity | reflexivity |].
    eexists. split; [exact E|]. split; [reflexivity | exact Hsent].
Defined.

(** Ann presents the token of the invitation sent to Bob. *)
Lemma ann_cannot_accept_the_invitation_of_bob :
  fst (Supabase.acceptInvitation (VStr "t-bob") (boot (signed_in ann [])))
  = Normal email_mismatch
  /\ emitted (Supabase.acceptInvitation (VStr "t-bob")) (boot (signed_in ann []))
     = [auth_getUser; invitation_lookup (VStr "t-bob") 1000].
Proof.
  edestruct (acceptInvitation_refuses_before_it_writes
               (boot (signed_in ann [])) (VStr "t-bob") ann (VStr "u-ann"))
    as (_ & Hmis & _).
  - do 2 eexists. repeat split; reflexivity.
  - reflexivity.
  - reflexivity.
  - reflexivity.
  - apply Hmis; reflexivity.
Defined.

(** The project document is added and the membership is rejected: the
    project is stored and has no member. *)
Lemma firebase_createProject_leaves_the_project_without_a_member :
  exists w',
    Firebase.createProject (VStr "Blog") VNull
                           (boot (signed_in ann [Healthy; Rejects network_error]))
    = (Normal (Firebase.result VNull network_error), w')
    /\ map (column "id") (documents "projects" (platform w')) = [VStr "doc-7"]
    /\ documents "team_members" (platform w') = [].
Proof.
  edestruct (firebase_createProject_has_no_rollback
               (boot (signed_in ann [Healthy; Rejects network_error]))
               (VStr "Blog") VNull (VStr "u-ann"))
    as (Hrej & _).
  - split; reflexivity.
  - reflexivity.
  - reflexivity.
  - eexists. split; [apply Hrej; reflexivity|]. split; reflexivity.
Defined.

(** A user without a membership document gets the empty list after one
    query. *)
Lemma firebase_getUserProjects_of_a_new_user :
  exists w',
    Firebase.getUserProjects (boot (signed_in ann []))
    = (Normal (Firebase.result (VArr []) VNull), w')
    /\ calls w' = [active_memberships (VStr "u-ann")].
Proof.
  eexists. split.
  - eapply (firebase_getUserProjects_without_memberships
             (boot (signed_in ann [])) (VStr "u-ann")).
    + split; reflexivity.
    + reflexivity.
    + reflexivity.
  - reflexivity.
Defined.

(** With two membership documents of Ann for [p1], only the first is set
    inactive. *)
Lemma firebase_removeTeamMember_leaves_the_second_match :
  fst (run (F_removeTeamMember (VStr "p1") (VStr "u-ann")) (boot firestore))
  = Normal (Firebase.result (obj [("id", VStr "m-1")]) VNull)
  /\ map (fun d => (column "id" d, column "status" (opt_prop "data" d)))
         (documents "team_members"
            (platform (snd (run (F_removeTeamMember (VStr "p1") (VStr "u-ann"))
                                (boot firestore)))))
     = [(VStr "m-1", VStr "inactive"); (VStr "m-2", VStr "active")].
Proof.
  edestruct (firebase_member_changes_touch_the_first_match_only
               (F_removeTeamMember (VStr "p1") (VStr "u-ann")) (boot firestore))
    as (Hfirst & _).
  - reflexivity.
  - reflexivity.
  - reflexivity.
  - edestruct Hfirst as (E & _); [reflexivity | reflexivity | reflexivity | reflexivity |].
    split; [exact E | reflexivity].
Defined.

(** Signing out from the dashboard while the request is rejected: the
    handler throws, [loading] stays true and nothing is shown. *)
Lemma signOut_offline_keeps_ann_signed_in :
  exists w',
    Dashboard.handleSignOut offline = (Throw network_error, w')
    /\ auth_loading (authStore w') = true
    /\ notifications (editorState w') = [].
Proof.
  pose proof (authStore_signOut_clears_or_hangs
                offline (Throw network_error) _ eq_refl) as (w' & _ & _ & _ & Hl & E & Hn).
  exists w'. split; [exact E|]. split; [exact Hl | exact Hn].
Defined.

(** The hash [#/team/p1] leads to the team page. *)
Lemma team_hash_opens_the_team_page :
  App.currentView
    (App.handleHashChange "#/team/p1"
       {| App.showAuthModal := false; App.authMode := "signin";
          App.currentView := App.landing |})
  = App.team.
Proof.
  apply (router_is_decided_by_any_matching_prefix "#/team/p1" "#/team" App.team).
  - simpl. auto 10.
  - reflexivity.
Defined.


(** Loading the articles while the request is rejected. *)
Lemma loadArticles_offline_keeps_the_list :
  exists p' w',
    ArticlesList.loadArticles fresh_panel (writing [Rejects network_error])
    = ((Normal tt, p'), w')
    /\ loadingArticles p' = false
    /\ articleList p' = VArr []
    /\ notifications (editorState w') = [("Failed to load articles", "error")].
Proof.
  destruct (proj2 (loadArticles_releases_loading
                     fresh_panel (writing [Rejects network_error])) eq_refl)
    as (r & w1 & p' & w' & Hr & E & (Hl & _ & _ & Hlist) & _).
  exists p', w'. split; [exact E|]. split; [exact Hl|].
  apply (f_equal (fun x => match fst x with
                           | Normal v => truthy (opt_prop "error" v)
                           | Throw _ => false
                           end)) in Hr.
  cbv beta iota delta [fst] in Hr.
  change (true = truthy (opt_prop "error" r)) in Hr.
  rewrite <- Hr in Hlist. exact Hlist.
Defined.


End Scenarios.
